(** * LegacyDataProcessor: a shallow embedding of [test-files/sample.py]

    The Python class [LegacyDataProcessor] is embedded function by function.
    Python values are a closed variant [value]; a Python [dict] is an
    association list in insertion order (iteration order is observable:
    key collisions in [_normalize_data], the tie-break of [min] during
    eviction); an exception is an explicit [Raise]; the cache and the
    system clock are threaded through a small state-and-error monad.

    Text is modelled on the code points below 256: a Rocq [ascii] is the
    Python character with that code point, and the character classes
    below are the ones Python uses there.  A [float] is an IEEE 754
    binary64 number ([spec_float]); [sum] adds from left to right.  [int]
    of a string keeps the interpreter's default limit of 4300 digits;
    the same limit on the way back, which [json.dumps] meets in
    [_generate_cache_key] for an integer of more than 4300 digits, is
    not modelled (every payload is given a key), nor is the recursion
    limit (a payload is nested less deeply than it).  The library
    functions the
    repository calls and does not define ([json.loads], [hashlib.md5],
    [float.__repr__], [datetime.fromisoformat] and [isoformat]) and the
    system clock are fields of a record [library]. *)

From Stdlib Require Import ZArith NArith List String Ascii Bool Lia.
From Stdlib Require Import Permutation DecimalString OrderedTypeEx.
From Stdlib Require Import Floats.SpecFloat.
Import ListNotations.

#[local] Set Warnings "-register-all".

Local Open Scope string_scope.
Local Open Scope Z_scope.

(* ================================================================== *)
(** * Python [str] methods used by the processor *)

Module PyStr.

Definition code (c : ascii) : N := N_of_ascii c.

Definition in_range (lo hi : N) (c : ascii) : bool :=
  (N.leb lo (code c) && N.leb (code c) hi)%bool.

(** [c.isspace()]: TAB..CR, FS..US, SPACE, NEL (0x85), NBSP (0xA0). *)
Definition isspace_char (c : ascii) : bool :=
  (in_range 9 13 c || in_range 28 32 c
   || N.eqb (code c) 133 || N.eqb (code c) 160)%bool.

(** Decimal digits (category Nd): what [int], [float] and [\d] accept. *)
Definition isdecimal_char (c : ascii) : bool := in_range 48 57 c.

(** [c.isdigit()]: the decimal digits and the superscripts
    U+00B2, U+00B3, U+00B9. *)
Definition isdigit_char (c : ascii) : bool :=
  (isdecimal_char c || N.eqb (code c) 178 || N.eqb (code c) 179
   || N.eqb (code c) 185)%bool.

Definition is_ascii_upper (c : ascii) : bool := in_range 65 90 c.
Definition is_ascii_lower (c : ascii) : bool := in_range 97 122 c.

(** [c.lower()]: A-Z and U+00C0..U+00DE (except the multiplication
    sign U+00D7) move up by 32. *)
Definition lower_char (c : ascii) : ascii :=
  if (is_ascii_upper c
      || (in_range 192 222 c && negb (N.eqb (code c) 215)))%bool
  then ascii_of_N (code c + 32) else c.

Fixpoint lower (s : string) : string :=
  match s with
  | EmptyString => EmptyString
  | String c s' => String (lower_char c) (lower s')
  end.

Fixpoint all_chars (p : ascii -> bool) (s : string) : bool :=
  match s with
  | EmptyString => true
  | String c s' => (p c && all_chars p s')%bool
  end.

Definition nonempty (s : string) : bool :=
  match s with EmptyString => false | _ => true end.

(** [s.isdigit()], [s.isspace()]: every character and at least one. *)
Definition isdigit (s : string) : bool := (nonempty s && all_chars isdigit_char s)%bool.
Definition isdecimal (s : string) : bool := (nonempty s && all_chars isdecimal_char s)%bool.
Definition isspace (s : string) : bool := (nonempty s && all_chars isspace_char s)%bool.

(** Trimming the characters that satisfy [p] from both ends. *)
Fixpoint lstrip_with (p : ascii -> bool) (s : string) : string :=
  match s with
  | EmptyString => EmptyString
  | String c s' => if p c then lstrip_with p s' else s
  end.

Fixpoint rstrip_with (p : ascii -> bool) (s : string) : string :=
  match s with
  | EmptyString => EmptyString
  | String c s' =>
      match rstrip_with p s' with
      | EmptyString => if p c then EmptyString else String c EmptyString
      | r => String c r
      end
  end.

Definition strip_with (p : ascii -> bool) (s : string) : string :=
  rstrip_with p (lstrip_with p s).

(** [s.strip()] *)
Definition strip (s : string) : string := strip_with isspace_char s.

(** [s.startswith(p)] *)
Definition startswith (s p : string) : bool := String.prefix p s.

(** [x in [..]] on strings *)
Definition mem (s : string) (l : list string) : bool :=
  existsb (String.eqb s) l.

(** The value of a string of decimal digits, read left to right. *)
Fixpoint digits_value (acc : Z) (s : string) : Z :=
  match s with
  | EmptyString => acc
  | String c s' => digits_value (10 * acc + (Z.of_N (code c) - 48)) s'
  end.

End PyStr.

(* ================================================================== *)
(** * Exceptions *)

(** The exceptions that can leave the processor's routines.  An
    exception the source catches is handled where it is caught and does
    not appear here. *)
Inductive exn : Type :=
| ValueError
| OverflowError.

Inductive result (A : Type) : Type :=
| Ok (a : A)
| Raise (e : exn).
Arguments Ok {A} a.
Arguments Raise {A} e.

(** Sequencing: the first exception raised propagates. *)
Notation "x <- e ;; k" :=
  (match e with
   | Ok x => k
   | Raise err => Raise err
   end)
  (at level 61, e at next level, right associativity, only parsing).

(* ================================================================== *)
(** * Python [float]: IEEE 754 binary64 *)

Module PyFloat.

Definition prec : Z := 53.
Definition emax : Z := 1024.

Definition float : Type := spec_float.

Definition zero : float := S754_zero false.

(** The quotient [n / d] of two positive integers, correctly rounded
    (round half to even). *)
Definition of_ratio (neg : bool) (n d : positive) : float :=
  let '(q, e, l) := SFdiv_core_binary prec emax (Zpos n) 0 (Zpos d) 0 in
  binary_round_aux prec emax neg q e l.

(** The integer [z], correctly rounded; infinite when out of range. *)
Definition of_Z (z : Z) : float := binary_normalize prec emax z 0 false.

Definition is_inf (f : float) : bool :=
  match f with S754_infinity _ => true | _ => false end.

(** [float(z)] for an [int]: "int too large to convert to float". *)
Definition of_int (z : Z) : result float :=
  let f := of_Z z in
  if is_inf f then Raise OverflowError else Ok f.

(** [a / b] for an [int] [a] and a positive [int] [b]: the correctly
    rounded quotient, "integer division result too large for a float"
    when out of range. *)
Definition int_truediv (a : Z) (b : positive) : result float :=
  match a with
  | Z0 => Ok zero
  | Zpos n =>
      let f := of_ratio false n b in if is_inf f then Raise OverflowError else Ok f
  | Zneg n =>
      let f := of_ratio true n b in if is_inf f then Raise OverflowError else Ok f
  end.

Definition add (x y : float) : float := SFadd prec emax x y.
Definition div (x y : float) : float := SFdiv prec emax x y.
Definition ltb (x y : float) : bool := SFltb x y.
Definition leb (x y : float) : bool := SFleb x y.

(** Exact comparison of an [int] with a [float] (Python compares the
    mathematical values; [None] when the float is a NaN). *)
Definition compare_int (z : Z) (f : float) : option comparison :=
  match f with
  | S754_nan => None
  | S754_infinity s => Some (if s then Gt else Lt)
  | S754_zero _ => Some (Z.compare z 0)
  | S754_finite s m e =>
      let sm := if s then Zneg m else Zpos m in
      Some (if Z.leb 0 e then Z.compare z (sm * 2 ^ e)
            else Z.compare (z * 2 ^ (- e)) sm)
  end.

(** ** [float(s)] for a [str] *)

(** The digits following a digit: more digits, each optionally preceded
    by one underscore.  Returns the digits read and the rest. *)
Fixpoint digit_tail (s : string) : string * string :=
  match s with
  | EmptyString => (EmptyString, EmptyString)
  | String c s' =>
      if PyStr.isdecimal_char c then
        let '(d, r) := digit_tail s' in (String c d, r)
      else if Ascii.eqb c "_" then
        match s' with
        | String c2 s'' =>
            if PyStr.isdecimal_char c2 then
              let '(d, r) := digit_tail s'' in (String c2 d, r)
            else (EmptyString, s)
        | EmptyString => (EmptyString, s)
        end
      else (EmptyString, s)
  end.

(** [digitpart ::= digit (["_"] digit)*], possibly empty here. *)
Definition digitpart (s : string) : string * string :=
  match s with
  | String c s' =>
      if PyStr.isdecimal_char c then
        let '(d, r) := digit_tail s' in (String c d, r)
      else (EmptyString, s)
  | EmptyString => (EmptyString, EmptyString)
  end.

(** An optional sign: [true] for "-". *)
Definition sign (s : string) : bool * string :=
  match s with
  | String c s' =>
      if Ascii.eqb c "-" then (true, s')
      else if Ascii.eqb c "+" then (false, s')
      else (false, s)
  | EmptyString => (false, s)
  end.

(** [exponent ::= "e" [sign] digitpart], absent when the text ends. *)
Definition exponent (s : string) : option Z :=
  match s with
  | EmptyString => Some 0
  | String c s' =>
      if Ascii.eqb c "e" then
        let '(neg, s1) := sign s' in
        match digitpart s1 with
        | (String d ds, EmptyString) =>
            let e := PyStr.digits_value 0 (String d ds) in
            Some (if neg then - e else e)
        | _ => None
        end
      else None
  end.

(** The decimal number [m * 10^e], correctly rounded. *)
Definition of_decimal (neg : bool) (m e : Z) : float :=
  match m with
  | Zpos p =>
      match e with
      | Zneg k => of_ratio neg p (Pos.pow 10 k)
      | _ => binary_round prec emax neg (p * Z.to_pos (10 ^ e))%positive 0
      end
  | _ => S754_zero neg
  end.

(** [floatnumber ::= ([digitpart] "." digitpart | digitpart ["."]) [exponent]] *)
Definition number (neg : bool) (s : string) : option float :=
  let '(ip, r1) := digitpart s in
  let '(fp, r2) :=
    match r1 with
    | String c r => if Ascii.eqb c "." then digitpart r else (EmptyString, r1)
    | EmptyString => (EmptyString, r1)
    end in
  if (PyStr.nonempty ip || PyStr.nonempty fp)%bool then
    match exponent r2 with
    | Some e =>
        Some (of_decimal neg (PyStr.digits_value 0 (ip ++ fp))
                (e - Z.of_nat (String.length fp)))
    | None => None
    end
  else None.

(** The text of a float once trimmed and lower-cased. *)
Definition literal (s : string) : option float :=
  let '(neg, r) := sign s in
  if PyStr.mem r ["inf"; "infinity"] then Some (S754_infinity neg)
  else if String.eqb r "nan" then Some S754_nan
  else number neg r.

(** The whitespace [float] skips at both ends: TAB..CR and SPACE, and
    NEL and NBSP, which it first turns into spaces.  The separators
    FS..US, which [str.strip] trims, are not among them. *)
Definition isspace_char (c : ascii) : bool :=
  (PyStr.in_range 9 13 c || N.eqb (PyStr.code c) 32
   || N.eqb (PyStr.code c) 133 || N.eqb (PyStr.code c) 160)%bool.

(** [float(s)]: surrounding whitespace is ignored and the keywords and
    the exponent marker match in either case; [None] is [ValueError]. *)
Definition parse (s : string) : option float :=
  literal (PyStr.lower (PyStr.strip_with isspace_char s)).

End PyFloat.

(* ================================================================== *)
(** * Python values *)

(** The payloads of the processor: [None], [bool], [int], [float],
    [str], [list], and [dict] with [str] keys in insertion order. *)
Inductive value : Type :=
| VNone
| VBool (b : bool)
| VInt (z : Z)
| VFloat (f : PyFloat.float)
| VStr (s : string)
| VList (l : list value)
| VDict (d : list (string * value)).

(** ** [dict] operations on association lists *)

Module Dict.
Section Ops.
Context {V : Type}.

(** [d.get(k)] / [d[k]] *)
Fixpoint get (k : string) (d : list (string * V)) : option V :=
  match d with
  | [] => None
  | (k', v) :: d' => if String.eqb k k' then Some v else get k d'
  end.

(** [k in d] *)
Definition mem (k : string) (d : list (string * V)) : bool :=
  match get k d with Some _ => true | None => false end.

(** [d[k] = v]: an existing key keeps its position, a new key goes last. *)
Fixpoint set (k : string) (v : V) (d : list (string * V)) : list (string * V) :=
  match d with
  | [] => [(k, v)]
  | (k', v') :: d' =>
      if String.eqb k k' then (k', v) :: d' else (k', v') :: set k v d'
  end.

(** [del d[k]] *)
Fixpoint del (k : string) (d : list (string * V)) : list (string * V) :=
  match d with
  | [] => []
  | (k', v') :: d' => if String.eqb k k' then d' else (k', v') :: del k d'
  end.

Definition keys (d : list (string * V)) : list string := map fst d.

End Ops.
End Dict.

(** ** Truth value, type names, numbers *)

(** [bool(v)]: [None], [False], zero, and the empty string, list and
    dict are false. *)
Definition truthy (v : value) : bool :=
  match v with
  | VNone => false
  | VBool b => b
  | VInt z => negb (Z.eqb z 0)
  | VFloat f => match f with S754_zero _ => false | _ => true end
  | VStr s => PyStr.nonempty s
  | VList l => match l with [] => false | _ => true end
  | VDict d => match d with [] => false | _ => true end
  end.

(** [type(v).__name__] *)
Definition type_name (v : value) : string :=
  match v with
  | VNone => "NoneType"
  | VBool _ => "bool"
  | VInt _ => "int"
  | VFloat _ => "float"
  | VStr _ => "str"
  | VList _ => "list"
  | VDict _ => "dict"
  end.

Inductive num : Type :=
| NInt (z : Z)
| NFloat (f : PyFloat.float).

(** The number a value stands for where [isinstance(v, (int, float))]
    holds; [bool] is a subclass of [int] with [False = 0], [True = 1]. *)
Definition as_num (v : value) : option num :=
  match v with
  | VBool b => Some (NInt (if b then 1 else 0))
  | VInt z => Some (NInt z)
  | VFloat f => Some (NFloat f)
  | _ => None
  end.

Definition is_number (v : value) : bool :=
  match as_num v with Some _ => true | None => false end.

Definition is_str (v : value) : bool :=
  match v with VStr _ => true | _ => false end.

Definition is_list (v : value) : bool :=
  match v with VList _ => true | _ => false end.

Definition value_of_num (n : num) : value :=
  match n with NInt z => VInt z | NFloat f => VFloat f end.

(** [a < b] on numbers; mixed comparisons are exact. *)
Definition num_lt (a b : num) : bool :=
  match a, b with
  | NInt x, NInt y => Z.ltb x y
  | NFloat x, NFloat y => PyFloat.ltb x y
  | NInt x, NFloat y =>
      match PyFloat.compare_int x y with Some Lt => true | _ => false end
  | NFloat x, NInt y =>
      match PyFloat.compare_int y x with Some Gt => true | _ => false end
  end.

(** [a + b] on numbers: an [int] meeting a [float] is converted first. *)
Definition num_add (a b : num) : result num :=
  match a, b with
  | NInt x, NInt y => Ok (NInt (x + y))
  | NFloat x, NFloat y => Ok (NFloat (PyFloat.add x y))
  | NInt x, NFloat y => fx <- PyFloat.of_int x ;; Ok (NFloat (PyFloat.add fx y))
  | NFloat x, NInt y => fy <- PyFloat.of_int y ;; Ok (NFloat (PyFloat.add x fy))
  end.

(** [a / n] for a number [a] and a positive [int] [n] (true division). *)
Definition num_div_len (a : num) (n : positive) : result PyFloat.float :=
  match a with
  | NInt x => PyFloat.int_truediv x n
  | NFloat x => fn <- PyFloat.of_int (Zpos n) ;; Ok (PyFloat.div x fn)
  end.

(** The numbers of a list of values that all satisfy [is_number]. *)
Definition nums (l : list value) : list (value * num) :=
  flat_map (fun v => match as_num v with Some n => [(v, n)] | None => [] end) l.

(** [min(l)]: the first least element ([item < best] replaces). *)
Fixpoint py_min_from (best : value * num) (l : list (value * num)) : value :=
  match l with
  | [] => fst best
  | item :: rest =>
      py_min_from (if num_lt (snd item) (snd best) then item else best) rest
  end.

(** [max(l)]: the first greatest element ([item > best] replaces). *)
Fixpoint py_max_from (best : value * num) (l : list (value * num)) : value :=
  match l with
  | [] => fst best
  | item :: rest =>
      py_max_from (if num_lt (snd best) (snd item) then item else best) rest
  end.

(** [sum(l)]: [0 + l[0] + l[1] + ...], left to right. *)
Fixpoint py_sum_from (acc : num) (l : list (value * num)) : result num :=
  match l with
  | [] => Ok acc
  | item :: rest => acc' <- num_add acc (snd item) ;; py_sum_from acc' rest
  end.

Definition py_sum (l : list (value * num)) : result num := py_sum_from (NInt 0) l.

(* ================================================================== *)
(** * The transform routines *)

(** ** [_normalize_data] *)

(** [sys.int_info.default_max_str_digits] *)
Definition int_max_str_digits : Z := 4300.

(** [int(s)] for a string with [s.isdigit()]: the superscript digits
    pass [isdigit] but are no decimal digits, and [int] rejects them
    with [ValueError]; it rejects the same way a string of more than
    [int_max_str_digits] digits, leading zeros counted. *)
Definition int_of_digits (s : string) : result value :=
  if PyStr.isdecimal s then
    if Z.ltb int_max_str_digits (Z.of_nat (String.length s))
    then Raise ValueError
    else Ok (VInt (PyStr.digits_value 0 s))
  else Raise ValueError.

(** The coercion of a string held by a mapping (lines 78-89). *)
Definition normalize_str (s : string) : result value :=
  if PyStr.mem (PyStr.lower s) ["true"; "yes"; "1"] then Ok (VBool true)
  else if PyStr.mem (PyStr.lower s) ["false"; "no"; "0"] then Ok (VBool false)
  else if PyStr.isdigit s then int_of_digits s
  else
    match PyFloat.parse s with
    | Some f => Ok (VFloat f)
    | None => Ok (VStr (PyStr.lower (PyStr.strip s)))
    end.

Section NormalizeLoops.
Variable normalize_data : value -> result value.

(** One mapping entry's value (lines 78-93). *)
Definition normalize_entry (v : value) : result value :=
  match v with
  | VStr s => normalize_str s
  | VList _ | VDict _ => normalize_data v
  | _ => Ok v
  end.

(** [for key, value in data.items(): normalized[key.lower()] = ...] *)
Fixpoint normalize_items (items normalized : list (string * value))
  : result (list (string * value)) :=
  match items with
  | [] => Ok normalized
  | (key, v) :: rest =>
      v' <- normalize_entry v ;;
      normalize_items rest (Dict.set (PyStr.lower key) v' normalized)
  end.

(** [[self._normalize_data(item) for item in data]] *)
Fixpoint normalize_each (data : list value) : result (list value) :=
  match data with
  | [] => Ok []
  | item :: rest =>
      x <- normalize_data item ;;
      xs <- normalize_each rest ;;
      Ok (x :: xs)
  end.

End NormalizeLoops.

Fixpoint normalize_data (data : value) : result value :=
  match data with
  | VDict items =>
      normalized <- normalize_items normalize_data items [] ;;
      Ok (VDict normalized)
  | VList l =>
      xs <- normalize_each normalize_data l ;;
      Ok (VList xs)
  | _ => Ok data
  end.

(** ** [_aggregate_data] *)

(** [result['types'][t] = result['types'].get(t, 0) + 1] *)
Definition count_type (types : list (string * Z)) (item : value) : list (string * Z) :=
  let item_type := type_name item in
  Dict.set item_type
    (match Dict.get item_type types with Some n => n | None => 0 end + 1) types.

Definition count_types (data : list value) : list (string * Z) :=
  fold_left count_type data [].

(** [len(set(string_values))] *)
Fixpoint unique_count (seen : list string) (l : list string) : Z :=
  match l with
  | [] => 0
  | s :: rest =>
      if PyStr.mem s seen then unique_count seen rest
      else 1 + unique_count (s :: seen) rest
  end.

Definition strings_of (data : list value) : list string :=
  flat_map (fun v => match v with VStr s => [s] | _ => [] end) data.

Definition total_length (l : list string) : Z :=
  fold_left (fun acc s => acc + Z.of_nat (String.length s)) l 0.

(** [numeric_stats] (lines 118-125): empty when no element is a number. *)
Definition numeric_stats (data : list value) : result (list (string * value)) :=
  match nums data with
  | [] => Ok []
  | first :: rest =>
      let numeric_values := first :: rest in
      let n := Pos.of_nat (List.length numeric_values) in
      total <- py_sum numeric_values ;;
      avg <- num_div_len total n ;;
      total' <- py_sum numeric_values ;;
      Ok [("min", py_min_from first rest);
          ("max", py_max_from first rest);
          ("avg", VFloat avg);
          ("sum", value_of_num total')]
  end.

(** [string_stats] (lines 128-134): empty when no element is a string. *)
Definition string_stats (data : list value) : result (list (string * value)) :=
  match strings_of data with
  | [] => Ok []
  | first :: rest =>
      let string_values := first :: rest in
      let n := Pos.of_nat (List.length string_values) in
      avg <- PyFloat.int_truediv (total_length string_values) n ;;
      Ok [("total_length", VInt (total_length string_values));
          ("avg_length", VFloat avg);
          ("unique_count", VInt (unique_count [] string_values))]
  end.

Definition aggregate_error : value :=
  VDict [("error", VStr "Data must be a list for aggregation")].

Definition aggregate_data (data : value) : result value :=
  match data with
  | VList l =>
      let types := map (fun kv => (fst kv, VInt (snd kv))) (count_types l) in
      ns <- numeric_stats l ;;
      ss <- string_stats l ;;
      Ok (VDict [("count", VInt (Z.of_nat (List.length l)));
                 ("types", VDict types);
                 ("numeric_stats", VDict ns);
                 ("string_stats", VDict ss)])
  | _ => Ok aggregate_error
  end.

(** ** [_transform_key] *)

(** [re.sub('(.)([A-Z][a-z]+)', r'\1_\2', key)], scanning left to right.
    [in_run] holds while the characters read extend the [[a-z]+] of the
    match just made; the next match is sought where that run ends. *)
Fixpoint sub_capitalized (in_run : bool) (key : string) : string :=
  match key with
  | EmptyString => EmptyString
  | String c rest =>
      if (in_run && PyStr.is_ascii_lower c)%bool
      then String c (sub_capitalized true rest)
      else
        match rest with
        | String u rest2 =>
            match rest2 with
            | String l _ =>
                if (negb (Ascii.eqb c "010") && PyStr.is_ascii_upper u
                    && PyStr.is_ascii_lower l)%bool
                then String c (String "_" (String u (sub_capitalized true rest2)))
                else String c (sub_capitalized false rest)
            | EmptyString => String c (sub_capitalized false rest)
            end
        | EmptyString => String c EmptyString
        end
  end.

(** [re.sub('([a-z0-9])([A-Z])', r'\1_\2', s1)] *)
Fixpoint sub_boundary (s1 : string) : string :=
  match s1 with
  | EmptyString => EmptyString
  | String c rest =>
      match rest with
      | String u rest2 =>
          if ((PyStr.is_ascii_lower c || PyStr.isdecimal_char c)
              && PyStr.is_ascii_upper u)%bool
          then String c (String "_" (String u (sub_boundary rest2)))
          else String c (sub_boundary rest)
      | EmptyString => String c EmptyString
      end
  end.

Definition transform_key (key : string) : string :=
  let s1 := sub_capitalized false key in
  PyStr.lower (sub_boundary s1).

(** ** [_is_date_string] *)

Inductive pat : Type :=
| D                 (* \d *)
| C (c : ascii).    (* a literal character *)

(** [re.match(pattern, value)]: the pattern matches at the start. *)
Fixpoint re_match (pattern : list pat) (value : string) : bool :=
  match pattern with
  | [] => true
  | p :: pattern' =>
      match value with
      | EmptyString => false
      | String c value' =>
          (match p with
           | D => PyStr.isdecimal_char c
           | C c0 => Ascii.eqb c c0
           end && re_match pattern' value')%bool
      end
  end.

Definition date_patterns : list (list pat) :=
  [ [D; D; D; D; C "-"; D; D; C "-"; D; D];
    [D; D; C "/"; D; D; C "/"; D; D; D; D];
    [D; D; D; D; C "-"; D; D; C "-"; D; D; C "T"; D; D; C ":"; D; D; C ":"; D; D] ]%char.

Definition is_date_string (value : string) : bool :=
  existsb (fun pattern => re_match pattern value) date_patterns.

(** ** Strings: searching and joining *)

Fixpoint contains_char (c : ascii) (s : string) : bool :=
  match s with
  | EmptyString => false
  | String c' s' => (Ascii.eqb c c' || contains_char c s')%bool
  end.

(** The text before the first character satisfying [p]. *)
Fixpoint take_until (p : ascii -> bool) (s : string) : string :=
  match s with
  | EmptyString => EmptyString
  | String c s' => if p c then EmptyString else String c (take_until p s')
  end.

Fixpoint drop_until (p : ascii -> bool) (s : string) : string :=
  match s with
  | EmptyString => EmptyString
  | String c s' => if p c then s else drop_until p s'
  end.

Fixpoint remove_chars (p : ascii -> bool) (s : string) : string :=
  match s with
  | EmptyString => EmptyString
  | String c s' => if p c then remove_chars p s' else String c (remove_chars p s')
  end.

(** [sep.join(l)] *)
Fixpoint join (sep : string) (l : list string) : string :=
  match l with
  | [] => EmptyString
  | [x] => x
  | x :: rest => x ++ sep ++ join sep rest
  end.

(** ** [json.dumps(data, sort_keys=True, default=str)] *)

Definition hex_digit (n : N) : ascii :=
  if N.ltb n 10 then ascii_of_N (48 + n) else ascii_of_N (87 + n).

(** One character inside a JSON string ([ensure_ascii] is on): quote,
    backslash and the short escapes, [\u00xx] for every other character
    outside SPACE..TILDE. *)
Definition escape_char (c : ascii) : string :=
  let n := PyStr.code c in
  if N.eqb n 34 then String "\" (String c EmptyString)
  else if N.eqb n 92 then "\\"
  else if N.eqb n 10 then "\n"
  else if N.eqb n 13 then "\r"
  else if N.eqb n 9 then "\t"
  else if N.eqb n 8 then "\b"
  else if N.eqb n 12 then "\f"
  else if PyStr.in_range 32 126 c then String c EmptyString
  else "\u00" ++ String (hex_digit (N.div n 16))
                   (String (hex_digit (N.modulo n 16)) EmptyString).

Fixpoint escape (s : string) : string :=
  match s with
  | EmptyString => EmptyString
  | String c s' => escape_char c ++ escape s'
  end.

Definition quote : string := String "034" EmptyString.

Definition encode_string (s : string) : string := quote ++ escape s ++ quote.

(** [repr] of an [int] *)
Definition int_repr (z : Z) : string := NilZero.string_of_int (Z.to_int z).

(** Insertion into a list of items sorted by key ([sorted(dct.items())];
    the keys of a dict are distinct, so the values are never compared). *)
Fixpoint insert_item {V : Type} (kv : string * V) (l : list (string * V))
  : list (string * V) :=
  match l with
  | [] => [kv]
  | kv' :: l' =>
      if String.leb (fst kv) (fst kv') then kv :: l else kv' :: insert_item kv l'
  end.

Definition sort_items {V : Type} (l : list (string * V)) : list (string * V) :=
  fold_right insert_item [] l.

Definition render_item (kv : string * string) : string :=
  encode_string (fst kv) ++ ": " ++ snd kv.

(** ** Timestamps *)

(** A [datetime]: microseconds since the epoch, and whether it carries a
    time zone ([datetime.now()] does not). *)
Record datetime : Type := { micros : Z; aware : bool }.

(** A cache entry [{'data': ..., 'timestamp': ...}]; the timestamp is a
    reading of [datetime.now()] in microseconds. *)
Record entry : Type := { data : value; timestamp : Z }.

(** [self.max_cache_size], [self.cache_ttl] (seconds). *)
Record config : Type := { max_cache_size : Z; cache_ttl : Z }.

(** The mutable state: [self.cache], and how often the clock was read. *)
Record state : Type := { cache : list (string * entry); clock_reads : nat }.

Definition with_cache (c : list (string * entry)) (st : state) : state :=
  {| cache := c; clock_reads := clock_reads st |}.

(** ** The state-and-error monad of the methods *)

Definition M (A : Type) : Type := state -> result A * state.

Definition ret {A : Type} (a : A) : M A := fun st => (Ok a, st).

Definition raise {A : Type} (e : exn) : M A := fun st => (Raise e, st).

Definition bind {A B : Type} (m : M A) (k : A -> M B) : M B :=
  fun st =>
    match m st with
    | (Ok a, st') => k a st'
    | (Raise e, st') => (Raise e, st')
    end.

Definition lift {A : Type} (r : result A) : M A := fun st => (r, st).

Definition get_cache : M (list (string * entry)) := fun st => (Ok (cache st), st).

Definition put_cache (c : list (string * entry)) : M unit :=
  fun st => (Ok tt, with_cache c st).

Notation "x <~ m ;; k" := (bind m (fun x => k))
  (at level 61, m at next level, right associativity, only parsing).
Notation "m ;;; k" := (bind m (fun _ => k))
  (at level 61, right associativity, only parsing).

(** [min(self.cache.keys(), key=lambda k: self.cache[k]['timestamp'])]:
    the first key, in insertion order, whose timestamp is least. *)
Fixpoint oldest_from (best : string * entry) (l : list (string * entry)) : string :=
  match l with
  | [] => fst best
  | kv :: rest =>
      oldest_from
        (if Z.ltb (timestamp (snd kv)) (timestamp (snd best)) then kv else best)
        rest
  end.

(** [min] of an empty sequence raises [ValueError]. *)
Definition oldest_key (c : list (string * entry)) : result string :=
  match c with
  | [] => Raise ValueError
  | first :: rest => Ok (oldest_from first rest)
  end.

Definition microseconds (seconds : Z) : Z := seconds * 1000000.

(** A [timedelta] holds days, seconds and microseconds, the days within
    999999999 either way; a number of seconds has [seconds // 86400]
    days. *)
Definition timedelta_fits (seconds : Z) : bool :=
  (Z.leb (-999999999) (seconds / 86400)
   && Z.leb (seconds / 86400) 999999999)%bool.

(** [timedelta(seconds=n)] for an [int] [n], in microseconds;
    [OverflowError] when the days are out of range. *)
Definition timedelta (seconds : Z) : result Z :=
  if timedelta_fits seconds then Ok (microseconds seconds)
  else Raise OverflowError.

(* ================================================================== *)
(** * The processor *)

(** The library functions the processor calls. *)
Record library : Type := {
  (** [json.loads]; [None] stands for [json.JSONDecodeError]. *)
  json_loads : string -> option value;
  (** [hashlib.md5(s.encode()).hexdigest()] *)
  md5_hexdigest : string -> string;
  (** [float.__repr__] of a finite float *)
  float_repr : PyFloat.float -> string;
  (** [datetime.fromisoformat]; [None] stands for [ValueError]. *)
  fromisoformat : string -> option datetime;
  (** [datetime.isoformat] *)
  isoformat : datetime -> string;
  (** The checks [urlsplit] makes on a bracketed host and on a netloc
      with characters outside ASCII; [false] stands for [ValueError]. *)
  netloc_ok : string -> bool;
  (** The successive readings of [datetime.now()], in microseconds. *)
  clock : nat -> Z
}.

Section Processor.

Variable lib : library.
Variable cfg : config.

(** [datetime.now()] *)
Definition now : M Z :=
  fun st => (Ok (clock lib (clock_reads st)),
             {| cache := cache st; clock_reads := S (clock_reads st) |}).

(** ** [_filter_data] *)

(** [float(x)] inside [try ... except (ValueError, TypeError)]:
    [Ok None] when one of the two is raised and caught; a too large
    [int] raises [OverflowError], which is not caught. *)
Definition float_of_value (x : value) : result (option PyFloat.float) :=
  match x with
  | VStr s => Ok (PyFloat.parse s)
  | VInt z => f <- PyFloat.of_int z ;; Ok (Some f)
  | VBool b => f <- PyFloat.of_int (if b then 1 else 0) ;; Ok (Some f)
  | VFloat f => Ok (Some f)
  | VNone | VList _ | VDict _ => Ok None
  end.

Definition half : PyFloat.float := S754_finite false 4503599627370496 (-53).

Definition value_in (x : value) (l : list string) : bool :=
  match x with
  | VStr s => PyStr.mem s l
  | _ => false
  end.

(** The [created_at] rule (lines 177-185): [None] when the rule does not
    decide (the value is no string, does not parse, or carries a time
    zone, so that the subtraction raises [TypeError]). *)
Definition created_recently (x : value) : M (option bool) :=
  match x with
  | VStr s =>
      match fromisoformat lib s with
      | Some created =>
          t <~ now ;;
          if aware created then ret None
          else ret (Some (Z.ltb (t - micros created) (microseconds (365 * 86400))))
      | None => ret None
      end
  | _ => ret None
  end.

Definition created_at_rule (item : list (string * value)) : M bool :=
  match Dict.get "created_at" item with
  | Some x =>
      r <~ created_recently x ;;
      match r with
      | Some b => ret b
      | None => ret true
      end
  | None => ret true
  end.

Definition score_rule (item : list (string * value)) : M bool :=
  match Dict.get "score" item with
  | Some x =>
      r <~ lift (float_of_value x) ;;
      match r with
      | Some score => ret (PyFloat.leb half score)
      | None => created_at_rule item
      end
  | None => created_at_rule item
  end.

Definition should_include_dict (item : list (string * value)) : M bool :=
  match Dict.get "status" item with
  | Some x =>
      if value_in x ["active"; "enabled"; "valid"] then ret true
      else if value_in x ["inactive"; "disabled"; "invalid"] then ret false
      else score_rule item
  | None => score_rule item
  end.

(** Whether the loop of [_filter_data] appends [item]. *)
Definition keep_item (item : value) : M bool :=
  match item with
  | VDict d => should_include_dict d
  | VStr s => ret (Nat.ltb 0 (String.length s) && negb (PyStr.isspace s))%bool
  | VBool _ | VInt _ | VFloat _ =>
      ret (match as_num item with Some n => num_lt (NInt 0) n | None => false end)
  | VNone | VList _ => ret true
  end.

Fixpoint filter_items (l : list value) : M (list value) :=
  match l with
  | [] => ret []
  | item :: rest =>
      keep <~ keep_item item ;;
      filtered <~ filter_items rest ;;
      ret (if keep then item :: filtered else filtered)
  end.

Definition filter_data (d : value) : M value :=
  match d with
  | VList l => filtered <~ filter_items l ;; ret (VList filtered)
  | _ => ret d
  end.

(** ** [_transform_data] *)

(** [urlparse(url).netloc] *)
Definition is_c0_or_space (c : ascii) : bool := N.leb (PyStr.code c) 32.

Fixpoint lstrip_c0 (s : string) : string :=
  match s with
  | EmptyString => EmptyString
  | String c s' => if is_c0_or_space c then lstrip_c0 s' else s
  end.

Definition is_tab_or_newline (c : ascii) : bool :=
  (Ascii.eqb c "009" || Ascii.eqb c "010" || Ascii.eqb c "013")%bool.

Definition is_alpha_ascii (c : ascii) : bool :=
  (PyStr.is_ascii_lower c || PyStr.is_ascii_upper c)%bool.

Definition is_scheme_char (c : ascii) : bool :=
  (is_alpha_ascii c || PyStr.isdecimal_char c
   || Ascii.eqb c "+" || Ascii.eqb c "-" || Ascii.eqb c ".")%bool.

Definition is_colon (c : ascii) : bool := Ascii.eqb c ":".

(** The url without its scheme and colon, when it has a scheme. *)
Definition after_scheme (url : string) : string :=
  let head := take_until is_colon url in
  match head, drop_until is_colon url with
  | String c0 _, String _ rest =>
      if (is_alpha_ascii c0 && PyStr.all_chars is_scheme_char head)%bool
      then rest else url
  | _, _ => url
  end.

Definition is_netloc_end (c : ascii) : bool :=
  (Ascii.eqb c "/" || Ascii.eqb c "?" || Ascii.eqb c "#")%bool.

Definition is_ascii_char (c : ascii) : bool := N.ltb (PyStr.code c) 128.

Definition netloc (url : string) : option string :=
  let url := remove_chars is_tab_or_newline (lstrip_c0 url) in
  match after_scheme url with
  | String "/" (String "/" rest) =>
      let nl := take_until is_netloc_end rest in
      let lb := contains_char "[" nl in
      let rb := contains_char "]" nl in
      if xorb lb rb then None
      else if ((lb || negb (PyStr.all_chars is_ascii_char nl)) && negb (netloc_ok lib nl))%bool
      then None
      else Some nl
  | _ => Some EmptyString
  end.

(** [_extract_domain]: the empty string when [urlparse] raises. *)
Definition extract_domain (url : string) : string :=
  match netloc url with
  | Some nl => nl
  | None => EmptyString
  end.

Definition transform_str (s : string) : value :=
  if is_date_string s then
    match fromisoformat lib s with
    | Some d => VStr (isoformat lib d)
    | None => VStr s
    end
  else if (PyStr.startswith s "http://" || PyStr.startswith s "https://")%bool then
    VDict [("url", VStr s); ("domain", VStr (extract_domain s))]
  else VStr s.

Section TransformLoops.
Variable transform_data : value -> value.

(** [_transform_value] *)
Definition transform_value (v : value) : value :=
  match v with
  | VStr s => transform_str s
  | VDict _ | VList _ => transform_data v
  | _ => v
  end.

Fixpoint transform_items (items transformed : list (string * value))
  : list (string * value) :=
  match items with
  | [] => transformed
  | (key, v) :: rest =>
      let new_key := transform_key key in
      let new_value := transform_value v in
      transform_items rest (Dict.set new_key new_value transformed)
  end.

End TransformLoops.

Fixpoint transform_data (d : value) : value :=
  match d with
  | VDict items => VDict (transform_items transform_data items [])
  | VList l => VList (map transform_data l)
  | _ => d
  end.

(** ** [_default_processing] *)
Definition default_processing (d : value) : value := d.

(** ** [_generate_cache_key] *)

Definition float_dumps (f : PyFloat.float) : string :=
  match f with
  | S754_nan => "NaN"
  | S754_infinity false => "Infinity"
  | S754_infinity true => "-Infinity"
  | _ => float_repr lib f
  end.

(** [json.dumps(data, sort_keys=True, default=str)]: every payload is
    serializable, so [default] is never called. *)
Fixpoint dumps (d : value) : string :=
  match d with
  | VNone => "null"
  | VBool true => "true"
  | VBool false => "false"
  | VInt z => int_repr z
  | VFloat f => float_dumps f
  | VStr s => encode_string s
  | VList l => "[" ++ join ", " (map dumps l) ++ "]"
  | VDict items =>
      "{" ++ join ", "
               (map render_item
                  (sort_items (map (fun '(k, v) => (k, dumps v)) items)))
          ++ "}"
  end.

Definition generate_cache_key (d : value) (processing_type : string) : string :=
  let data_str := dumps d in
  let key_input := processing_type ++ ":" ++ data_str in
  md5_hexdigest lib key_input.

(** ** [process_data] *)

(** Lines 32-39: the cached data when the key is present and younger
    than the time to live; an expired entry is deleted.  The clock is
    read before [timedelta(seconds=self.cache_ttl)] is built, which
    raises when the time to live is out of its range. *)
Definition cache_lookup (cache_key : string) : M (option value) :=
  c <~ get_cache ;;
  match Dict.get cache_key c with
  | Some cache_entry =>
      t <~ now ;;
      ttl <~ lift (timedelta (cache_ttl cfg)) ;;
      if Z.ltb (t - timestamp cache_entry) ttl
      then ret (Some (data cache_entry))
      else put_cache (Dict.del cache_key c) ;;; ret None
  | None => ret None
  end.

(** Lines 43-52 *)
Definition dispatch (processing_type : string) (d : value) : M value :=
  if String.eqb processing_type "normalize" then lift (normalize_data d)
  else if String.eqb processing_type "aggregate" then lift (aggregate_data d)
  else if String.eqb processing_type "filter" then filter_data d
  else if String.eqb processing_type "transform" then ret (transform_data d)
  else ret (default_processing d).

Definition set_entry (cache_key : string) (processed_data : value) : M unit :=
  t <~ now ;;
  c <~ get_cache ;;
  put_cache (Dict.set cache_key {| data := processed_data; timestamp := t |} c).

(** Lines 55-68 *)
Definition cache_store (cache_key : string) (processed_data : value) : M unit :=
  c <~ get_cache ;;
  if Z.ltb (Z.of_nat (List.length c)) (max_cache_size cfg) then
    set_entry cache_key processed_data
  else if Z.leb (max_cache_size cfg) (Z.of_nat (List.length c)) then
    oldest <~ lift (oldest_key c) ;;
    put_cache (Dict.del oldest c) ;;;
    set_entry cache_key processed_data
  else ret tt.

(** Lines 30-70, once [data] is the payload to process. *)
Definition process_payload (d : value) (processing_type : string) : M value :=
  let cache_key := generate_cache_key d processing_type in
  hit <~ cache_lookup cache_key ;;
  match hit with
  | Some cached => ret cached
  | None =>
      processed_data <~ dispatch processing_type d ;;
      cache_store cache_key processed_data ;;;
      ret processed_data
  end.

(** [process_data]; the result [VNone] is Python's [None]. *)
Definition process_data (d : value) (processing_type : string) : M value :=
  if negb (truthy d) then ret VNone
  else
    match d with
    | VStr s =>
        match json_loads lib s with
        | Some parsed => process_payload parsed processing_type
        | None => ret VNone
        end
    | _ => process_payload d processing_type
    end.

(** [clear_cache] *)
Definition clear_cache : M unit := put_cache [].

(** [get_cache_stats] *)
Definition get_cache_stats : M value :=
  c <~ get_cache ;;
  ret (VDict [("size", VInt (Z.of_nat (List.length c)));
              ("max_size", VInt (max_cache_size cfg));
              ("ttl", VInt (cache_ttl cfg));
              ("keys", VList (map (fun k => VStr k) (Dict.keys c)))]).

(** [LegacyDataProcessor(config)]: an empty cache. *)
Definition init : state := {| cache := []; clock_reads := 0 |}.

(** The public operations, and the state after a sequence of calls
    (a call that raises leaves the state as it was when it raised). *)
Inductive call : Type :=
| Process (d : value) (processing_type : string)
| ClearCache.

Definition run_call (c : call) (st : state) : state :=
  match c with
  | Process d processing_type => snd (process_data d processing_type st)
  | ClearCache => snd (clear_cache st)
  end.

Definition run_calls (calls : list call) (st : state) : state :=
  fold_left (fun st c => run_call c st) calls st.

End Processor.

(* ================================================================== *)
(** * Specification vocabulary *)

(** The keys of a Python dict are pairwise distinct. *)
Fixpoint distinct (l : list string) : bool :=
  match l with
  | [] => true
  | k :: rest => (negb (PyStr.mem k rest) && distinct rest)%bool
  end.

(** A value whose dicts, at every depth, have distinct keys. *)
Fixpoint well_formed (v : value) : bool :=
  match v with
  | VDict items =>
      (distinct (Dict.keys items)
       && forallb (fun '(_, x) => well_formed x) items)%bool
  | VList l => forallb well_formed l
  | _ => true
  end.

(** Two payloads that differ only in the insertion order of mapping
    keys, at any depth. *)
Inductive same_shape : value -> value -> Prop :=
| same_none : same_shape VNone VNone
| same_bool b : same_shape (VBool b) (VBool b)
| same_int z : same_shape (VInt z) (VInt z)
| same_float f : same_shape (VFloat f) (VFloat f)
| same_str s : same_shape (VStr s) (VStr s)
| same_list l1 l2 :
    Forall2 same_shape l1 l2 -> same_shape (VList l1) (VList l2)
| same_dict d1 d2 d2' :
    Forall2 (fun e1 e2 => fst e1 = fst e2 /\ same_shape (snd e1) (snd e2)) d1 d2' ->
    Permutation d2' d2 ->
    same_shape (VDict d1) (VDict d2).

(** The tokens [_normalize_data] reads as booleans. *)
Definition boolean_tokens : list string :=
  ["true"; "yes"; "1"; "false"; "no"; "0"].

(** A string no branch of the coercion applies to: no boolean token,
    not all digits, no float. *)
Definition uncoercible (t : string) : bool :=
  (negb (PyStr.mem t boolean_tokens) && negb (PyStr.isdigit t)
   && match PyFloat.parse t with Some _ => false | None => true end)%bool.

(** A string that [_normalize_data] either coerces to a non-string, or
    leaves as a string, trimmed and lower-cased, that is [uncoercible]. *)
Definition stable_str (s : string) : bool :=
  match normalize_str s with
  | Ok (VStr t) => uncoercible t
  | _ => true
  end.

(** A payload all of whose strings held directly by a mapping, at any
    depth, are [stable_str]. *)
Fixpoint stable (v : value) : bool :=
  match v with
  | VDict items =>
      forallb (fun '(_, x) => match x with
                              | VStr s => stable_str s
                              | _ => stable x
                              end) items
  | VList l => forallb stable l
  | _ => true
  end.






(** The cache never exceeds its bound. *)
Definition cache_bounded (cfg : config) (st : state) : Prop :=
  Z.of_nat (List.length (cache st)) <= max_cache_size cfg.

(** A computation that leaves the cache as it is. *)
Definition keeps_cache {A : Type} (m : M A) : Prop :=
  forall st, cache (snd (m st)) = cache st.

(** A mapping entry a further pass of normalize leaves alone. *)
Definition settled_entry (kv : string * value) : Prop :=
  PyStr.lower (fst kv) = fst kv
  /\ normalize_entry normalize_data (snd kv) = Ok (snd kv).







(** ** Vocabulary of the further properties *)

(** A string without the letters A-Z. *)
Definition no_upper (s : string) : bool :=
  PyStr.all_chars (fun c => negb (PyStr.is_ascii_upper c)) s.

Definition is_container (v : value) : bool :=
  match v with VList _ | VDict _ => true | _ => false end.

(** The sum of the counts of a histogram. *)
Definition histogram_total (types : list (string * Z)) : Z :=
  fold_right (fun kv acc => snd kv + acc) 0 types.

(** A value whose mapping keys, at every depth, are lower-case. *)
Fixpoint lower_keyed (v : value) : bool :=
  match v with
  | VDict items =>
      forallb (fun '(k, x) => (String.eqb (PyStr.lower k) k && lower_keyed x)%bool) items
  | VList l => forallb lower_keyed l
  | _ => true
  end.

(** An entry of a normalized mapping: a lower-case key and a value
    with distinct, lower-case keys. *)
Definition normalized_entry (kv : string * value) : Prop :=
  PyStr.lower (fst kv) = fst kv
  /\ well_formed (snd kv) = true /\ lower_keyed (snd kv) = true.

(** A string [int] accepts whenever [isdigit] does: its digits are
    decimal digits, and there are no more than 4300 of them. *)
Definition int_safe (s : string) : bool :=
  implb (PyStr.isdigit s)
        (PyStr.isdecimal s && Z.leb (Z.of_nat (String.length s)) 4300)%bool.

(** A payload all of whose strings held directly by a mapping, at any
    depth, are [int_safe]. *)
Fixpoint digits_int_safe (v : value) : bool :=
  match v with
  | VDict items =>
      forallb (fun '(_, x) => match x with
                              | VStr s => int_safe s
                              | _ => digits_int_safe x
                              end) items
  | VList l => forallb digits_int_safe l
  | _ => true
  end.

(** The integers among the numeric values of a list, booleans as 0/1. *)
Definition ints (l : list value) : list Z :=
  flat_map (fun v => match as_num v with Some (NInt z) => [z] | _ => [] end) l.

Definition is_float (v : value) : bool :=
  match v with VFloat _ => true | _ => false end.

Definition num_int (n : num) : Z :=
  match n with NInt z => z | NFloat _ => 0 end.

(** [l'] is [l] with some elements left out, the others in order. *)
Inductive subseq {A : Type} : list A -> list A -> Prop :=
| subseq_nil : subseq [] []
| subseq_skip x l' l : subseq l' l -> subseq l' (x :: l)
| subseq_keep x l' l : subseq l' l -> subseq (x :: l') (x :: l).

Definition is_dict (v : value) : bool :=
  match v with VDict _ => true | _ => false end.

(** What the loop of [_filter_data] decides for an element that is no
    mapping. *)
Definition keeps_plain (item : value) : bool :=
  match item with
  | VStr s => (Nat.ltb 0 (String.length s) && negb (PyStr.isspace s))%bool
  | VBool _ | VInt _ | VFloat _ =>
      match as_num item with Some n => num_lt (NInt 0) n | None => false end
  | _ => true
  end.

(** A float above zero: no NaN, no zero, not negative. *)
Definition positive_float (f : PyFloat.float) : bool :=
  match f with
  | S754_finite false _ _ | S754_infinity false => true
  | _ => false
  end.

(** An element whose filtering does not read the clock: any value but a
    mapping with a [created_at] key. *)
Definition timeless (v : value) : bool :=
  match v with
  | VDict d => negb (Dict.mem "created_at" d)
  | _ => true
  end.

Definition is_none_or_list (v : value) : bool :=
  match v with VNone | VList _ => true | _ => false end.

(** A character of a plain host: ASCII, none of [/?#], no bracket, no
    tab or newline. *)
Definition host_char (c : ascii) : bool :=
  (is_ascii_char c && negb (is_netloc_end c)
   && negb (Ascii.eqb "[" c) && negb (Ascii.eqb "]" c)
   && negb (is_tab_or_newline c))%bool.

(** What may follow the host: nothing, or a path, query or fragment. *)
Definition after_host (rest : string) : bool :=
  match rest with
  | EmptyString => true
  | String c _ => is_netloc_end c
  end.

(** A computation that never winds back the count of clock readings. *)
Definition advances {A : Type} (m : M A) : Prop :=
  forall st, (clock_reads st <= clock_reads (snd (m st)))%nat.

(** Every timestamp in the cache is a clock reading made earlier. *)
Definition stamped (lib : library) (st : state) : Prop :=
  Forall (fun kv => exists i, (i < clock_reads st)%nat
                              /\ timestamp (snd kv) = clock lib i) (cache st).

(** The cache of a state is in order: distinct keys, and timestamps
    that are earlier clock readings. *)
Definition cache_ok (lib : library) (st : state) : Prop :=
  NoDup (Dict.keys (cache st)) /\ stamped lib st.

(** ** Sample instances *)

Module Sample.

(** A library whose parser rejects everything, whose digest is the
    identity, and whose clock advances by 1000 seconds per reading. *)
Definition lib : library :=
  {| json_loads := fun _ => None;
     md5_hexdigest := fun s => s;
     float_repr := fun _ => "0.0";
     fromisoformat := fun _ => None;
     isoformat := fun _ => EmptyString;
     netloc_ok := fun _ => true;
     clock := fun n => Z.of_nat n * 1000000000 |}.

Definition cfg : config := {| max_cache_size := 2; cache_ttl := 3600 |}.

(** A full cache four readings after its entries were made. *)
Definition full : state :=
  {| cache := [("k1", {| data := VInt 1; timestamp := 1000000000 |});
               ("k2", {| data := VInt 2; timestamp := 0 |})];
     clock_reads := 4 |}.

Definition calls : list call :=
  [Process (VDict [("a", VStr "1")]) "normalize";
   Process (VList [VInt 1; VInt 2]) "aggregate";
   Process (VDict [("b", VInt 2)]) "default";
   ClearCache;
   Process (VList [VStr "x"; VStr " "]) "filter"].

Definition raw : value :=
  VDict [("Name", VStr " Alice "); ("On", VStr "YES"); ("n", VStr "42");
         ("tags", VList [VStr " x "; VDict [("K", VStr "No way")]])].

Definition normalized : value :=
  VDict [("name", VStr "alice"); ("on", VBool true); ("n", VInt 42);
         ("tags", VList [VStr " x "; VDict [("k", VStr "no way")]])].

Definition p1 : value :=
  VDict [("a", VInt 1); ("b", VList [VDict [("x", VNone); ("y", VBool true)]])].

Definition p2 : value :=
  VDict [("b", VList [VDict [("y", VBool true); ("x", VNone)]]); ("a", VInt 1)].

(** A library whose parser knows one document. *)
Definition lib_json : library :=
  {| json_loads := fun s => if String.eqb s "[1, 2]"
                            then Some (VList [VInt 1; VInt 2]) else None;
     md5_hexdigest := fun s => s;
     float_repr := fun _ => "0.0";
     fromisoformat := fun _ => None;
     isoformat := fun _ => EmptyString;
     netloc_ok := fun _ => true;
     clock := fun n => Z.of_nat n * 1000000000 |}.

Definition numbers : value := VList [VInt 5; VInt (-3)].

Definition mixed : list value :=
  [VStr " "; VInt 5; VNone; VInt (-3); VStr "a"].

Definition huge : value := VList [VInt (10 ^ 400)].

(** The state after a first call on a new processor. *)
Definition after_first : state :=
  snd (process_data lib cfg numbers "filter" init).


(** [n] times the digit 9. *)
Fixpoint nines (n : nat) : string :=
  match n with
  | O => EmptyString
  | S n' => String "9" (nines n')
  end.

(** A time to live of 1000000000 days. *)
Definition cfg_long : config :=
  {| max_cache_size := 2; cache_ttl := 86400000000000 |}.

(** A cache whose only entry, under the key of [numbers] and "filter",
    is 4000 seconds old at the next clock reading. *)
Definition stale : state :=
  {| cache := [(generate_cache_key lib numbers "filter",
                {| data := VNone; timestamp := 0 |})];
     clock_reads := 4 |}.

End Sample.

(* ================================================================== *)
(** * Properties *)

#[local] Set Default Proof Using "Type".

(** ** Association lists *)

Lemma set_length_le {V : Type} (k : string) (v : V) (d : list (string * V)) :
  (List.length (Dict.set k v d) <= S (List.length d))%nat.
Proof.
  induction d as [|[k' v'] d IH]; simpl; [lia|].
  destruct (String.eqb k k'); simpl; lia.
Qed.

Lemma get_none_not_in {V : Type} (k : string) (d : list (string * V)) :
  Dict.get k d = None <-> ~ In k (Dict.keys d).
Proof.
  induction d as [|[k' v'] d IH]; simpl; [tauto|].
  destruct (String.eqb_spec k k') as [->|Hne].
  - split; [discriminate|]. intros H; exfalso; apply H; now left.
  - rewrite IH. split; intros H; [intros [E|I]; [congruence|tauto]|tauto].
Qed.

Lemma get_some_in {V : Type} (k : string) (v : V) (d : list (string * V)) :
  Dict.get k d = Some v -> In (k, v) d.
Proof.
  induction d as [|[k' v'] d IH]; simpl; [discriminate|].
  destruct (String.eqb_spec k k') as [->|Hne].
  - intros [= ->]. now left.
  - intros H. right. auto.
Qed.

Lemma set_fresh {V : Type} (k : string) (v : V) (d : list (string * V)) :
  Dict.get k d = None -> Dict.set k v d = (d ++ [(k, v)])%list.
Proof.
  induction d as [|[k' v'] d IH]; simpl; [reflexivity|].
  destruct (String.eqb k k'); [discriminate|].
  intros H. now rewrite IH.
Qed.

Lemma del_length {V : Type} (k : string) (d : list (string * V)) :
  In k (Dict.keys d) -> S (List.length (Dict.del k d)) = List.length d.
Proof.
  induction d as [|[k' v'] d IH]; simpl; [tauto|].
  destruct (String.eqb_spec k k') as [->|Hne]; [reflexivity|].
  intros [E|I]; [congruence|]. simpl. now rewrite IH.
Qed.

Lemma del_length_le {V : Type} (k : string) (d : list (string * V)) :
  (List.length (Dict.del k d) <= List.length d)%nat.
Proof.
  induction d as [|[k' v'] d IH]; simpl; [lia|].
  destruct (String.eqb k k'); simpl; lia.
Qed.

Lemma mem_In (k : string) (l : list string) :
  PyStr.mem k l = true <-> In k l.
Proof.
  unfold PyStr.mem. rewrite existsb_exists. split.
  - intros [x [Hin Heq]]. apply String.eqb_eq in Heq. now subst.
  - intros H. exists k. split; [assumption|apply String.eqb_refl].
Qed.

Lemma distinct_NoDup (l : list string) :
  distinct l = true <-> NoDup l.
Proof.
  induction l as [|k l IH]; simpl.
  - split; [constructor|reflexivity].
  - rewrite andb_true_iff, negb_true_iff, IH. split.
    + intros [Hm Hd]. constructor; [|assumption].
      rewrite <- mem_In. now rewrite Hm.
    + intros H. inversion H as [|? ? Hn Hd]; subst. split; [|assumption].
      destruct (PyStr.mem k l) eqn:E; [|reflexivity].
      apply mem_In in E. contradiction.
Qed.

Lemma del_get_other {V : Type} (k k' : string) (d : list (string * V)) :
  k' <> k -> Dict.get k' (Dict.del k d) = Dict.get k' d.
Proof.
  intros Hne. induction d as [|[k0 v0] d IH]; simpl; [reflexivity|].
  destruct (String.eqb_spec k k0) as [->|Hk].
  - destruct (String.eqb_spec k' k0); [contradiction|reflexivity].
  - simpl. now rewrite IH.
Qed.

Lemma del_get_same {V : Type} (k : string) (d : list (string * V)) :
  NoDup (Dict.keys d) -> Dict.get k (Dict.del k d) = None.
Proof.
  induction d as [|[k0 v0] d IH]; simpl; [reflexivity|].
  intros H. inversion H as [|? ? Hn Hd]; subst.
  destruct (String.eqb_spec k k0) as [->|Hk].
  - now apply get_none_not_in.
  - simpl. destruct (String.eqb_spec k k0); [contradiction|auto].
Qed.

Lemma del_In {V : Type} (k k' : string) (v : V) (d : list (string * V)) :
  k' <> k -> In (k', v) d -> In (k', v) (Dict.del k d).
Proof.
  intros Hne. induction d as [|[k0 v0] d IH]; simpl; [tauto|].
  destruct (String.eqb_spec k k0) as [->|Hk].
  - intros [[= -> ->]|I]; [contradiction|assumption].
  - intros [E|I]; [now left|right; auto].
Qed.

Lemma del_subset {V : Type} (k : string) (kv : string * V) (d : list (string * V)) :
  In kv (Dict.del k d) -> In kv d.
Proof.
  induction d as [|[k0 v0] d IH]; simpl; [tauto|].
  destruct (String.eqb k k0); simpl; tauto.
Qed.

Lemma del_keys_NoDup {V : Type} (k : string) (d : list (string * V)) :
  NoDup (Dict.keys d) -> NoDup (Dict.keys (Dict.del k d)).
Proof.
  induction d as [|[k0 v0] d IH]; simpl; [auto|].
  intros H. inversion H as [|? ? Hn Hd]; subst.
  destruct (String.eqb k k0); [assumption|].
  simpl. constructor; [|auto].
  intros Hin. apply Hn. unfold Dict.keys in *.
  apply in_map_iff in Hin as [[k1 v1] [E I]]. simpl in E; subst.
  apply in_map_iff. exists (k0, v1). split; [reflexivity|].
  eapply del_subset; eassumption.
Qed.

(** ** Lookups after an update *)

Lemma set_get_same {V : Type} (k : string) (v : V) (d : list (string * V)) :
  Dict.get k (Dict.set k v d) = Some v.
Proof.
  induction d as [|[k0 v0] d IH]; simpl.
  - now rewrite String.eqb_refl.
  - destruct (String.eqb_spec k k0) as [->|Hne]; simpl.
    + now rewrite String.eqb_refl.
    + destruct (String.eqb_spec k k0); [contradiction|exact IH].
Qed.

Lemma set_get_other {V : Type} (k k' : string) (v : V) (d : list (string * V)) :
  k' <> k -> Dict.get k' (Dict.set k v d) = Dict.get k' d.
Proof.
  intros Hne. induction d as [|[k0 v0] d IH]; simpl.
  - destruct (String.eqb_spec k' k); [contradiction|reflexivity].
  - destruct (String.eqb_spec k k0) as [->|Hk]; simpl.
    + destruct (String.eqb_spec k' k0); [contradiction|reflexivity].
    + now rewrite IH.
Qed.

Lemma set_In_other {V : Type} (k k' : string) (v v' : V) (d : list (string * V)) :
  k' <> k -> In (k', v') d -> In (k', v') (Dict.set k v d).
Proof.
  intros Hne. induction d as [|[k0 v0] d IH]; simpl; [tauto|].
  destruct (String.eqb_spec k k0) as [->|Hk]; simpl.
  - intros [[= -> ->]|I]; [contradiction|now right].
  - intros [E|I]; [now left|right; auto].
Qed.

(** ** The oldest entry *)

Lemma oldest_from_spec (l : list (string * entry)) :
  forall best,
  exists e, In (oldest_from best l, e) (best :: l)
            /\ forall kv, In kv (best :: l) -> timestamp e <= timestamp (snd kv).
Proof.
  induction l as [|kv rest IH]; intros best; simpl.
  - exists (snd best). split; [left; now destruct best|].
    intros kv [<-|[]]. lia.
  - destruct (Z.ltb_spec (timestamp (snd kv)) (timestamp (snd best))) as [Hlt|Hge].
    + destruct (IH kv) as [e [Hin Hmin]]. exists e. split.
      * destruct Hin as [E|I]; [right; left; exact E|right; right; exact I].
      * intros kv' [<-|[<-|I]].
        -- specialize (Hmin kv (or_introl eq_refl)). lia.
        -- apply Hmin. now left.
        -- apply Hmin. now right.
    + destruct (IH best) as [e [Hin Hmin]]. exists e. split.
      * destruct Hin as [E|I]; [left; exact E|right; right; exact I].
      * intros kv' [<-|[<-|I]].
        -- apply Hmin. now left.
        -- specialize (Hmin best (or_introl eq_refl)). lia.
        -- apply Hmin. now right.
Qed.

Lemma oldest_key_spec (c : list (string * entry)) :
  c <> [] ->
  exists k e, oldest_key c = Ok k /\ In (k, e) c
              /\ forall kv, In kv c -> timestamp e <= timestamp (snd kv).
Proof.
  destruct c as [|first rest]; [congruence|]. intros _.
  destruct (oldest_from_spec rest first) as [e [Hin Hmin]].
  exists (oldest_from first rest), e. simpl. auto.
Qed.

(** ** Computations that leave the cache alone *)

Lemma keeps_ret {A : Type} (a : A) : keeps_cache (ret a).
Proof. intros st. reflexivity. Qed.

Lemma keeps_lift {A : Type} (r : result A) : keeps_cache (lift r).
Proof. intros st. reflexivity. Qed.

Lemma keeps_bind {A B : Type} (m : M A) (k : A -> M B) :
  keeps_cache m -> (forall a, keeps_cache (k a)) -> keeps_cache (bind m k).
Proof.
  intros Hm Hk st. unfold bind. specialize (Hm st).
  destruct (m st) as [[a|e] st']; simpl in *.
  - rewrite Hk. exact Hm.
  - exact Hm.
Qed.

Ltac keeps :=
  repeat first
    [ apply keeps_ret | apply keeps_lift
    | apply keeps_bind; [|intros ?]
    | match goal with
      | |- keeps_cache (match ?x with _ => _ end) => destruct x
      | |- keeps_cache (if ?b then _ else _) => destruct b
      end ].

(** ** Induction on values *)

Lemma value_ind' (P : value -> Prop) :
  P VNone ->
  (forall b, P (VBool b)) ->
  (forall z, P (VInt z)) ->
  (forall f, P (VFloat f)) ->
  (forall s, P (VStr s)) ->
  (forall l, Forall P l -> P (VList l)) ->
  (forall d, Forall (fun kv => P (snd kv)) d -> P (VDict d)) ->
  forall v, P v.
Proof.
  intros HN HB HI HF HS HL HD.
  fix IH 1. intros [| b | z | f | s | l | d].
  - exact HN.
  - apply HB.
  - apply HI.
  - apply HF.
  - apply HS.
  - apply HL. induction l as [|x l IHl]; constructor; [apply IH|exact IHl].
  - apply HD. induction d as [|[k x] d IHd]; constructor; [apply IH|exact IHd].
Qed.

(** ** Lower-casing and trimming *)

Lemma lower_char_idem (c : ascii) :
  PyStr.lower_char (PyStr.lower_char c) = PyStr.lower_char c.
Proof. destruct c as [[] [] [] [] [] [] [] []]; reflexivity. Qed.

Lemma isspace_lower_char (c : ascii) :
  PyStr.isspace_char (PyStr.lower_char c) = PyStr.isspace_char c.
Proof. destruct c as [[] [] [] [] [] [] [] []]; reflexivity. Qed.

Lemma lower_idem (s : string) : PyStr.lower (PyStr.lower s) = PyStr.lower s.
Proof.
  induction s as [|c s IH]; simpl; [reflexivity|].
  now rewrite lower_char_idem, IH.
Qed.

Section Trimming.

Variable p : ascii -> bool.
Hypothesis p_lower : forall c, p (PyStr.lower_char c) = p c.

Lemma lstrip_lower (s : string) :
  PyStr.lstrip_with p (PyStr.lower s) = PyStr.lower (PyStr.lstrip_with p s).
Proof using p_lower.
  induction s as [|c s IH]; simpl; [reflexivity|].
  rewrite p_lower. destruct (p c); [exact IH|reflexivity].
Qed.

Lemma rstrip_lower (s : string) :
  PyStr.rstrip_with p (PyStr.lower s) = PyStr.lower (PyStr.rstrip_with p s).
Proof using p_lower.
  induction s as [|c s IH]; simpl; [reflexivity|].
  rewrite IH, p_lower.
  destruct (PyStr.rstrip_with p s); simpl; [|reflexivity].
  destruct (p c); reflexivity.
Qed.

Lemma strip_with_lower (s : string) :
  PyStr.strip_with p (PyStr.lower s) = PyStr.lower (PyStr.strip_with p s).
Proof using p_lower.
  unfold PyStr.strip_with. now rewrite lstrip_lower, rstrip_lower.
Qed.

Lemma rstrip_idem (s : string) :
  PyStr.rstrip_with p (PyStr.rstrip_with p s) = PyStr.rstrip_with p s.
Proof using Type.
  induction s as [|c s IH]; simpl; [reflexivity|].
  destruct (PyStr.rstrip_with p s) as [|c' r] eqn:E.
  - destruct (p c) eqn:Ec; simpl; [reflexivity|].
    now rewrite Ec.
  - simpl in *. destruct (PyStr.rstrip_with p r) as [|c'' r'] eqn:E'.
    + destruct (p c'); [discriminate|]. now rewrite IH.
    + now rewrite IH.
Qed.

Lemma lstrip_head (s : string) :
  match PyStr.lstrip_with p s with
  | EmptyString => True
  | String c _ => p c = false
  end.
Proof using Type.
  induction s as [|c s IH]; simpl; [exact I|].
  destruct (p c) eqn:E; [exact IH|exact E].
Qed.

Lemma rstrip_keeps_head (c : ascii) (s : string) :
  p c = false ->
  exists r, PyStr.rstrip_with p (String c s) = String c r.
Proof using Type.
  intros Hc. simpl. destruct (PyStr.rstrip_with p s).
  - rewrite Hc. now exists EmptyString.
  - eexists. reflexivity.
Qed.

Lemma strip_with_idem (s : string) :
  PyStr.strip_with p (PyStr.strip_with p s) = PyStr.strip_with p s.
Proof using Type.
  unfold PyStr.strip_with. pose proof (lstrip_head s) as H.
  destruct (PyStr.lstrip_with p s) as [|c u] eqn:E; [reflexivity|].
  destruct (rstrip_keeps_head c u H) as [r Hr].
  assert (Hl : PyStr.lstrip_with p (PyStr.rstrip_with p (String c u))
               = PyStr.rstrip_with p (String c u)).
  { rewrite Hr. simpl. now rewrite H. }
  rewrite Hl. apply rstrip_idem.
Qed.

End Trimming.

Lemma lower_strip_settled (s : string) :
  PyStr.lower (PyStr.strip (PyStr.lower (PyStr.strip s))) = PyStr.lower (PyStr.strip s).
Proof.
  unfold PyStr.strip.
  rewrite (strip_with_lower _ isspace_lower_char), strip_with_idem, lower_idem.
  reflexivity.
Qed.

(** ** [_normalize_data] applied twice *)

Lemma mem_app (s : string) (l1 l2 : list string) :
  PyStr.mem s (l1 ++ l2)%list = (PyStr.mem s l1 || PyStr.mem s l2)%bool.
Proof. unfold PyStr.mem. apply existsb_app. Qed.

(** A string the first pass leaves as a string, and that no branch of
    the coercion applies to, is left as it is by a second pass. *)
Lemma normalize_str_settled (s t : string) :
  normalize_str s = Ok (VStr t) ->
  uncoercible t = true ->
  normalize_str t = Ok (VStr t).
Proof.
  unfold normalize_str at 1.
  destruct (PyStr.mem (PyStr.lower s) _); [discriminate|].
  destruct (PyStr.mem (PyStr.lower s) _); [discriminate|].
  destruct (PyStr.isdigit s).
  { unfold int_of_digits.
    destruct (PyStr.isdecimal s); [destruct (Z.ltb _ _)|]; discriminate. }
  destruct (PyFloat.parse s) as [f|]; [discriminate|].
  intros [= <-] Hun. unfold uncoercible in Hun.
  apply andb_true_iff in Hun as [Hun Hp]. apply andb_true_iff in Hun as [Htok Hdig].
  apply negb_true_iff in Htok, Hdig.
  change boolean_tokens with (["true"; "yes"; "1"] ++ ["false"; "no"; "0"])%list in Htok.
  rewrite mem_app in Htok. apply orb_false_iff in Htok as [Ht Hf].
  unfold normalize_str. rewrite lower_idem, Ht, Hf, Hdig.
  destruct (PyFloat.parse _); [discriminate|].
  now rewrite lower_strip_settled.
Qed.

Lemma stable_str_fixed (s : string) (v : value) :
  stable_str s = true ->
  normalize_str s = Ok v ->
  normalize_entry normalize_data v = Ok v.
Proof.
  unfold stable_str. intros Hst Hn. rewrite Hn in Hst.
  destruct v as [| b | z | f | t | l | d]; try reflexivity.
  - simpl. eapply normalize_str_settled; eassumption.
  - exfalso. revert Hn. unfold normalize_str, int_of_digits.
    repeat match goal with |- context [if ?b then _ else _] => destruct b end;
      try discriminate.
    destruct (PyFloat.parse s); discriminate.
  - exfalso. revert Hn. unfold normalize_str, int_of_digits.
    repeat match goal with |- context [if ?b then _ else _] => destruct b end;
      try discriminate.
    destruct (PyFloat.parse s); discriminate.
Qed.

(** The loop over a mapping already in normal form appends its entries
    one by one. *)
Lemma normalize_items_fixed (items : list (string * value)) :
  forall acc,
  NoDup (Dict.keys (acc ++ items)%list) ->
  Forall (fun kv => PyStr.lower (fst kv) = fst kv
                    /\ normalize_entry normalize_data (snd kv) = Ok (snd kv)) items ->
  normalize_items normalize_data items acc = Ok (acc ++ items)%list.
Proof.
  induction items as [|[k v] items IH]; intros acc Hnd Hall; simpl.
  - now rewrite app_nil_r.
  - inversion Hall as [|? ? [Hk Hv] Hrest]; subst. simpl in Hk, Hv.
    rewrite Hv, Hk.
    assert (Hfresh : Dict.get k acc = None).
    { apply get_none_not_in. intros Hin.
      unfold Dict.keys in Hnd. rewrite map_app in Hnd. simpl in Hnd.
      apply NoDup_remove_2 in Hnd. apply Hnd. apply in_or_app. now left. }
    rewrite set_fresh by exact Hfresh.
    rewrite IH.
    + now rewrite <- app_assoc.
    + now rewrite <- app_assoc.
    + exact Hrest.
Qed.

Lemma set_keys_NoDup {V : Type} (k : string) (v : V) (d : list (string * V)) :
  NoDup (Dict.keys d) -> NoDup (Dict.keys (Dict.set k v d)).
Proof.
  induction d as [|[k0 v0] d IH]; simpl; intros H.
  - constructor; [tauto|constructor].
  - inversion H as [|? ? Hn Hd]; subst.
    destruct (String.eqb_spec k k0) as [->|Hk]; simpl.
    + now constructor.
    + constructor; [|auto].
      intros Hin. apply Hn. clear - Hin Hk.
      induction d as [|[k1 v1] d IHd]; simpl in *.
      * destruct Hin as [E|[]]. congruence.
      * destruct (String.eqb_spec k k1) as [->|Hk1]; simpl in *; tauto.
Qed.

Lemma set_Forall {V : Type} (P : string * V -> Prop) (k : string) (v : V)
      (d : list (string * V)) :
  P (k, v) -> Forall P d -> Forall P (Dict.set k v d).
Proof.
  intros Hkv. induction d as [|[k0 v0] d IH]; simpl; intros H.
  - now constructor.
  - inversion H; subst.
    destruct (String.eqb_spec k k0) as [->|Hk]; constructor; auto.
Qed.

(** The loop of the first pass builds a mapping in normal form. *)
Lemma normalize_items_settles (items : list (string * value)) :
  Forall (fun kv => forall q, stable (snd kv) = true ->
                     normalize_data (snd kv) = Ok q -> normalize_data q = Ok q) items ->
  forallb (fun '(_, x) => match x with
                          | VStr s => stable_str s
                          | _ => stable x
                          end) items = true ->
  forall acc normalized,
  NoDup (Dict.keys acc) -> Forall settled_entry acc ->
  normalize_items normalize_data items acc = Ok normalized ->
  NoDup (Dict.keys normalized) /\ Forall settled_entry normalized.
Proof.
  induction items as [|[k v] items IH]; intros HIH Hst acc normalized Hnd Hacc; simpl.
  - intros [= <-]. auto.
  - inversion HIH as [|? ? Hv HIH']; subst. simpl in Hv.
    simpl in Hst. apply andb_true_iff in Hst as [Hsv Hst'].
    destruct (normalize_entry normalize_data v) as [v'|e] eqn:Hn; [|discriminate].
    apply (IH HIH' Hst').
    + now apply set_keys_NoDup.
    + apply set_Forall; [|exact Hacc].
      split; [apply lower_idem|]. cbn [snd].
      destruct v as [| b | z | f | s | l | d]; simpl in Hn;
        try (injection Hn as <-; reflexivity).
      * eapply stable_str_fixed; eassumption.
      * specialize (Hv v' Hsv Hn).
        simpl in Hn. destruct (normalize_each normalize_data l); [|discriminate].
        injection Hn as <-. exact Hv.
      * specialize (Hv v' Hsv Hn).
        simpl in Hn. destruct (normalize_items normalize_data d []); [|discriminate].
        injection Hn as <-. exact Hv.
Qed.

Lemma normalize_each_settles (l : list value) :
  Forall (fun x => forall q, stable x = true ->
                    normalize_data x = Ok q -> normalize_data q = Ok q) l ->
  forallb stable l = true ->
  forall xs, normalize_each normalize_data l = Ok xs ->
             normalize_each normalize_data xs = Ok xs.
Proof.
  induction l as [|x l IH]; intros HIH Hst xs; simpl.
  - intros [= <-]. reflexivity.
  - inversion HIH as [|? ? Hx HIH']; subst.
    simpl in Hst. apply andb_true_iff in Hst as [Hsx Hst'].
    destruct (normalize_data x) as [y|e] eqn:Hy; [|discriminate].
    destruct (normalize_each normalize_data l) as [ys|e] eqn:Hys; [|discriminate].
    intros [= <-]. simpl.
    rewrite (Hx y Hsx eq_refl). now rewrite (IH HIH' Hst' ys eq_refl).
Qed.

(** C1 (as amended): a second pass of normalize changes nothing on the
    result of a first pass that succeeded, for every payload whose
    strings held directly by a mapping are [stable_str]: those that the
    first pass leaves as strings are, once trimmed and lower-cased, no
    boolean token, not all digits and no float. *)
Theorem normalize_idempotent_on_stable (p q : value) :
  stable p = true ->
  normalize_data p = Ok q ->
  normalize_data q = Ok q.
Proof.
  revert q. induction p as [| b | z | f | s | l IHl | d IHd] using value_ind';
    intros q Hst Hn; try (injection Hn as <-; reflexivity).
  - simpl in Hn, Hst.
    destruct (normalize_each normalize_data l) as [xs|e] eqn:Hxs; [|discriminate].
    injection Hn as <-. simpl.
    now rewrite (normalize_each_settles l IHl Hst xs Hxs).
  - simpl in Hn, Hst.
    destruct (normalize_items normalize_data d []) as [normalized|e] eqn:Hi; [|discriminate].
    injection Hn as <-. simpl.
    destruct (normalize_items_settles d IHd Hst [] normalized) as [Hnd Hall];
      [constructor|constructor|exact Hi|].
    rewrite (normalize_items_fixed normalized []); [reflexivity|exact Hnd|exact Hall].
Qed.

(** C1 (as stated) fails: the first pass trims and lower-cases " TRUE "
    to "true", which the second pass reads as the boolean. *)
Lemma normalize_twice_differs :
  normalize_data (VDict [("a", VStr " TRUE ")]) = Ok (VDict [("a", VStr "true")])
  /\ normalize_data (VDict [("a", VStr "true")]) = Ok (VDict [("a", VBool true)])
  /\ VDict [("a", VBool true)] <> VDict [("a", VStr "true")].
Proof.
  split; [vm_compute; reflexivity|].
  split; [vm_compute; reflexivity|discriminate].
Qed.

(** ** [_aggregate_data] on a payload that is no sequence *)

(** C7: aggregate applied to a payload that is not a sequence returns the
    error-shaped mapping [{error: "Data must be a list for aggregation"}]
    as an ordinary result, and raises nothing. *)
Theorem aggregate_non_list_is_error_value (d : value) :
  is_list d = false ->
  aggregate_data d = Ok (VDict [("error", VStr "Data must be a list for aggregation")]).
Proof.
  destruct d; simpl; intros H; try reflexivity; discriminate H.
Qed.

(** ** Booleans in [_aggregate_data] *)













(** *** The exceptions of the arithmetic *)

Lemma of_int_raises (z : Z) (e : exn) :
  PyFloat.of_int z = Raise e -> e = OverflowError.
Proof.
  unfold PyFloat.of_int. destruct (PyFloat.is_inf _); [|discriminate].
  now intros [= <-].
Qed.

Lemma int_truediv_raises (a : Z) (b : positive) (e : exn) :
  PyFloat.int_truediv a b = Raise e -> e = OverflowError.
Proof.
  unfold PyFloat.int_truediv. destruct a; [discriminate| |];
    destruct (PyFloat.is_inf _); try discriminate; now intros [= <-].
Qed.

Lemma num_add_raises (a b : num) (e : exn) :
  num_add a b = Raise e -> e = OverflowError.
Proof.
  destruct a as [x|x], b as [y|y]; simpl; try discriminate.
  - destruct (PyFloat.of_int x) eqn:E; [discriminate|].
    intros [= <-]. eapply of_int_raises; eassumption.
  - destruct (PyFloat.of_int y) eqn:E; [discriminate|].
    intros [= <-]. eapply of_int_raises; eassumption.
Qed.

Lemma py_sum_from_raises (l : list (value * num)) (e : exn) :
  forall acc, py_sum_from acc l = Raise e -> e = OverflowError.
Proof.
  induction l as [|x l IH]; intros acc; simpl; [discriminate|].
  destruct (num_add acc (snd x)) as [acc'|e'] eqn:E.
  - apply IH.
  - intros [= <-]. eapply num_add_raises; eassumption.
Qed.

Lemma num_div_len_raises (a : num) (n : positive) (e : exn) :
  num_div_len a n = Raise e -> e = OverflowError.
Proof.
  destruct a as [x|x]; simpl.
  - apply int_truediv_raises.
  - destruct (PyFloat.of_int (Z.pos n)) eqn:E; [discriminate|].
    intros [= <-]. eapply of_int_raises; eassumption.
Qed.

(** *** Sequences without floats *)

Lemma nums_In (l : list value) (item : value * num) :
  In item (nums l) -> In (fst item) l /\ as_num (fst item) = Some (snd item).
Proof.
  unfold nums. rewrite in_flat_map. intros [v [Hv Hi]].
  destruct (as_num v) as [n|] eqn:E; [|contradiction].
  destruct Hi as [<-|[]]. simpl. auto.
Qed.

Lemma nums_ints (l : list value) :
  forallb (fun v => negb (is_float v)) l = true ->
  Forall (fun item => snd item = NInt (num_int (snd item))) (nums l)
  /\ ints l = map (fun item => num_int (snd item)) (nums l).
Proof.
  unfold nums, ints. induction l as [|v l IH]; intros H; [split; [constructor|reflexivity]|].
  cbn [forallb] in H. apply andb_true_iff in H as [Hv Hl].
  destruct (IH Hl) as [IH1 IH2]. cbn [flat_map]. rewrite map_app, IH2. split.
  - apply Forall_app. split; [|exact IH1].
    destruct v as [| [] | z | f | s | l' | d]; try constructor; try reflexivity;
      try constructor. discriminate Hv.
  - f_equal. destruct v as [| [] | z | f | s | l' | d]; try reflexivity.
    discriminate Hv.
Qed.

Lemma py_sum_from_ints (l : list (value * num)) :
  Forall (fun item => snd item = NInt (num_int (snd item))) l ->
  forall a,
  py_sum_from (NInt a) l
  = Ok (NInt (a + fold_right Z.add 0 (map (fun item => num_int (snd item)) l))).
Proof.
  induction 1 as [|x l Hx Hl IH]; intros a; cbn [py_sum_from map fold_right].
  - do 2 f_equal. lia.
  - rewrite Hx. cbn [num_add num_int]. rewrite IH. do 2 f_equal. lia.
Qed.

Lemma py_min_from_ints (l : list (value * num)) :
  Forall (fun item => snd item = NInt (num_int (snd item))) l ->
  forall best, snd best = NInt (num_int (snd best)) ->
  exists n, In (py_min_from best l, n) (best :: l)
            /\ forall item, In item (best :: l) -> num_int n <= num_int (snd item).
Proof.
  induction 1 as [|x l Hx Hl IH]; intros best Hb; cbn [py_min_from].
  - exists (snd best). split; [left; now destruct best|].
    intros item [<-|[]]. lia.
  - rewrite Hx, Hb. cbn [num_lt].
    destruct (Z.ltb_spec (num_int (snd x)) (num_int (snd best))) as [Hlt|Hge].
    + destruct (IH x Hx) as [n [Hin Hmin]]. exists n. split.
      * destruct Hin as [E|I]; [right; left; exact E|right; right; exact I].
      * intros item [<-|[<-|I]].
        -- specialize (Hmin x (or_introl eq_refl)). lia.
        -- apply Hmin. now left.
        -- apply Hmin. now right.
    + destruct (IH best Hb) as [n [Hin Hmin]]. exists n. split.
      * destruct Hin as [E|I]; [left; exact E|right; right; exact I].
      * intros item [<-|[<-|I]].
        -- apply Hmin. now left.
        -- specialize (Hmin best (or_introl eq_refl)). lia.
        -- apply Hmin. now right.
Qed.

Lemma py_max_from_ints (l : list (value * num)) :
  Forall (fun item => snd item = NInt (num_int (snd item))) l ->
  forall best, snd best = NInt (num_int (snd best)) ->
  exists n, In (py_max_from best l, n) (best :: l)
            /\ forall item, In item (best :: l) -> num_int (snd item) <= num_int n.
Proof.
  induction 1 as [|x l Hx Hl IH]; intros best Hb; cbn [py_max_from].
  - exists (snd best). split; [left; now destruct best|].
    intros item [<-|[]]. lia.
  - rewrite Hx, Hb. cbn [num_lt].
    destruct (Z.ltb_spec (num_int (snd best)) (num_int (snd x))) as [Hlt|Hge].
    + destruct (IH x Hx) as [n [Hin Hmax]]. exists n. split.
      * destruct Hin as [E|I]; [right; left; exact E|right; right; exact I].
      * intros item [<-|[<-|I]].
        -- specialize (Hmax x (or_introl eq_refl)). lia.
        -- apply Hmax. now left.
        -- apply Hmax. now right.
    + destruct (IH best Hb) as [n [Hin Hmax]]. exists n. split.
      * destruct Hin as [E|I]; [left; exact E|right; right; exact I].
      * intros item [<-|[<-|I]].
        -- apply Hmax. now left.
        -- specialize (Hmax best (or_introl eq_refl)). lia.
        -- apply Hmax. now right.
Qed.









(** [[True, False, True]]: three "bool", min [False], max [True], sum 2. *)
Example aggregate_booleans :
  aggregate_data (VList [VBool true; VBool false; VBool true])
  = Ok (VDict [("count", VInt 3);
               ("types", VDict [("bool", VInt 3)]);
               ("numeric_stats",
                VDict [("min", VBool false); ("max", VBool true);
                       ("avg", VFloat (S754_finite false 6004799503160661 (-53)));
                       ("sum", VInt 2)]);
               ("string_stats", VDict [])]).
Proof. vm_compute. reflexivity. Qed.

(** ** Sorting the items of a mapping by key *)

Lemma leb_iff (a b : string) :
  String.leb a b = true <-> a = b \/ String_as_OT.lt a b.
Proof.
  unfold String.leb. destruct (String.compare a b) eqn:E.
  - apply String_as_OT.cmp_eq in E. tauto.
  - apply String_as_OT.cmp_lt in E. tauto.
  - split; [discriminate|]. intros [->|Hlt].
    + assert (H : String.compare b b = Eq) by now apply String_as_OT.cmp_eq.
      congruence.
    + apply String_as_OT.cmp_lt in Hlt. unfold String_as_OT.cmp in Hlt. congruence.
Qed.

Lemma leb_trans (a b c : string) :
  String.leb a b = true -> String.leb b c = true -> String.leb a c = true.
Proof.
  rewrite !leb_iff. intros [->|H1] [->|H2]; auto.
  right. eapply String_as_OT.lt_trans; eassumption.
Qed.

Lemma leb_false_flip (a b : string) :
  String.leb a b = false -> String.leb b a = true.
Proof.
  intros H. destruct (String.leb_total a b) as [E|E]; congruence.
Qed.

Lemma leb_strict (a b : string) :
  a <> b -> String.leb a b = true -> String.leb b a = false.
Proof.
  intros Hne H. destruct (String.leb b a) eqn:E; [|reflexivity].
  exfalso. apply Hne. now apply String.leb_antisym.
Qed.

Lemma insert_item_comm {V : Type} (a b : string * V) (l : list (string * V)) :
  fst a <> fst b ->
  insert_item a (insert_item b l) = insert_item b (insert_item a l).
Proof.
  intros Hne.
  induction l as [|c l IH]; simpl.
  - destruct (String.leb (fst a) (fst b)) eqn:E1.
    + now rewrite (leb_strict _ _ Hne E1).
    + now rewrite (leb_false_flip _ _ E1).
  - destruct (String.leb (fst b) (fst c)) eqn:Ebc;
      destruct (String.leb (fst a) (fst c)) eqn:Eac; simpl.
    + destruct (String.leb (fst a) (fst b)) eqn:E1.
      * rewrite (leb_strict _ _ Hne E1). simpl. now rewrite Ebc.
      * rewrite (leb_false_flip _ _ E1). simpl. now rewrite Eac.
    + assert (E1 : String.leb (fst a) (fst b) = false).
      { destruct (String.leb (fst a) (fst b)) eqn:E; [|reflexivity].
        rewrite (leb_trans _ _ _ E Ebc) in Eac. discriminate. }
      rewrite E1. simpl. now rewrite Eac, Ebc.
    + assert (E1 : String.leb (fst b) (fst a) = false).
      { destruct (String.leb (fst b) (fst a)) eqn:E; [|reflexivity].
        rewrite (leb_trans _ _ _ E Eac) in Ebc. discriminate. }
      rewrite E1. simpl. now rewrite Eac, Ebc.
    + rewrite Eac, Ebc. now rewrite IH.
Qed.

(** Items with distinct keys sort to the same list whatever their order. *)
Lemma sort_items_perm {V : Type} (l1 l2 : list (string * V)) :
  Permutation l1 l2 -> NoDup (Dict.keys l1) -> sort_items l1 = sort_items l2.
Proof.
  induction 1 as [|x l l' Hp IH|x y l|l l' l'' Hp1 IH1 Hp2 IH2]; intros Hnd.
  - reflexivity.
  - simpl. rewrite IH; [reflexivity|]. now inversion Hnd.
  - simpl. apply insert_item_comm.
    simpl in Hnd. inversion Hnd as [|? ? Hn _]; subst.
    intros E. apply Hn. left. now symmetry.
  - rewrite IH1 by exact Hnd. apply IH2.
    unfold Dict.keys in *. eapply Permutation_NoDup; [|exact Hnd].
    now apply Permutation_map.
Qed.

(** ** Properties that depend on the library only *)

Section LibraryProperties.

Variable lib : library.

Lemma keeps_now : keeps_cache (now lib).
Proof. intros st. reflexivity. Qed.

Lemma keeps_created_at_rule item : keeps_cache (created_at_rule lib item).
Proof. unfold created_at_rule, created_recently. keeps; apply keeps_now. Qed.

Lemma keeps_score_rule item : keeps_cache (score_rule lib item).
Proof.
  unfold score_rule.
  destruct (Dict.get "score" item); [|apply keeps_created_at_rule].
  apply keeps_bind; [apply keeps_lift|].
  intros [score|]; [apply keeps_ret|apply keeps_created_at_rule].
Qed.

Lemma keeps_should_include_dict item : keeps_cache (should_include_dict lib item).
Proof.
  unfold should_include_dict.
  destruct (Dict.get "status" item) as [x|]; [|apply keeps_score_rule].
  destruct (value_in x _); [apply keeps_ret|].
  destruct (value_in x _); [apply keeps_ret|apply keeps_score_rule].
Qed.

Lemma keeps_keep_item item : keeps_cache (keep_item lib item).
Proof.
  destruct item; simpl; try apply keeps_ret. apply keeps_should_include_dict.
Qed.

Lemma keeps_filter_items l : keeps_cache (filter_items lib l).
Proof.
  induction l as [|item rest IH]; simpl; [apply keeps_ret|].
  apply keeps_bind; [apply keeps_keep_item|]. intros keep.
  apply keeps_bind; [exact IH|]. intros filtered. apply keeps_ret.
Qed.

Lemma keeps_filter_data d : keeps_cache (filter_data lib d).
Proof.
  destruct d; simpl; try apply keeps_ret.
  apply keeps_bind; [apply keeps_filter_items|]. intros; apply keeps_ret.
Qed.

Lemma keeps_dispatch processing_type d : keeps_cache (dispatch lib processing_type d).
Proof.
  unfold dispatch.
  repeat match goal with
         | |- keeps_cache (if ?b then _ else _) => destruct b
         end;
    try apply keeps_lift; try apply keeps_ret. apply keeps_filter_data.
Qed.

(** ** The cache key does not depend on the insertion order of keys *)

Lemma rendered_keys (d : list (string * value)) :
  Dict.keys (map (fun '(k, v) => (k, dumps lib v)) d) = Dict.keys d.
Proof.
  unfold Dict.keys. rewrite map_map. apply map_ext. now intros [k v].
Qed.

Lemma rendered_same (d1 d2 : list (string * value)) :
  Forall (fun kv => well_formed (snd kv) = true ->
                    forall p2, same_shape (snd kv) p2 -> dumps lib (snd kv) = dumps lib p2) d1 ->
  forallb (fun '(_, x) => well_formed x) d1 = true ->
  Forall2 (fun e1 e2 => fst e1 = fst e2 /\ same_shape (snd e1) (snd e2)) d1 d2 ->
  map (fun '(k, v) => (k, dumps lib v)) d1 = map (fun '(k, v) => (k, dumps lib v)) d2.
Proof.
  intros HIH Hwf HF. induction HF as [|[k1 v1] [k2 v2] d1 d2 [Hk Hs] HF IH]; simpl.
  - reflexivity.
  - inversion HIH as [|? ? Hv HIH']; subst.
    simpl in Hwf. apply andb_true_iff in Hwf as [Hw Hwf'].
    simpl in Hk, Hs, Hv. subst k2.
    rewrite (Hv Hw v2 Hs). now rewrite (IH HIH' Hwf').
Qed.

Lemma dumps_same_shape (p1 : value) :
  well_formed p1 = true ->
  forall p2, same_shape p1 p2 -> dumps lib p1 = dumps lib p2.
Proof.
  induction p1 as [| b | z | f | s | l IHl | d IHd] using value_ind';
    intros Hwf p2 Hs; inversion Hs; subst; try reflexivity.
  - match goal with H : Forall2 same_shape l ?l' |- _ =>
      rename H into HF; rename l' into l2 end.
    simpl in Hwf. clear Hs.
    assert (Hmap : map (dumps lib) l = map (dumps lib) l2).
    { induction HF as [|x y l l2 Hxy HF IH]; simpl; [reflexivity|].
      inversion IHl as [|? ? Hx IHl']; subst.
      apply andb_true_iff in Hwf as [Hw Hwf'].
      rewrite (Hx Hw y Hxy). now rewrite (IH IHl' Hwf'). }
    simpl. now rewrite Hmap.
  - match goal with
    | HF : Forall2 _ d ?d2', HP : Permutation ?d2' ?d2 |- _ =>
        rename HF into HF2; rename HP into Hperm
    end.
    simpl in Hwf. apply andb_true_iff in Hwf as [Hdist Hwf].
    apply distinct_NoDup in Hdist.
    assert (Hsort : sort_items (map (fun '(k, v) => (k, dumps lib v)) d)
                    = sort_items (map (fun '(k, v) => (k, dumps lib v)) d2)).
    { rewrite (rendered_same d d2' IHd Hwf HF2).
      apply sort_items_perm.
      + now apply Permutation_map.
      + rewrite <- (rendered_same d d2' IHd Hwf HF2), rendered_keys. exact Hdist. }
    simpl. now rewrite Hsort.
Qed.

(** C2: the cache key is a function of the operation name and the
    payload alone (no state, no identity enters it), and two payloads
    that differ only in the insertion order of mapping keys, at any
    depth, get the same key. *)
Theorem cache_key_ignores_insertion_order (processing_type : string) (p1 p2 : value) :
  well_formed p1 = true ->
  same_shape p1 p2 ->
  generate_cache_key lib p1 processing_type = generate_cache_key lib p2 processing_type.
Proof.
  intros Hwf Hs. unfold generate_cache_key.
  now rewrite (dumps_same_shape p1 Hwf p2 Hs).
Qed.

End LibraryProperties.

(** ** Properties of the processor *)

Section ProcessorProperties.

Variable lib : library.
Variable cfg : config.

(** ** [process_data] on falsy and unparseable input *)

(** C9: every falsy payload (None, False, 0, 0.0, the empty string, list
    and dict) makes [process_data] return None at once: the state is
    untouched (no cache access, no clock reading) and the result does
    not depend on the parser or the key derivation. *)
Theorem process_falsy_returns_none (d : value) (processing_type : string) (st : state) :
  truthy d = false ->
  process_data lib cfg d processing_type st = (Ok VNone, st).
Proof.
  intros H. unfold process_data. rewrite H. reflexivity.
Qed.

Lemma process_unparseable_returns_none (s : string) (processing_type : string) (st : state) :
  json_loads lib s = None ->
  process_data lib cfg (VStr s) processing_type st = (Ok VNone, st).
Proof.
  intros H. unfold process_data.
  destruct (negb (truthy (VStr s))); [reflexivity|].
  rewrite H. reflexivity.
Qed.

(** ** The cache bound *)

(** The lookup of a key the cache holds: the clock is read, and then
    the time to live decides. *)
Lemma cache_lookup_present key st e :
  Dict.get key (cache st) = Some e ->
  cache_lookup lib cfg key st
  = if timedelta_fits (cache_ttl cfg) then
      if Z.ltb (clock lib (clock_reads st) - timestamp e) (microseconds (cache_ttl cfg))
      then (Ok (Some (data e)),
            {| cache := cache st; clock_reads := S (clock_reads st) |})
      else (Ok None,
            {| cache := Dict.del key (cache st); clock_reads := S (clock_reads st) |})
    else (Raise OverflowError,
          {| cache := cache st; clock_reads := S (clock_reads st) |}).
Proof.
  intros Hg.
  unfold cache_lookup, bind at 1, get_cache. cbn [fst snd]. rewrite Hg.
  unfold bind at 1, now. unfold bind at 1, lift, timedelta.
  destruct (timedelta_fits (cache_ttl cfg)); [|reflexivity].
  destruct (Z.ltb _ _); reflexivity.
Qed.

Lemma cache_lookup_absent key st :
  Dict.get key (cache st) = None -> cache_lookup lib cfg key st = (Ok None, st).
Proof.
  intros Hg. unfold cache_lookup, bind, get_cache. cbn [fst snd]. now rewrite Hg.
Qed.

Lemma cache_lookup_shrinks key st :
  (List.length (cache (snd (cache_lookup lib cfg key st))) <= List.length (cache st))%nat.
Proof.
  destruct (Dict.get key (cache st)) as [e|] eqn:Hg.
  - rewrite (cache_lookup_present key st e Hg).
    destruct (timedelta_fits _); [destruct (Z.ltb _ _)|]; cbn [snd cache];
      [lia|apply del_length_le|lia].
  - rewrite (cache_lookup_absent key st Hg). cbn [snd]. lia.
Qed.

Lemma set_entry_cache key v st :
  cache (snd (set_entry lib key v st))
  = Dict.set key {| data := v; timestamp := clock lib (clock_reads st) |} (cache st).
Proof. reflexivity. Qed.

Lemma cache_store_room key v st :
  Z.of_nat (List.length (cache st)) < max_cache_size cfg ->
  cache_store lib cfg key v st
  = (Ok tt,
     {| cache := Dict.set key {| data := v; timestamp := clock lib (clock_reads st) |}
                   (cache st);
        clock_reads := S (clock_reads st) |}).
Proof.
  intros Hlt. unfold cache_store, bind, get_cache.
  destruct (Z.ltb_spec (Z.of_nat (List.length (cache st))) (max_cache_size cfg));
    [reflexivity|lia].
Qed.

Lemma cache_store_full key v st k :
  max_cache_size cfg <= Z.of_nat (List.length (cache st)) ->
  oldest_key (cache st) = Ok k ->
  cache_store lib cfg key v st
  = (Ok tt,
     {| cache := Dict.set key {| data := v; timestamp := clock lib (clock_reads st) |}
                   (Dict.del k (cache st));
        clock_reads := S (clock_reads st) |}).
Proof.
  intros Hge Hk. unfold cache_store, bind, get_cache.
  destruct (Z.ltb_spec (Z.of_nat (List.length (cache st))) (max_cache_size cfg));
    [lia|].
  destruct (Z.leb_spec (max_cache_size cfg) (Z.of_nat (List.length (cache st))));
    [|lia].
  unfold lift. rewrite Hk. reflexivity.
Qed.

Lemma cache_store_bounded key v st :
  0 < max_cache_size cfg ->
  cache_bounded cfg st -> cache_bounded cfg (snd (cache_store lib cfg key v st)).
Proof.
  unfold cache_bounded. intros Hpos Hb.
  destruct (Z.lt_ge_cases (Z.of_nat (List.length (cache st))) (max_cache_size cfg))
    as [Hlt|Hge].
  - rewrite cache_store_room by assumption. cbn [snd cache].
    pose proof (set_length_le key {| data := v; timestamp := clock lib (clock_reads st) |} (cache st)).
    lia.
  - assert (Hne : cache st <> []).
    { intros E. rewrite E in Hge. simpl in Hge. lia. }
    destruct (oldest_key_spec (cache st) Hne) as [k [e [Hk [Hin _]]]].
    rewrite (cache_store_full key v st k) by assumption. cbn [snd cache].
    assert (Hlen : S (List.length (Dict.del k (cache st))) = List.length (cache st)).
    { apply del_length. apply in_map_iff. exists (k, e). split; [reflexivity|assumption]. }
    pose proof (set_length_le key {| data := v; timestamp := clock lib (clock_reads st) |}
                  (Dict.del k (cache st))).
    lia.
Qed.

Lemma process_payload_bounded d processing_type st :
  0 < max_cache_size cfg ->
  cache_bounded cfg st -> cache_bounded cfg (snd (process_payload lib cfg d processing_type st)).
Proof.
  intros Hpos Hb. unfold process_payload.
  set (key := generate_cache_key lib d processing_type).
  unfold bind at 1.
  pose proof (cache_lookup_shrinks key st) as Hl.
  destruct (cache_lookup lib cfg key st) as [[[cached|]|e] st1]; simpl in *.
  - unfold cache_bounded in *. lia.
  - assert (Hb1 : cache_bounded cfg st1) by (unfold cache_bounded in *; lia).
    unfold bind at 1.
    pose proof (keeps_dispatch lib processing_type d st1) as Hd.
    destruct (dispatch lib processing_type d st1) as [[v|e] st2]; simpl in *.
    + assert (Hb2 : cache_bounded cfg st2) by (unfold cache_bounded in *; now rewrite Hd).
      unfold bind.
      pose proof (cache_store_bounded key v st2 Hpos Hb2) as Hs.
      destruct (cache_store lib cfg key v st2) as [[[]|e] st3]; simpl in *; exact Hs.
    + unfold cache_bounded in *. now rewrite Hd.
  - unfold cache_bounded in *. lia.
Qed.

Lemma process_data_bounded d processing_type st :
  0 < max_cache_size cfg ->
  cache_bounded cfg st -> cache_bounded cfg (snd (process_data lib cfg d processing_type st)).
Proof.
  intros Hpos Hb. unfold process_data.
  destruct (negb (truthy d)); [exact Hb|].
  destruct d; try (apply process_payload_bounded; assumption).
  destruct (json_loads lib s); [apply process_payload_bounded; assumption|exact Hb].
Qed.

Lemma run_call_bounded c st :
  0 < max_cache_size cfg ->
  cache_bounded cfg st -> cache_bounded cfg (run_call lib cfg c st).
Proof.
  intros Hpos Hb. destruct c; simpl.
  - now apply process_data_bounded.
  - unfold cache_bounded. simpl. lia.
Qed.

(** C3: starting from the empty cache of a new processor, after any
    finite sequence of [process_data] and [clear_cache] calls the cache
    holds at most [max_cache_size] entries, for a positive bound. *)
Theorem cache_size_bound (calls : list call) :
  0 < max_cache_size cfg ->
  Z.of_nat (List.length (cache (run_calls lib cfg calls init))) <= max_cache_size cfg.
Proof.
  intros Hpos. change (cache_bounded cfg (run_calls lib cfg calls init)).
  assert (H0 : cache_bounded cfg init) by (unfold cache_bounded; simpl; lia).
  revert H0. generalize init as st. unfold run_calls.
  induction calls as [|c calls IH]; intros st Hb; simpl; [exact Hb|].
  apply IH. now apply run_call_bounded.
Qed.

(** ** Time to live *)

(** No two readings of [datetime.now()] are 1000000000 days apart (the
    years of a [datetime] end at 9999), so under a positive time to
    live an entry that has reached it has one a [timedelta] holds. *)
Lemma expired_ttl_fits (age : Z) :
  0 < cache_ttl cfg ->
  microseconds (cache_ttl cfg) <= age ->
  age < microseconds (1000000000 * 86400) ->
  timedelta_fits (cache_ttl cfg) = true.
Proof.
  unfold microseconds, timedelta_fits. intros Hpos Hage Hmax.
  assert (H0 : 0 <= cache_ttl cfg / 86400) by (apply Z.div_pos; lia).
  assert (H1 : cache_ttl cfg / 86400 < 1000000000)
    by (apply Z.div_lt_upper_bound; lia).
  apply andb_true_iff. split; apply Z.leb_le; lia.
Qed.

(** C4: the lookup returns a cached entry only if its age, the clock
    reading minus its timestamp, is strictly below the time to live; an
    entry present with an age of at least the time to live makes the
    lookup a miss and is removed from the cache, the others staying.
    The second half is for a time to live that a [timedelta] holds:
    from 1000000000 days on, line 34 raises before it compares
    ([lookup_beyond_timedelta]).  A positive time to live that an entry
    has reached is one that a [timedelta] holds ([expired_ttl_fits]). *)
Theorem lookup_respects_ttl (key : string) (st : state) :
  distinct (Dict.keys (cache st)) = true ->
  (forall v st', cache_lookup lib cfg key st = (Ok (Some v), st') ->
     exists e, Dict.get key (cache st) = Some e /\ data e = v
               /\ clock lib (clock_reads st) - timestamp e < microseconds (cache_ttl cfg)
               /\ cache st' = cache st)
  /\ (forall e, Dict.get key (cache st) = Some e ->
        timedelta_fits (cache_ttl cfg) = true ->
        microseconds (cache_ttl cfg) <= clock lib (clock_reads st) - timestamp e ->
        exists st', cache_lookup lib cfg key st = (Ok None, st')
                    /\ Dict.get key (cache st') = None
                    /\ cache st' = Dict.del key (cache st)
                    /\ forall k, k <> key -> Dict.get k (cache st') = Dict.get k (cache st)).
Proof.
  intros Hd. apply distinct_NoDup in Hd. split.
  - intros v st'. destruct (Dict.get key (cache st)) as [e|] eqn:Hg.
    + rewrite (cache_lookup_present key st e Hg).
      destruct (timedelta_fits (cache_ttl cfg)); [|discriminate].
      destruct (Z.ltb_spec (clock lib (clock_reads st) - timestamp e)
                  (microseconds (cache_ttl cfg))) as [Hlt|Hge]; [|discriminate].
      intros [= <- <-]. exists e. cbn [cache]. auto.
    + rewrite (cache_lookup_absent key st Hg). discriminate.
  - intros e Hg Hfit Hage. rewrite (cache_lookup_present key st e Hg), Hfit.
    destruct (Z.ltb_spec (clock lib (clock_reads st) - timestamp e)
                (microseconds (cache_ttl cfg))) as [Hlt|Hge]; [lia|].
    eexists. split; [reflexivity|]. cbn [cache]. split; [|split; [reflexivity|]].
    + now apply del_get_same.
    + intros k Hk. now apply del_get_other.
Qed.

Lemma lookup_fresh_hit (key : string) (st : state) (e : entry) :
  Dict.get key (cache st) = Some e ->
  timedelta_fits (cache_ttl cfg) = true ->
  clock lib (clock_reads st) - timestamp e < microseconds (cache_ttl cfg) ->
  cache_lookup lib cfg key st
  = (Ok (Some (data e)), {| cache := cache st; clock_reads := S (clock_reads st) |}).
Proof.
  intros Hg Hfit Hlt. rewrite (cache_lookup_present key st e Hg), Hfit.
  destruct (Z.ltb_spec (clock lib (clock_reads st) - timestamp e)
              (microseconds (cache_ttl cfg))); [reflexivity|lia].
Qed.

(** With a time to live beyond the range of [timedelta], the lookup of
    a key the cache holds raises [OverflowError] once the clock is
    read, and the entry stays. *)
Lemma lookup_beyond_timedelta (key : string) (st : state) (e : entry) :
  Dict.get key (cache st) = Some e ->
  timedelta_fits (cache_ttl cfg) = false ->
  cache_lookup lib cfg key st
  = (Raise OverflowError, {| cache := cache st; clock_reads := S (clock_reads st) |}).
Proof.
  intros Hg Hfit. now rewrite (cache_lookup_present key st e Hg), Hfit.
Qed.

(** ** Eviction *)

(** C5: when the cache holds [max_cache_size] entries and a result is
    stored under a key it does not hold, exactly one entry is removed
    before the insertion, and its timestamp is least among all entries:
    every other entry survives, and none of them is older than the one
    evicted. *)
Theorem eviction_removes_an_oldest_entry (key : string) (v : value) (st : state) :
  distinct (Dict.keys (cache st)) = true ->
  0 < max_cache_size cfg ->
  Z.of_nat (List.length (cache st)) = max_cache_size cfg ->
  Dict.get key (cache st) = None ->
  exists k0 e0 st',
    cache_store lib cfg key v st = (Ok tt, st')
    /\ In (k0, e0) (cache st)
    /\ (forall k e, In (k, e) (cache st) -> timestamp e0 <= timestamp e)
    /\ Dict.get k0 (cache st') = None
    /\ (forall k e, In (k, e) (cache st) -> k <> k0 -> In (k, e) (cache st'))
    /\ (forall k e, In (k, e) (cache st) -> k <> k0 -> ~ timestamp e < timestamp e0)
    /\ Dict.get key (cache st')
       = Some {| data := v; timestamp := clock lib (clock_reads st) |}
    /\ List.length (cache st') = List.length (cache st).
Proof.
  intros Hd Hpos Hfull Hnew. apply distinct_NoDup in Hd.
  assert (Hne : cache st <> []).
  { intros E. rewrite E in Hfull. simpl in Hfull. lia. }
  destruct (oldest_key_spec (cache st) Hne) as [k0 [e0 [Hk [Hin Hmin]]]].
  exists k0, e0. eexists. split.
  { apply cache_store_full; [lia|exact Hk]. }
  cbn [cache].
  assert (Hkey : key <> k0).
  { intros ->. apply get_none_not_in in Hnew. apply Hnew.
    apply in_map_iff. exists (k0, e0). split; [reflexivity|assumption]. }
  split; [exact Hin|]. split.
  { intros k e Hke. exact (Hmin (k, e) Hke). }
  split.
  { rewrite set_get_other by congruence. now apply del_get_same. }
  split.
  { intros k e Hke Hk0. apply set_In_other.
    - intros ->. apply get_none_not_in in Hnew. apply Hnew.
      apply in_map_iff. exists (key, e). split; [reflexivity|assumption].
    - now apply del_In. }
  split.
  { intros k e Hke _. specialize (Hmin (k, e) Hke). simpl in Hmin. lia. }
  split; [apply set_get_same|].
  rewrite set_fresh.
  - rewrite length_app. simpl.
    assert (Hlen : S (List.length (Dict.del k0 (cache st))) = List.length (cache st)).
    { apply del_length. apply in_map_iff. exists (k0, e0). split; [reflexivity|assumption]. }
    lia.
  - rewrite del_get_other by assumption. exact Hnew.
Qed.

(** ** A miss on a new processor *)

Lemma process_payload_fresh (d : value) (processing_type : string) :
  0 < max_cache_size cfg ->
  fst (process_payload lib cfg d processing_type init)
  = fst (dispatch lib processing_type d init).
Proof.
  intros Hpos. unfold process_payload, bind at 1.
  unfold cache_lookup, bind at 1, get_cache. cbn [cache init Dict.get ret].
  unfold bind at 1.
  pose proof (keeps_dispatch lib processing_type d init) as Hk.
  destruct (dispatch lib processing_type d init) as [[v|e] st1]; [|reflexivity].
  unfold bind. rewrite cache_store_room; [reflexivity|].
  cbn [snd] in Hk. rewrite Hk. simpl. exact Hpos.
Qed.

(** C8: on a new processor, [process_data({"userId":
    "http://example.com/x"}, "transform")] returns [{"user_id": {"url":
    "http://example.com/x", "domain": "example.com"}}]: the key goes
    from camelCase to snake_case and the URL becomes a mapping of the
    URL and its host. *)
Theorem transform_scenario :
  0 < max_cache_size cfg ->
  fst (process_data lib cfg (VDict [("userId", VStr "http://example.com/x")]) "transform" init)
  = Ok (VDict [("user_id",
                VDict [("url", VStr "http://example.com/x");
                       ("domain", VStr "example.com")])]).
Proof.
  intros Hpos. unfold process_data. cbn [truthy negb].
  rewrite process_payload_fresh by exact Hpos.
  vm_compute. reflexivity.
Qed.

(** ** Exceptions that leave [process_data] *)

Lemma process_payload_raises (d : value) (processing_type : string) (e : exn) :
  (forall st, fst (dispatch lib processing_type d st) = Raise e) ->
  fst (process_payload lib cfg d processing_type init) = Raise e.
Proof.
  intros H. unfold process_payload, bind at 1.
  unfold cache_lookup, bind at 1, get_cache. cbn [cache init Dict.get ret].
  unfold bind at 1. specialize (H init).
  destruct (dispatch lib processing_type d init) as [[v|e'] st1]; simpl in *; congruence.
Qed.

(** C6 (fails on the code): [process_data] can raise.  A mapping value
    made of the superscript digit U+00B2 passes [isdigit] and makes
    [int] raise [ValueError] in normalize; an integer beyond the range
    of a float makes the average of aggregate raise [OverflowError].
    Neither is caught, so the caller is aborted. *)
Theorem process_data_can_raise :
  fst (process_data lib cfg (VDict [("a", VStr (String "178" EmptyString))]) "normalize" init)
  = Raise ValueError
  /\ fst (process_data lib cfg (VList [VInt (10 ^ 400)]) "aggregate" init)
     = Raise OverflowError.
Proof.
  split.
  - unfold process_data. cbn [truthy negb].
    apply process_payload_raises. intros st. vm_compute. reflexivity.
  - unfold process_data. cbn [truthy negb].
    apply process_payload_raises. intros st. vm_compute. reflexivity.
Qed.

End ProcessorProperties.

(* ================================================================== *)
(** * The theorems at sample inputs *)

Lemma normalize_idempotent_on_stable_witness :
  stable Sample.raw = true
  /\ normalize_data Sample.raw = Ok Sample.normalized
  /\ normalize_data Sample.normalized = Ok Sample.normalized.
Proof.
  split; [vm_compute; reflexivity|].
  split; [vm_compute; reflexivity|].
  apply (normalize_idempotent_on_stable Sample.raw Sample.normalized);
    vm_compute; reflexivity.
Defined.

Lemma cache_key_ignores_insertion_order_witness :
  well_formed Sample.p1 = true
  /\ same_shape Sample.p1 Sample.p2
  /\ generate_cache_key Sample.lib Sample.p1 "normalize"
     = generate_cache_key Sample.lib Sample.p2 "normalize".
Proof.
  assert (Hs : same_shape Sample.p1 Sample.p2).
  { apply (same_dict _ _
             [("a", VInt 1); ("b", VList [VDict [("y", VBool true); ("x", VNone)]])]).
    - constructor; [split; [reflexivity|constructor]|].
      constructor; [|constructor].
      split; [reflexivity|]. apply same_list.
      constructor; [|constructor].
      apply (same_dict _ _ [("x", VNone); ("y", VBool true)]).
      + repeat constructor.
      + apply perm_swap.
    - apply perm_swap. }
  split; [reflexivity|]. split; [exact Hs|].
  apply (cache_key_ignores_insertion_order Sample.lib "normalize" Sample.p1 Sample.p2);
    [reflexivity|exact Hs].
Defined.

Lemma cache_size_bound_witness :
  0 < max_cache_size Sample.cfg
  /\ Z.of_nat (List.length (cache (run_calls Sample.lib Sample.cfg Sample.calls init)))
     <= max_cache_size Sample.cfg.
Proof.
  split; [reflexivity|].
  apply (cache_size_bound Sample.lib Sample.cfg Sample.calls). reflexivity.
Defined.

Lemma aggregate_non_list_is_error_value_witness :
  is_list (VInt 5) = false
  /\ aggregate_data (VInt 5)
     = Ok (VDict [("error", VStr "Data must be a list for aggregation")]).
Proof.
  split; [reflexivity|].
  apply (aggregate_non_list_is_error_value (VInt 5)). reflexivity.
Defined.


Lemma transform_scenario_witness :
  0 < max_cache_size Sample.cfg
  /\ fst (process_data Sample.lib Sample.cfg
            (VDict [("userId", VStr "http://example.com/x")]) "transform" init)
     = Ok (VDict [("user_id",
                   VDict [("url", VStr "http://example.com/x");
                          ("domain", VStr "example.com")])]).
Proof.
  split; [reflexivity|].
  apply (transform_scenario Sample.lib Sample.cfg). reflexivity.
Defined.

Lemma process_falsy_returns_none_witness :
  truthy (VList []) = false
  /\ process_data Sample.lib Sample.cfg (VList []) "filter" Sample.full
     = (Ok VNone, Sample.full).
Proof.
  split; [reflexivity|].
  apply (process_falsy_returns_none Sample.lib Sample.cfg (VList []) "filter" Sample.full).
  reflexivity.
Defined.

Lemma lookup_respects_ttl_witness :
  distinct (Dict.keys (cache Sample.full)) = true
  /\ ((forall v st',
         cache_lookup Sample.lib Sample.cfg "k2" Sample.full = (Ok (Some v), st') ->
         exists e, Dict.get "k2" (cache Sample.full) = Some e /\ data e = v
                   /\ clock Sample.lib (clock_reads Sample.full) - timestamp e
                      < microseconds (cache_ttl Sample.cfg)
                   /\ cache st' = cache Sample.full)
      /\ (forall e, Dict.get "k2" (cache Sample.full) = Some e ->
            timedelta_fits (cache_ttl Sample.cfg) = true ->
            microseconds (cache_ttl Sample.cfg)
            <= clock Sample.lib (clock_reads Sample.full) - timestamp e ->
            exists st',
              cache_lookup Sample.lib Sample.cfg "k2" Sample.full = (Ok None, st')
              /\ Dict.get "k2" (cache st') = None
              /\ cache st' = Dict.del "k2" (cache Sample.full)
              /\ forall k, k <> "k2" ->
                           Dict.get k (cache st') = Dict.get k (cache Sample.full))).
Proof.
  split; [reflexivity|].
  apply (lookup_respects_ttl Sample.lib Sample.cfg "k2" Sample.full). reflexivity.
Defined.

Lemma eviction_removes_an_oldest_entry_witness :
  distinct (Dict.keys (cache Sample.full)) = true
  /\ 0 < max_cache_size Sample.cfg
  /\ Z.of_nat (List.length (cache Sample.full)) = max_cache_size Sample.cfg
  /\ Dict.get "k3" (cache Sample.full) = None
  /\ exists k0 e0 st',
       cache_store Sample.lib Sample.cfg "k3" VNone Sample.full = (Ok tt, st')
       /\ In (k0, e0) (cache Sample.full)
       /\ (forall k e, In (k, e) (cache Sample.full) -> timestamp e0 <= timestamp e)
       /\ Dict.get k0 (cache st') = None
       /\ (forall k e, In (k, e) (cache Sample.full) -> k <> k0 -> In (k, e) (cache st'))
       /\ (forall k e, In (k, e) (cache Sample.full) -> k <> k0 ->
                       ~ timestamp e < timestamp e0)
       /\ Dict.get "k3" (cache st')
          = Some {| data := VNone;
                    timestamp := clock Sample.lib (clock_reads Sample.full) |}
       /\ List.length (cache st') = List.length (cache Sample.full).
Proof.
  split; [reflexivity|]. split; [reflexivity|].
  split; [reflexivity|]. split; [reflexivity|].
  apply (eviction_removes_an_oldest_entry Sample.lib Sample.cfg "k3" VNone Sample.full);
    reflexivity.
Defined.

(** The sample cache evicts "k2", the older of its two entries. *)
Example eviction_sample :
  cache (snd (cache_store Sample.lib Sample.cfg "k3" VNone Sample.full))
  = [("k1", {| data := VInt 1; timestamp := 1000000000 |});
     ("k3", {| data := VNone; timestamp := 4000000000 |})].
Proof. vm_compute. reflexivity. Qed.

(** The sample lookups: "k1" is 3000 seconds old and is returned, "k2"
    is 4000 seconds old and is purged. *)
Example lookup_sample :
  cache_lookup Sample.lib Sample.cfg "k1" Sample.full
  = (Ok (Some (VInt 1)),
     {| cache := cache Sample.full; clock_reads := 5 |})
  /\ cache_lookup Sample.lib Sample.cfg "k2" Sample.full
     = (Ok None,
        {| cache := [("k1", {| data := VInt 1; timestamp := 1000000000 |})];
           clock_reads := 5 |}).
Proof. split; vm_compute; reflexivity. Qed.

(* ================================================================== *)
(** * The scenarios of the specification, evaluated *)

Example normalize_scenario :
  normalize_data (VDict [("a", VStr "TRUE"); ("b", VStr "3")])
  = Ok (VDict [("a", VBool true); ("b", VInt 3)]).
Proof. vm_compute. reflexivity. Qed.

(** A separator that [str.strip] trims and [float] does not skip: the
    first pass leaves the string "1.5", the second reads it as a float. *)
Example normalize_separator_then_float :
  normalize_data (VDict [("a", VStr (String "028" "1.5"))])
  = Ok (VDict [("a", VStr "1.5")])
  /\ normalize_data (VDict [("a", VStr "1.5")])
     = Ok (VDict [("a", VFloat (S754_finite false 6755399441055744 (-52)))]).
Proof. split; vm_compute; reflexivity. Qed.

Example aggregate_scenario :
  aggregate_data (VList [VInt 1; VInt 2; VStr "x"; VStr "yy"])
  = Ok (VDict [("count", VInt 4);
               ("types", VDict [("int", VInt 2); ("str", VInt 2)]);
               ("numeric_stats",
                VDict [("min", VInt 1); ("max", VInt 2);
                       ("avg", VFloat (S754_finite false 6755399441055744 (-52)));
                       ("sum", VInt 3)]);
               ("string_stats",
                VDict [("total_length", VInt 3);
                       ("avg_length", VFloat (S754_finite false 6755399441055744 (-52)));
                       ("unique_count", VInt 2)])]).
Proof. vm_compute. reflexivity. Qed.

Example filter_scenario :
  fst (process_data Sample.lib Sample.cfg
         (VList [VDict [("status", VStr "active")];
                 VDict [("status", VStr "disabled")];
                 VInt 5; VInt (-3); VStr EmptyString]) "filter" init)
  = Ok (VList [VDict [("status", VStr "active")]; VInt 5]).
Proof. vm_compute. reflexivity. Qed.

(** The second of two identical calls within the time to live is served
    from the cache: it reads the clock once and leaves the cache alone. *)
Example second_call_is_a_hit :
  let st1 := snd (process_data Sample.lib Sample.cfg
                    (VDict [("a", VStr "TRUE")]) "normalize" init) in
  process_data Sample.lib Sample.cfg (VDict [("a", VStr "TRUE")]) "normalize" st1
  = (Ok (VDict [("a", VBool true)]),
     {| cache := cache st1; clock_reads := S (clock_reads st1) |}).
Proof. vm_compute. reflexivity. Qed.

(* ================================================================== *)
(** * Further properties of the routines *)

(** ** [_transform_key] *)

Lemma lower_char_not_upper (c : ascii) :
  PyStr.is_ascii_upper (PyStr.lower_char c) = false.
Proof. destruct c as [[] [] [] [] [] [] [] []]; reflexivity. Qed.

Lemma lower_char_fixed_not_upper (c : ascii) :
  PyStr.lower_char c = c -> PyStr.is_ascii_upper c = false.
Proof. intros <-. apply lower_char_not_upper. Qed.

Lemma lower_no_upper (s : string) : no_upper (PyStr.lower s) = true.
Proof.
  unfold no_upper. induction s as [|c s IH]; simpl; [reflexivity|].
  now rewrite lower_char_not_upper, IH.
Qed.

Lemma lower_fixed_no_upper (s : string) : PyStr.lower s = s -> no_upper s = true.
Proof. intros <-. apply lower_no_upper. Qed.

Lemma sub_capitalized_no_upper (s : string) :
  no_upper s = true -> forall in_run, sub_capitalized in_run s = s.
Proof.
  unfold no_upper. induction s as [|c s IH]; intros H in_run; [reflexivity|].
  simpl in H. apply andb_true_iff in H as [_ H]. specialize (IH H).
  cbn [sub_capitalized].
  destruct (in_run && PyStr.is_ascii_lower c)%bool; [now rewrite IH|].
  destruct s as [|u rest2]; [reflexivity|].
  simpl in H. apply andb_true_iff in H as [Hu _]. apply negb_true_iff in Hu.
  destruct rest2 as [|l rest3]; [now rewrite IH|].
  rewrite Hu, andb_false_r. cbn [andb]. now rewrite IH.
Qed.

Lemma sub_boundary_no_upper (s : string) :
  no_upper s = true -> sub_boundary s = s.
Proof.
  unfold no_upper. induction s as [|c s IH]; intros H; [reflexivity|].
  simpl in H. apply andb_true_iff in H as [_ H]. specialize (IH H).
  cbn [sub_boundary]. destruct s as [|u rest2]; [reflexivity|].
  simpl in H. apply andb_true_iff in H as [Hu _]. apply negb_true_iff in Hu.
  rewrite Hu, andb_false_r. now rewrite IH.
Qed.

(** X1: a key that lower-casing leaves alone (snake_case, digits,
    punctuation) is returned unchanged by [_transform_key]. *)
Theorem transform_key_keeps_lower_case (key : string) :
  PyStr.lower key = key -> transform_key key = key.
Proof.
  intros H. unfold transform_key.
  pose proof (lower_fixed_no_upper key H) as Hn.
  now rewrite (sub_capitalized_no_upper key Hn), (sub_boundary_no_upper key Hn).
Qed.

(** X2: the result of [_transform_key] is lower-case, and rewriting a
    key twice gives the same as rewriting it once. *)
Theorem transform_key_idempotent (key : string) :
  PyStr.lower (transform_key key) = transform_key key
  /\ no_upper (transform_key key) = true
  /\ transform_key (transform_key key) = transform_key key.
Proof.
  assert (Hl : PyStr.lower (transform_key key) = transform_key key).
  { unfold transform_key. apply lower_idem. }
  assert (Hn : no_upper (transform_key key) = true).
  { unfold transform_key. apply lower_no_upper. }
  split; [exact Hl|]. split; [exact Hn|].
  unfold transform_key at 1.
  rewrite (sub_capitalized_no_upper _ Hn), (sub_boundary_no_upper _ Hn).
  exact Hl.
Qed.

(** ** [_is_date_string] *)

Lemma re_match_prefix (p q : list pat) (value : string) :
  re_match (p ++ q)%list value = true -> re_match p value = true.
Proof.
  revert value. induction p as [|x p IH]; intros value; [reflexivity|].
  simpl. destruct value as [|c value']; [discriminate|].
  intros H. apply andb_true_iff in H as [H1 H2].
  rewrite H1. now apply IH.
Qed.

(** X3: the third date pattern never decides: a string looks like a
    date exactly when it starts with [dddd-dd-dd] or with [dd/dd/dddd]. *)
Theorem is_date_string_two_patterns (value : string) :
  is_date_string value
  = (re_match [D; D; D; D; C "-"; D; D; C "-"; D; D]%char value
     || re_match [D; D; C "/"; D; D; C "/"; D; D; D; D]%char value)%bool.
Proof.
  unfold is_date_string, date_patterns. cbn [existsb].
  rewrite orb_false_r.
  destruct (re_match [D; D; D; D; C "-"; D; D; C "-"; D; D]%char value) eqn:E1;
    [reflexivity|].
  destruct (re_match [D; D; C "/"; D; D; C "/"; D; D; D; D]%char value);
    [reflexivity|]. cbn [orb].
  match goal with |- ?m = false => destruct m eqn:E3 end; [|reflexivity].
  change [D; D; D; D; C "-"; D; D; C "-"; D; D; C "T"; D; D; C ":"; D; D; C ":"; D; D]%char
    with ([D; D; D; D; C "-"; D; D; C "-"; D; D]
          ++ [C "T"; D; D; C ":"; D; D; C ":"; D; D])%char%list in E3.
  apply re_match_prefix in E3. congruence.
Qed.

(** ** [_normalize_data]: sequences of scalars *)

Lemma normalize_scalar (x : value) :
  is_container x = false -> normalize_data x = Ok x.
Proof. destruct x; simpl; intros H; try reflexivity; discriminate H. Qed.

(** X4: normalize coerces only the strings held directly by a mapping:
    a sequence of strings and other scalars is returned as it is. *)
Theorem normalize_list_of_scalars (l : list value) :
  forallb (fun x => negb (is_container x)) l = true ->
  normalize_data (VList l) = Ok (VList l).
Proof.
  intros H. simpl.
  assert (He : normalize_each normalize_data l = Ok l).
  { induction l as [|x l IH]; simpl; [reflexivity|].
    simpl in H. apply andb_true_iff in H as [Hx Hl]. apply negb_true_iff in Hx.
    rewrite (normalize_scalar x Hx). now rewrite (IH Hl). }
  now rewrite He.
Qed.

(** ** [_normalize_data]: the keys of the result *)

Lemma normalize_str_scalar (s : string) (v : value) :
  normalize_str s = Ok v -> is_container v = false.
Proof.
  unfold normalize_str, int_of_digits.
  repeat match goal with |- context [if ?b then _ else _] => destruct b end;
    try (intros [= <-]; reflexivity); try discriminate.
  destruct (PyFloat.parse s); intros [= <-]; reflexivity.
Qed.

Lemma scalar_normalized (v : value) :
  is_container v = false -> well_formed v = true /\ lower_keyed v = true.
Proof. destruct v; simpl; intros H; try discriminate H; auto. Qed.

Lemma normalize_items_keys (items : list (string * value)) :
  Forall (fun kv => forall q, normalize_data (snd kv) = Ok q ->
                     well_formed q = true /\ lower_keyed q = true) items ->
  forall acc normalized,
  NoDup (Dict.keys acc) -> Forall normalized_entry acc ->
  normalize_items normalize_data items acc = Ok normalized ->
  NoDup (Dict.keys normalized) /\ Forall normalized_entry normalized.
Proof.
  induction items as [|[k v] items IH]; intros HIH acc normalized Hnd Hacc; simpl.
  - intros [= <-]. auto.
  - inversion HIH as [|? ? Hv HIH']; subst. simpl in Hv.
    destruct (normalize_entry normalize_data v) as [v'|e] eqn:Hn; [|discriminate].
    apply (IH HIH').
    + now apply set_keys_NoDup.
    + apply set_Forall; [|exact Hacc].
      split; [apply lower_idem|]. cbn [snd].
      destruct v as [| b | z | f | s | l | d]; simpl in Hn;
        try (injection Hn as <-; split; reflexivity).
      * apply scalar_normalized. eapply normalize_str_scalar; eassumption.
      * exact (Hv v' Hn).
      * exact (Hv v' Hn).
Qed.

Lemma normalized_entries_keyed (d : list (string * value)) :
  NoDup (Dict.keys d) -> Forall normalized_entry d ->
  well_formed (VDict d) = true /\ lower_keyed (VDict d) = true.
Proof.
  intros Hnd Hall. simpl. split.
  - apply andb_true_iff. split; [now apply distinct_NoDup|].
    apply forallb_forall. intros [k x] Hin.
    rewrite Forall_forall in Hall. now destruct (Hall (k, x) Hin) as [_ [H _]].
  - apply forallb_forall. intros [k x] Hin.
    rewrite Forall_forall in Hall. destruct (Hall (k, x) Hin) as [Hk [_ Hl]].
    simpl in Hk, Hl. rewrite Hk, String.eqb_refl, Hl. reflexivity.
Qed.

(** X5: whatever the keys of the input, a payload returned by normalize
    has, in every mapping at every depth, pairwise distinct keys that
    are all lower-case. *)
Theorem normalize_keys_distinct_lower (p q : value) :
  normalize_data p = Ok q ->
  well_formed q = true /\ lower_keyed q = true.
Proof.
  revert q. induction p as [| b | z | f | s | l IHl | d IHd] using value_ind';
    intros q Hn; try (injection Hn as <-; split; reflexivity).
  - simpl in Hn.
    destruct (normalize_each normalize_data l) as [xs|e] eqn:Hxs; [|discriminate].
    injection Hn as <-. simpl.
    revert xs Hxs. induction l as [|x l IH]; intros xs; simpl.
    + intros [= <-]. split; reflexivity.
    + inversion IHl as [|? ? Hx IHl']; subst.
      destruct (normalize_data x) as [y|e] eqn:Hy; [|discriminate].
      destruct (normalize_each normalize_data l) as [ys|e] eqn:Hys; [|discriminate].
      intros [= <-]. simpl.
      destruct (Hx y eq_refl) as [H1 H2]. destruct (IH IHl' ys eq_refl) as [H3 H4].
      now rewrite H1, H2, H3, H4.
  - simpl in Hn.
    destruct (normalize_items normalize_data d []) as [normalized|e] eqn:Hi; [|discriminate].
    injection Hn as <-.
    destruct (normalize_items_keys d IHd [] normalized) as [Hnd Hall];
      [constructor|constructor|exact Hi|].
    now apply normalized_entries_keyed.
Qed.

(** ** [_normalize_data]: when it raises *)

Lemma isdigit_lower_char (c : ascii) :
  PyStr.isdigit_char (PyStr.lower_char c) = PyStr.isdigit_char c.
Proof. destruct c as [[] [] [] [] [] [] [] []]; reflexivity. Qed.

Lemma isdecimal_lower_char (c : ascii) :
  PyStr.isdecimal_char (PyStr.lower_char c) = PyStr.isdecimal_char c.
Proof. destruct c as [[] [] [] [] [] [] [] []]; reflexivity. Qed.

Lemma all_chars_lower (p : ascii -> bool) (s : string) :
  (forall c, p (PyStr.lower_char c) = p c) ->
  PyStr.all_chars p (PyStr.lower s) = PyStr.all_chars p s.
Proof.
  intros Hp. induction s as [|c s IH]; simpl; [reflexivity|].
  now rewrite Hp, IH.
Qed.

Lemma lower_length (s : string) : String.length (PyStr.lower s) = String.length s.
Proof. induction s as [|c s IH]; simpl; [reflexivity|now rewrite IH]. Qed.

Lemma int_safe_lower (s : string) : int_safe (PyStr.lower s) = int_safe s.
Proof.
  unfold int_safe, PyStr.isdigit, PyStr.isdecimal.
  rewrite (all_chars_lower _ s isdigit_lower_char),
    (all_chars_lower _ s isdecimal_lower_char), lower_length.
  now destruct s.
Qed.

Lemma over_limit (n : nat) :
  Z.ltb int_max_str_digits (Z.of_nat n) = negb (Z.leb (Z.of_nat n) 4300).
Proof.
  unfold int_max_str_digits.
  destruct (Z.ltb_spec 4300 (Z.of_nat n)), (Z.leb_spec (Z.of_nat n) 4300);
    try reflexivity; lia.
Qed.

Lemma token_int_safe (s : string) :
  PyStr.mem (PyStr.lower s) boolean_tokens = true -> int_safe s = true.
Proof.
  intros H. rewrite <- int_safe_lower. apply mem_In in H.
  unfold boolean_tokens in H. simpl in H.
  repeat (destruct H as [<-|H]; [reflexivity|]). contradiction.
Qed.

Lemma normalize_str_raises (s : string) :
  match normalize_str s with
  | Ok _ => int_safe s = true
  | Raise e => e = ValueError /\ int_safe s = false
  end.
Proof.
  unfold normalize_str.
  destruct (PyStr.mem (PyStr.lower s) ["true"; "yes"; "1"]) eqn:E1.
  { apply token_int_safe.
    change boolean_tokens with (["true"; "yes"; "1"] ++ ["false"; "no"; "0"])%list.
    now rewrite mem_app, E1. }
  destruct (PyStr.mem (PyStr.lower s) ["false"; "no"; "0"]) eqn:E2.
  { apply token_int_safe.
    change boolean_tokens with (["true"; "yes"; "1"] ++ ["false"; "no"; "0"])%list.
    rewrite mem_app, E2. apply orb_true_r. }
  unfold int_safe, int_of_digits. rewrite over_limit.
  destruct (PyStr.isdigit s).
  - destruct (PyStr.isdecimal s); [|simpl; auto].
    destruct (Z.leb _ 4300); simpl; auto.
  - destruct (PyFloat.parse s); reflexivity.
Qed.

Lemma normalize_items_raises (items : list (string * value)) :
  Forall (fun kv => match normalize_data (snd kv) with
                    | Ok _ => digits_int_safe (snd kv) = true
                    | Raise e => e = ValueError /\ digits_int_safe (snd kv) = false
                    end) items ->
  forall acc,
  match normalize_items normalize_data items acc with
  | Ok _ => digits_int_safe (VDict items) = true
  | Raise e => e = ValueError /\ digits_int_safe (VDict items) = false
  end.
Proof.
  induction items as [|[k v] items IH]; intros HIH acc; [reflexivity|].
  inversion HIH as [|? ? Hv HIH']; subst. cbn [snd] in Hv.
  cbn [normalize_items digits_int_safe forallb].
  assert (He : match normalize_entry normalize_data v with
               | Ok _ => match v with
                         | VStr s => int_safe s
                         | _ => digits_int_safe v
                         end = true
               | Raise e => e = ValueError
                            /\ match v with
                               | VStr s => int_safe s
                               | _ => digits_int_safe v
                               end = false
               end).
  { destruct v as [| b | z | f | s | l | d]; try reflexivity.
    - apply normalize_str_raises.
    - exact Hv.
    - exact Hv. }
  destruct (normalize_entry normalize_data v) as [v'|e].
  - rewrite He. cbn [andb]. apply (IH HIH').
  - destruct He as [-> He]. rewrite He. auto.
Qed.

(** X6: normalize raises exactly when some string held directly by a
    mapping, at any depth, consists of digit characters and [int]
    rejects it: its digits are not all decimal digits (a superscript
    two, say), or there are more than 4300 of them.  It raises
    [ValueError] then; on every other payload it returns a result. *)
Theorem normalize_raises_exactly_when_int_rejects (p : value) :
  match normalize_data p with
  | Ok _ => digits_int_safe p = true
  | Raise e => e = ValueError /\ digits_int_safe p = false
  end.
Proof.
  induction p as [| b | z | f | s | l IHl | d IHd] using value_ind';
    try reflexivity.
  - cbn [normalize_data digits_int_safe].
    assert (H : match normalize_each normalize_data l with
                | Ok _ => forallb digits_int_safe l = true
                | Raise e => e = ValueError /\ forallb digits_int_safe l = false
                end).
    { induction l as [|x l IH]; [reflexivity|].
      inversion IHl as [|? ? Hx IHl']; subst.
      cbn [normalize_each forallb].
      destruct (normalize_data x) as [y|e].
      - rewrite Hx. cbn [andb]. specialize (IH IHl').
        destruct (normalize_each normalize_data l); exact IH.
      - destruct Hx as [-> Hx]. rewrite Hx. auto. }
    destruct (normalize_each normalize_data l); exact H.
  - cbn [normalize_data].
    pose proof (normalize_items_raises d IHd []) as H.
    destruct (normalize_items normalize_data d []); exact H.
Qed.

(** ** [_aggregate_data]: the type histogram *)

Lemma histogram_total_set (k : string) (types : list (string * Z)) :
  histogram_total
    (Dict.set k (match Dict.get k types with Some n => n | None => 0 end + 1) types)
  = histogram_total types + 1.
Proof.
  induction types as [|[k' n] types IH]; simpl; [reflexivity|].
  destruct (String.eqb k k'); simpl; [lia|]. rewrite IH. lia.
Qed.

Lemma count_types_total (l : list value) :
  forall acc,
  histogram_total (fold_left count_type l acc)
  = histogram_total acc + Z.of_nat (List.length l).
Proof.
  induction l as [|x l IH]; intros acc; cbn [fold_left List.length]; [lia|].
  rewrite IH. unfold count_type. rewrite histogram_total_set. lia.
Qed.

Lemma count_types_keys (l : list value) :
  forall acc,
  NoDup (Dict.keys acc) -> NoDup (Dict.keys (fold_left count_type l acc)).
Proof.
  induction l as [|x l IH]; intros acc H; cbn [fold_left]; [exact H|].
  apply IH. unfold count_type. now apply set_keys_NoDup.
Qed.

(** X7: the counts of the type histogram of aggregate add up to the
    number of elements, and every type name has one entry only. *)
Theorem histogram_counts_add_up (l : list value) :
  histogram_total (count_types l) = Z.of_nat (List.length l)
  /\ distinct (Dict.keys (count_types l)) = true.
Proof.
  unfold count_types. split.
  - now rewrite count_types_total.
  - apply distinct_NoDup. apply count_types_keys. constructor.
Qed.

(** ** [_aggregate_data]: the only exception *)

Lemma numeric_stats_raises (l : list value) (e : exn) :
  numeric_stats l = Raise e -> e = OverflowError.
Proof.
  unfold numeric_stats. destruct (nums l) as [|first rest]; [discriminate|].
  unfold py_sum.
  destruct (py_sum_from (NInt 0) (first :: rest)) as [total|e'] eqn:E.
  - destruct (num_div_len total _) as [avg|e''] eqn:E2; [discriminate|].
    intros [= <-]. eapply num_div_len_raises; eassumption.
  - intros [= <-]. eapply py_sum_from_raises; eassumption.
Qed.

Lemma string_stats_raises (l : list value) (e : exn) :
  string_stats l = Raise e -> e = OverflowError.
Proof.
  unfold string_stats. destruct (strings_of l) as [|first rest]; [discriminate|].
  destruct (PyFloat.int_truediv _ _) as [avg|e'] eqn:E; [discriminate|].
  intros [= <-]. eapply int_truediv_raises; eassumption.
Qed.

(** X8: the only exception aggregate raises is [OverflowError], from
    converting an integer, or the quotient of two, to a float. *)
Theorem aggregate_raises_only_overflow (d : value) (e : exn) :
  aggregate_data d = Raise e -> e = OverflowError.
Proof.
  destruct d as [| b | z | f | s | l | items]; simpl; try discriminate.
  destruct (numeric_stats l) as [ns|e'] eqn:E1.
  - destruct (string_stats l) as [ss|e''] eqn:E2; [discriminate|].
    intros [= <-]. eapply string_stats_raises; eassumption.
  - intros [= <-]. eapply numeric_stats_raises; eassumption.
Qed.

(** ** [_aggregate_data]: distinct strings *)

Lemma mem_false_iff (s : string) (l : list string) :
  PyStr.mem s l = false <-> ~ In s l.
Proof.
  rewrite <- mem_In. destruct (PyStr.mem s l); split; congruence.
Qed.

Lemma nodup_without (s : string) (F : list string) :
  (List.length (nodup string_dec (filter (fun x => negb (String.eqb x s)) F))
   + (if in_dec string_dec s F then 1 else 0)
   = List.length (nodup string_dec F))%nat.
Proof.
  induction F as [|x F IH]; [reflexivity|].
  cbn [filter]. destruct (String.eqb_spec x s) as [->|Hne]; cbn [negb].
  - cbn [nodup]. destruct (in_dec string_dec s F) as [Hin|Hnin].
    + destruct (in_dec string_dec s (s :: F)) as [_|H]; [exact IH|].
      exfalso. apply H. now left.
    + destruct (in_dec string_dec s (s :: F)) as [_|H];
        [|exfalso; apply H; now left].
      cbn [List.length]. lia.
  - cbn [nodup].
    assert (Hx : In x (filter (fun x0 => negb (String.eqb x0 s)) F) <-> In x F).
    { rewrite filter_In. split; [tauto|]. intros H. split; [exact H|].
      destruct (String.eqb_spec x s); [contradiction|reflexivity]. }
    assert (Hs : (if in_dec string_dec s (x :: F) then 1 else 0)%nat
                 = (if in_dec string_dec s F then 1 else 0)%nat).
    { destruct (in_dec string_dec s (x :: F)) as [[E|H]|H];
        destruct (in_dec string_dec s F) as [H'|H']; try reflexivity;
        try congruence; try contradiction.
      exfalso. apply H. now right. }
    rewrite Hs.
    destruct (in_dec string_dec x (filter (fun x0 => negb (String.eqb x0 s)) F))
      as [H1|H1];
      destruct (in_dec string_dec x F) as [H2|H2];
      try (exfalso; tauto); cbn [List.length]; lia.
Qed.

Lemma filter_twice {A : Type} (a b : A -> bool) (l : list A) :
  filter (fun x => (a x && b x)%bool) l = filter a (filter b l).
Proof.
  induction l as [|x l IH]; [reflexivity|].
  cbn [filter]. destruct (b x); cbn [filter]; rewrite ?andb_true_r, ?andb_false_r.
  - destruct (a x); now rewrite IH.
  - exact IH.
Qed.

Lemma unique_count_seen (l : list string) :
  forall seen,
  unique_count seen l
  = Z.of_nat (List.length
                (nodup string_dec (filter (fun s => negb (PyStr.mem s seen)) l))).
Proof.
  induction l as [|s l IH]; intros seen; [reflexivity|].
  cbn [unique_count filter].
  destruct (PyStr.mem s seen) eqn:E; cbn [negb]; [apply IH|].
  rewrite IH. cbn [nodup].
  set (F := filter (fun x => negb (PyStr.mem x seen)) l).
  assert (HF : filter (fun x => negb (PyStr.mem x (s :: seen))) l
               = filter (fun x => negb (String.eqb x s)) F).
  { unfold F. rewrite <- filter_twice. apply filter_ext. intros x.
    unfold PyStr.mem. cbn [existsb]. apply negb_orb. }
  rewrite HF. pose proof (nodup_without s F) as Hc.
  destruct (in_dec string_dec s F); cbn [List.length]; lia.
Qed.

Lemma total_length_from (l : list string) :
  forall acc,
  fold_left (fun acc s => acc + Z.of_nat (String.length s)) l acc
  = acc + Z.of_nat (list_sum (map String.length l)).
Proof.
  unfold list_sum.
  induction l as [|s l IH]; intros acc; cbn [fold_left map fold_right]; [lia|].
  rewrite IH. lia.
Qed.

Lemma filter_none_seen (l : list string) :
  filter (fun s => negb (PyStr.mem s [])) l = l.
Proof.
  induction l as [|x l IH]; [reflexivity|].
  cbn [filter]. change (PyStr.mem x []) with false. cbn [negb]. now rewrite IH.
Qed.

(** X9: in the string statistics of aggregate, [unique_count] is the
    number of distinct strings of the sequence and [total_length] the
    sum of their lengths. *)
Theorem string_stats_counts (l : list value) (ss : list (string * value)) :
  string_stats l = Ok ss ->
  strings_of l <> [] ->
  Dict.get "unique_count" ss
  = Some (VInt (Z.of_nat (List.length (nodup string_dec (strings_of l)))))
  /\ Dict.get "total_length" ss
     = Some (VInt (Z.of_nat (list_sum (map String.length (strings_of l))))).
Proof.
  unfold string_stats. destruct (strings_of l) as [|first rest]; [congruence|].
  cbv zeta. rewrite unique_count_seen, filter_none_seen.
  unfold total_length. rewrite total_length_from.
  destruct (PyFloat.int_truediv _ _) as [avg|e]; [|discriminate].
  intros [= <-] _. split; reflexivity.
Qed.

(** ** [_aggregate_data]: sequences without floats *)

(** X10: for a sequence without floats whose numeric statistics are
    returned, [sum] is the exact sum of its integers (booleans as 0/1),
    [min] is an element of the sequence that is least among them and
    [max] one that is greatest. *)
Theorem numeric_stats_of_integers (l : list value) (ns : list (string * value)) :
  forallb (fun v => negb (is_float v)) l = true ->
  numeric_stats l = Ok ns ->
  ints l <> [] ->
  Dict.get "sum" ns = Some (VInt (fold_right Z.add 0 (ints l)))
  /\ (exists mn zmin, Dict.get "min" ns = Some mn /\ In mn l
                      /\ as_num mn = Some (NInt zmin)
                      /\ forall z, In z (ints l) -> zmin <= z)
  /\ (exists mx zmax, Dict.get "max" ns = Some mx /\ In mx l
                      /\ as_num mx = Some (NInt zmax)
                      /\ forall z, In z (ints l) -> z <= zmax).
Proof.
  intros Hnf Hs Hne. destruct (nums_ints l Hnf) as [Hall Hints].
  unfold numeric_stats in Hs.
  pose proof (nums_In l) as HIn.
  destruct (nums l) as [|first rest]; [rewrite Hints in Hne; now contradiction Hne|].
  unfold py_sum in Hs. rewrite (py_sum_from_ints _ Hall 0) in Hs.
  destruct (num_div_len _ _) as [avg|e]; [|discriminate].
  injection Hs as <-. cbn [Dict.get String.eqb Ascii.eqb Bool.eqb value_of_num].
  inversion Hall as [|? ? Hf Hr]; subst.
  split; [|split].
  - rewrite Hints. do 2 f_equal.
  - destruct (py_min_from_ints rest Hr first Hf) as [n [Hin Hmin]].
    destruct (HIn _ Hin) as [Hl Hn]. cbn [fst snd] in Hl, Hn.
    exists (py_min_from first rest), (num_int n).
    split; [reflexivity|]. split; [exact Hl|]. split.
    + rewrite Hn. f_equal. rewrite Forall_forall in Hall. exact (Hall _ Hin).
    + intros z Hz. rewrite Hints in Hz. apply in_map_iff in Hz as [item [<- Hi]].
      now apply Hmin.
  - destruct (py_max_from_ints rest Hr first Hf) as [n [Hin Hmax]].
    destruct (HIn _ Hin) as [Hl Hn]. cbn [fst snd] in Hl, Hn.
    exists (py_max_from first rest), (num_int n).
    split; [reflexivity|]. split; [exact Hl|]. split.
    + rewrite Hn. f_equal. rewrite Forall_forall in Hall. exact (Hall _ Hin).
    + intros z Hz. rewrite Hints in Hz. apply in_map_iff in Hz as [item [<- Hi]].
      now apply Hmax.
Qed.

(** ** [_filter_data] *)

Lemma strip_nonblank (s : string) :
  (Nat.ltb 0 (String.length s) && negb (PyStr.isspace s))%bool = true ->
  PyStr.strip s <> EmptyString.
Proof.
  intros H. apply andb_true_iff in H as [Hlen Hsp]. apply negb_true_iff in Hsp.
  assert (Hl : PyStr.lstrip_with PyStr.isspace_char s <> EmptyString).
  { unfold PyStr.isspace in Hsp. destruct s as [|c s]; [discriminate Hlen|].
    cbn [PyStr.nonempty andb] in Hsp. clear Hlen.
    revert c Hsp. induction s as [|c' s IH]; intros c Hsp.
    - simpl in *. rewrite andb_true_r in Hsp. rewrite Hsp. discriminate.
    - cbn [PyStr.all_chars] in Hsp. cbn [PyStr.lstrip_with].
      destruct (PyStr.isspace_char c); [|discriminate].
      apply IH. exact Hsp. }
  unfold PyStr.strip, PyStr.strip_with.
  pose proof (lstrip_head PyStr.isspace_char s) as Hh.
  destruct (PyStr.lstrip_with PyStr.isspace_char s) as [|c u]; [congruence|].
  destruct (rstrip_keeps_head PyStr.isspace_char c u Hh) as [r Hr].
  rewrite Hr. discriminate.
Qed.

Lemma positive_float_spec (f : PyFloat.float) :
  num_lt (NInt 0) (NFloat f) = true -> positive_float f = true.
Proof.
  destruct f as [s | [] | | [] m e]; try discriminate; try reflexivity.
  unfold num_lt, PyFloat.compare_int.
  destruct (Z.leb_spec 0 e) as [He|He].
  - assert (H : 0 < 2 ^ e) by (apply Z.pow_pos_nonneg; lia).
    pose proof (Pos2Z.neg_is_neg m) as Hm.
    pose proof (Z.mul_neg_pos _ _ Hm H) as Hneg.
    destruct (Z.compare_spec 0 (Z.neg m * 2 ^ e)); try discriminate. lia.
  - rewrite Z.mul_0_l. discriminate.
Qed.

Section FilterProperties.

Variable lib : library.

Lemma keep_item_plain (item : value) (st : state) :
  is_dict item = false ->
  keep_item lib item st = (Ok (keeps_plain item), st).
Proof. destruct item; simpl; intros H; try reflexivity; discriminate H. Qed.

Lemma filter_items_inv (l : list value) :
  forall st l' st',
  filter_items lib l st = (Ok l', st') ->
  subseq l' l
  /\ (forall x, In x l' -> is_dict x = false -> keeps_plain x = true)
  /\ (forall x, In x l -> is_dict x = false -> keeps_plain x = true -> In x l').
Proof.
  induction l as [|item rest IH]; intros st l' st'; cbn [filter_items].
  - intros [= <- <-]. split; [constructor|]. split; intros x [].
  - unfold bind at 1.
    destruct (keep_item lib item st) as [[keep|e] st1] eqn:Hk; [|discriminate].
    unfold bind at 1.
    destruct (filter_items lib rest st1) as [[filtered|e] st2] eqn:Hf; [|discriminate].
    unfold ret. intros [= <- <-].
    destruct (IH _ _ _ Hf) as [Hsub [Hkept Hall]].
    assert (Hplain : is_dict item = false -> keep = keeps_plain item).
    { intros Hd. rewrite (keep_item_plain item st Hd) in Hk. congruence. }
    destruct keep.
    + split; [now constructor|]. split.
      * intros x [<-|Hx] Hd; [symmetry; now apply Hplain|now apply Hkept].
      * intros x [<-|Hx] Hd Hp; [now left|right; now apply Hall].
    + split; [now constructor|]. split.
      * exact Hkept.
      * intros x [<-|Hx] Hd Hp; [|now apply Hall].
        pose proof (Hplain Hd). congruence.
Qed.

(** X11: on a sequence, filter returns the elements it keeps in their
    order and unchanged.  Every string kept has a character that is no
    whitespace, every integer kept is positive, every boolean kept is
    [True], every float kept is above zero; every [None] and every
    nested sequence is kept, and so is every positive integer. *)
Theorem filter_keeps_in_order (l l' : list value) (st st' : state) :
  filter_data lib (VList l) st = (Ok (VList l'), st') ->
  subseq l' l
  /\ (forall s, In (VStr s) l' -> PyStr.strip s <> EmptyString)
  /\ (forall z, In (VInt z) l' -> 0 < z)
  /\ (forall b, In (VBool b) l' -> b = true)
  /\ (forall f, In (VFloat f) l' -> positive_float f = true)
  /\ (forall x, In x l -> is_none_or_list x = true -> In x l')
  /\ (forall z, In (VInt z) l -> 0 < z -> In (VInt z) l').
Proof.
  cbn [filter_data]. unfold bind.
  destruct (filter_items lib l st) as [[filtered|e] st1] eqn:Hf; [|discriminate].
  unfold ret. intros [= <- <-].
  destruct (filter_items_inv l _ _ _ Hf) as [Hsub [Hkept Hall]].
  split; [exact Hsub|].
  split. { intros s Hs. apply strip_nonblank. exact (Hkept _ Hs eq_refl). }
  split. { intros z Hz. specialize (Hkept _ Hz eq_refl). simpl in Hkept. lia. }
  split. { intros b Hb. specialize (Hkept _ Hb eq_refl). now destruct b. }
  split. { intros f Hfl. apply positive_float_spec. exact (Hkept _ Hfl eq_refl). }
  split.
  { intros x Hx Hn. apply Hall; [exact Hx| |]; now destruct x. }
  intros z Hz Hpos. apply Hall; [exact Hz|reflexivity|]. simpl. lia.
Qed.

Lemma keep_item_timeless (item : value) :
  timeless item = true ->
  forall st st2, keep_item lib item st = (fst (keep_item lib item st2), st).
Proof.
  destruct item as [| b | z | f | s | l | d]; try reflexivity.
  cbn [timeless keep_item]. unfold Dict.mem. intros Hc st st2.
  destruct (Dict.get "created_at" d) eqn:Ec; [discriminate|].
  unfold should_include_dict, score_rule, created_at_rule. rewrite Ec.
  destruct (Dict.get "status" d) as [x|].
  - destruct (value_in x _); [reflexivity|].
    destruct (value_in x _); [reflexivity|].
    destruct (Dict.get "score" d) as [y|]; [|reflexivity].
    unfold bind, lift. destruct (float_of_value y) as [[score|]|e]; reflexivity.
  - destruct (Dict.get "score" d) as [y|]; [|reflexivity].
    unfold bind, lift. destruct (float_of_value y) as [[score|]|e]; reflexivity.
Qed.

Lemma filter_items_timeless (l : list value) :
  forallb timeless l = true ->
  forall st l' st',
  filter_items lib l st = (Ok l', st') ->
  st' = st /\ filter_items lib l' st = (Ok l', st).
Proof.
  induction l as [|item rest IH]; intros Ht st l' st'; cbn [filter_items].
  - intros [= <- <-]. split; reflexivity.
  - cbn [forallb] in Ht. apply andb_true_iff in Ht as [Hi Hr].
    unfold bind at 1. rewrite (keep_item_timeless item Hi st st).
    destruct (fst (keep_item lib item st)) as [keep|e] eqn:Hk; [|discriminate].
    unfold bind at 1.
    destruct (filter_items lib rest st) as [[filtered|e] st2] eqn:Hf; [|discriminate].
    unfold ret. intros [= <- <-].
    destruct (IH Hr _ _ _ Hf) as [-> Hagain].
    split; [reflexivity|].
    destruct keep; [|exact Hagain].
    cbn [filter_items]. unfold bind at 1.
    rewrite (keep_item_timeless item Hi st st), Hk.
    unfold bind. rewrite Hagain. reflexivity.
Qed.

(** X12: on a sequence none of whose mappings has a [created_at] key,
    filter reads no clock and changes no state, and filtering its
    result again returns the same result. *)
Theorem filter_idempotent_without_created_at (l : list value) (r : value)
        (st st' : state) :
  forallb timeless l = true ->
  filter_data lib (VList l) st = (Ok r, st') ->
  st' = st /\ filter_data lib r st = (Ok r, st).
Proof.
  intros Ht. cbn [filter_data]. unfold bind at 1.
  destruct (filter_items lib l st) as [[filtered|e] st1] eqn:Hf; [|discriminate].
  unfold ret. intros [= <- <-].
  destruct (filter_items_timeless l Ht _ _ _ Hf) as [-> Hagain].
  split; [reflexivity|]. cbn [filter_data]. unfold bind. now rewrite Hagain.
Qed.

End FilterProperties.

(** ** [_transform_data] *)

Lemma host_char_spec (c : ascii) :
  host_char c = true ->
  is_ascii_char c = true /\ is_netloc_end c = false
  /\ Ascii.eqb "[" c = false /\ Ascii.eqb "]" c = false
  /\ is_tab_or_newline c = false.
Proof.
  unfold host_char. rewrite !andb_true_iff, !negb_true_iff. tauto.
Qed.

Lemma remove_chars_host (host rest : string) :
  PyStr.all_chars host_char host = true ->
  remove_chars is_tab_or_newline (host ++ rest)
  = host ++ remove_chars is_tab_or_newline rest.
Proof.
  induction host as [|c host IH]; intros H; [reflexivity|].
  cbn [PyStr.all_chars] in H. apply andb_true_iff in H as [Hc Hh].
  destruct (host_char_spec c Hc) as [_ [_ [_ [_ Ht]]]].
  cbn [append remove_chars]. rewrite Ht. now rewrite (IH Hh).
Qed.

Lemma take_until_host (host rest : string) :
  PyStr.all_chars host_char host = true ->
  after_host rest = true ->
  take_until is_netloc_end (host ++ rest) = host.
Proof.
  intros H Hr. induction host as [|c host IH].
  - destruct rest as [|c r]; [reflexivity|]. simpl in Hr. cbn [append take_until].
    now rewrite Hr.
  - cbn [PyStr.all_chars] in H. apply andb_true_iff in H as [Hc Hh].
    destruct (host_char_spec c Hc) as [_ [He _]].
    cbn [append take_until]. rewrite He. now rewrite (IH Hh).
Qed.

Lemma host_plain (host : string) :
  PyStr.all_chars host_char host = true ->
  contains_char "[" host = false /\ contains_char "]" host = false
  /\ PyStr.all_chars is_ascii_char host = true.
Proof.
  induction host as [|c host IH]; intros H; [repeat split|].
  cbn [PyStr.all_chars] in H. apply andb_true_iff in H as [Hc Hh].
  destruct (host_char_spec c Hc) as [Ha [_ [Hl [Hr _]]]].
  destruct (IH Hh) as [IH1 [IH2 IH3]].
  cbn [contains_char PyStr.all_chars]. now rewrite Hl, Hr, Ha, IH1, IH2, IH3.
Qed.

Lemma after_host_removed (rest : string) :
  after_host rest = true ->
  after_host (remove_chars is_tab_or_newline rest) = true.
Proof.
  destruct rest as [|c r]; [reflexivity|]. simpl. intros H.
  assert (Ht : is_tab_or_newline c = false).
  { unfold is_netloc_end in H. unfold is_tab_or_newline.
    destruct (Ascii.eqb_spec c "/") as [->|]; [reflexivity|].
    destruct (Ascii.eqb_spec c "?") as [->|]; [reflexivity|].
    destruct (Ascii.eqb_spec c "#") as [->|]; [reflexivity|discriminate]. }
  rewrite Ht. simpl. exact H.
Qed.

Lemma prefix_append (p t : string) : String.prefix p (p ++ t) = true.
Proof.
  induction p as [|c p IH]; [now destruct t|].
  cbn [append String.prefix]. destruct (ascii_dec c c); [exact IH|congruence].
Qed.

Lemma is_date_string_no_digit (c : ascii) (t : string) :
  PyStr.isdecimal_char c = false -> is_date_string (String c t) = false.
Proof.
  intros H. unfold is_date_string, date_patterns. cbn [existsb re_match].
  now rewrite H.
Qed.

Section TransformProperties.

Variable lib : library.

(** X13: transform rewrites only the strings held directly by a
    mapping: a sequence of strings and other scalars, URLs and dates
    included, is returned as it is. *)
Theorem transform_list_of_scalars (l : list value) :
  forallb (fun x => negb (is_container x)) l = true ->
  transform_data lib (VList l) = VList l.
Proof.
  intros H. cbn [transform_data]. f_equal.
  induction l as [|x l IH]; [reflexivity|].
  cbn [forallb] in H. apply andb_true_iff in H as [Hx Hl].
  cbn [map]. rewrite (IH Hl). f_equal.
  destruct x; try reflexivity; discriminate Hx.
Qed.

Lemma netloc_of_plain_host (scheme host rest : string) :
  scheme = "http://" \/ scheme = "https://" ->
  PyStr.all_chars host_char host = true ->
  after_host rest = true ->
  netloc lib (scheme ++ host ++ rest) = Some host.
Proof.
  intros Hs Hh Hr.
  pose proof (after_host_removed rest Hr) as Hr'.
  destruct (host_plain host Hh) as [Hl [Hrb Ha]].
  unfold netloc.
  destruct Hs as [-> | ->]; cbn [append lstrip_c0 is_c0_or_space PyStr.code];
    cbn; rewrite (remove_chars_host host rest Hh);
    rewrite (take_until_host _ _ Hh Hr'), Hl, Hrb, Ha; reflexivity.
Qed.

(** X14: a mapping value [http://host...] or [https://host...], where
    the host is made of ASCII characters other than [/?#], brackets,
    tabs and newlines and is followed by nothing or by a path, query or
    fragment, is replaced by [{url: value, domain: host}]. *)
Theorem transform_url_domain (scheme host rest : string) :
  scheme = "http://" \/ scheme = "https://" ->
  PyStr.all_chars host_char host = true ->
  after_host rest = true ->
  transform_str lib (scheme ++ host ++ rest)
  = VDict [("url", VStr (scheme ++ host ++ rest)); ("domain", VStr host)].
Proof.
  intros Hs Hh Hr. unfold transform_str, extract_domain.
  rewrite (netloc_of_plain_host scheme host rest Hs Hh Hr).
  assert (Hd : is_date_string (scheme ++ host ++ rest) = false).
  { destruct Hs as [-> | ->]; apply is_date_string_no_digit; reflexivity. }
  rewrite Hd.
  assert (Hp : (PyStr.startswith (scheme ++ host ++ rest) "http://"
                || PyStr.startswith (scheme ++ host ++ rest) "https://")%bool = true).
  { unfold PyStr.startswith. destruct Hs as [-> | ->].
    - now rewrite prefix_append.
    - rewrite (prefix_append "https://"). apply orb_true_r. }
  now rewrite Hp.
Qed.

End TransformProperties.

(** ** Computations that only advance the clock *)

Lemma advances_ret {A : Type} (a : A) : advances (ret a).
Proof. intros st. simpl. lia. Qed.

Lemma advances_lift {A : Type} (r : result A) : advances (lift r).
Proof. intros st. simpl. lia. Qed.

Lemma advances_bind {A B : Type} (m : M A) (k : A -> M B) :
  advances m -> (forall a, advances (k a)) -> advances (bind m k).
Proof.
  intros Hm Hk st. unfold bind. specialize (Hm st).
  destruct (m st) as [[a|e] st']; simpl in *.
  - specialize (Hk a st'). lia.
  - exact Hm.
Qed.

Section ClockProperties.

Variable lib : library.

Lemma advances_now : advances (now lib).
Proof. intros st. simpl. lia. Qed.

Lemma advances_created_at_rule item : advances (created_at_rule lib item).
Proof.
  unfold created_at_rule, created_recently.
  repeat first
    [ apply advances_ret | apply advances_now
    | apply advances_bind; [|intros ?]
    | match goal with
      | |- advances (match ?x with _ => _ end) => destruct x
      | |- advances (if ?b then _ else _) => destruct b
      end ].
Qed.

Lemma advances_score_rule item : advances (score_rule lib item).
Proof.
  unfold score_rule.
  destruct (Dict.get "score" item); [|apply advances_created_at_rule].
  apply advances_bind; [apply advances_lift|].
  intros [score|]; [apply advances_ret|apply advances_created_at_rule].
Qed.

Lemma advances_keep_item item : advances (keep_item lib item).
Proof.
  destruct item; simpl; try apply advances_ret.
  unfold should_include_dict.
  destruct (Dict.get "status" d) as [x|]; [|apply advances_score_rule].
  destruct (value_in x _); [apply advances_ret|].
  destruct (value_in x _); [apply advances_ret|apply advances_score_rule].
Qed.

Lemma advances_filter_items l : advances (filter_items lib l).
Proof.
  induction l as [|item rest IH]; simpl; [apply advances_ret|].
  apply advances_bind; [apply advances_keep_item|]. intros keep.
  apply advances_bind; [exact IH|]. intros filtered. apply advances_ret.
Qed.

Lemma advances_dispatch processing_type d : advances (dispatch lib processing_type d).
Proof.
  unfold dispatch.
  repeat match goal with
         | |- advances (if ?b then _ else _) => destruct b
         end;
    try apply advances_lift; try apply advances_ret.
  destruct d; simpl; try apply advances_ret.
  apply advances_bind; [apply advances_filter_items|]. intros; apply advances_ret.
Qed.

Lemma stamped_later (c : list (string * entry)) (n n' : nat) :
  (n <= n')%nat ->
  stamped lib {| cache := c; clock_reads := n |} ->
  stamped lib {| cache := c; clock_reads := n' |}.
Proof.
  unfold stamped. cbn [cache clock_reads]. intros Hle H.
  eapply Forall_impl; [|exact H]. intros kv [i [Hi Ht]]. exists i. split; [lia|exact Ht].
Qed.

End ClockProperties.

(** ** The cache across calls *)

Lemma set_In_inv {V : Type} (k : string) (v : V) (d : list (string * V))
      (kv : string * V) :
  In kv (Dict.set k v d) -> In kv d \/ kv = (k, v).
Proof.
  induction d as [|[k0 v0] d IH]; simpl.
  - intros [<-|[]]. now right.
  - destruct (String.eqb_spec k k0) as [->|Hne]; simpl.
    + intros [<-|H]; [now right|left; now right].
    + intros [<-|H]; [left; now left|]. destruct (IH H); [left; now right|now right].
Qed.

Section CacheProperties.

Variable lib : library.
Variable cfg : config.

Lemma cache_ok_next (st st' : state) :
  cache_ok lib st ->
  NoDup (Dict.keys (cache st')) ->
  (forall kv, In kv (cache st') ->
              In kv (cache st)
              \/ exists i, (i < clock_reads st')%nat /\ timestamp (snd kv) = clock lib i) ->
  (clock_reads st <= clock_reads st')%nat ->
  cache_ok lib st'.
Proof.
  intros [_ Hst] Hnd Hin Hle. split; [exact Hnd|].
  unfold stamped in *. rewrite Forall_forall in *. intros kv Hkv.
  destruct (Hin kv Hkv) as [Hold|Hnew]; [|exact Hnew].
  destruct (Hst kv Hold) as [i [Hi Ht]]. exists i. split; [lia|exact Ht].
Qed.

Lemma cache_lookup_ok key st :
  cache_ok lib st -> cache_ok lib (snd (cache_lookup lib cfg key st)).
Proof.
  intros Hok. pose proof Hok as [Hnd _].
  destruct (Dict.get key (cache st)) as [e|] eqn:Hg;
    [|now rewrite (cache_lookup_absent lib cfg key st Hg)].
  rewrite (cache_lookup_present lib cfg key st e Hg).
  destruct (timedelta_fits _); [destruct (Z.ltb _ _)|]; cbn [snd].
  - apply (cache_ok_next st); cbn [cache clock_reads]; auto.
  - apply (cache_ok_next st); cbn [cache clock_reads]; auto.
    + now apply del_keys_NoDup.
    + intros kv Hkv. left. eapply del_subset; eassumption.
  - apply (cache_ok_next st); cbn [cache clock_reads]; auto.
Qed.

Lemma dispatch_ok processing_type d st :
  cache_ok lib st -> cache_ok lib (snd (dispatch lib processing_type d st)).
Proof.
  intros Hok. pose proof Hok as [Hnd _].
  pose proof (keeps_dispatch lib processing_type d st) as Hk.
  pose proof (advances_dispatch lib processing_type d st) as Ha.
  apply (cache_ok_next st); auto.
  - now rewrite Hk.
  - intros kv Hkv. left. now rewrite <- Hk.
Qed.

Lemma cache_store_result key v st :
  match oldest_key (cache st) with
  | Raise e =>
      Z.of_nat (List.length (cache st)) < max_cache_size cfg
      \/ cache_store lib cfg key v st = (Raise e, st)
  | Ok k => True
  end
  /\ (forall st', cache_store lib cfg key v st = (Ok tt, st') ->
        clock_reads st' = S (clock_reads st)
        /\ exists c, (c = cache st \/ exists k, c = Dict.del k (cache st))
                     /\ cache st'
                        = Dict.set key {| data := v;
                                          timestamp := clock lib (clock_reads st) |} c).
Proof.
  destruct (Z.lt_ge_cases (Z.of_nat (List.length (cache st))) (max_cache_size cfg))
    as [Hlt|Hge].
  - rewrite (cache_store_room lib cfg key v st Hlt). split.
    + destruct (oldest_key (cache st)); auto.
    + intros st' [= <-]. cbn [cache clock_reads]. split; [reflexivity|].
      exists (cache st). auto.
  - destruct (oldest_key (cache st)) as [k|e] eqn:Hk.
    + rewrite (cache_store_full lib cfg key v st k) by (lia || assumption).
      split; [exact I|]. intros st' [= <-]. cbn [cache clock_reads].
      split; [reflexivity|]. exists (Dict.del k (cache st)). split; [right; now exists k|reflexivity].
    + assert (Hr : cache_store lib cfg key v st = (Raise e, st)).
      { unfold cache_store, bind, get_cache. cbn [fst snd].
        destruct (Z.ltb_spec (Z.of_nat (List.length (cache st))) (max_cache_size cfg));
          [lia|].
        destruct (Z.leb_spec (max_cache_size cfg) (Z.of_nat (List.length (cache st))));
          [|lia].
        unfold lift. now rewrite Hk. }
      split; [now right|]. intros st'. rewrite Hr. discriminate.
Qed.

Lemma cache_store_ok key v st :
  cache_ok lib st -> cache_ok lib (snd (cache_store lib cfg key v st)).
Proof.
  intros Hok. pose proof Hok as [Hnd _].
  destruct (cache_store_result key v st) as [Hraise Hstore].
  destruct (cache_store lib cfg key v st) as [[[]|e] st'] eqn:Hs; cbn [snd].
  - destruct (Hstore st' eq_refl) as [Hr [c [Hc Hset]]].
    apply (cache_ok_next st); auto.
    + rewrite Hset. apply set_keys_NoDup.
      destruct Hc as [->|[k ->]]; [exact Hnd|now apply del_keys_NoDup].
    + intros kv Hkv. rewrite Hset in Hkv.
      destruct (set_In_inv _ _ _ _ Hkv) as [Hin| ->].
      * left. destruct Hc as [->|[k ->]]; [exact Hin|eapply del_subset; eassumption].
      * right. exists (clock_reads st). cbn [snd timestamp]. split; [lia|reflexivity].
    + lia.
  - assert (Hst : st' = st).
    { unfold cache_store, bind, get_cache in Hs. cbn [fst snd] in Hs.
      destruct (Z.ltb _ _); [discriminate Hs|].
      destruct (Z.leb _ _); [|discriminate Hs].
      unfold lift in Hs. destruct (oldest_key (cache st)); [discriminate Hs|].
      now injection Hs. }
    now rewrite Hst.
Qed.

Lemma process_payload_ok d processing_type st :
  cache_ok lib st -> cache_ok lib (snd (process_payload lib cfg d processing_type st)).
Proof.
  intros Hok. unfold process_payload.
  set (key := generate_cache_key lib d processing_type).
  unfold bind at 1.
  pose proof (cache_lookup_ok key st Hok) as H1.
  destruct (cache_lookup lib cfg key st) as [[[cached|]|e] st1]; cbn [snd] in *;
    try exact H1.
  unfold bind at 1.
  pose proof (dispatch_ok processing_type d st1 H1) as H2.
  destruct (dispatch lib processing_type d st1) as [[v|e] st2]; cbn [snd] in *;
    try exact H2.
  unfold bind.
  pose proof (cache_store_ok key v st2 H2) as H3.
  destruct (cache_store lib cfg key v st2) as [[[]|e] st3]; cbn [snd] in *; exact H3.
Qed.

Lemma process_data_ok d processing_type st :
  cache_ok lib st -> cache_ok lib (snd (process_data lib cfg d processing_type st)).
Proof.
  intros Hok. unfold process_data.
  destruct (negb (truthy d)); [exact Hok|].
  destruct d; try (apply process_payload_ok; assumption).
  destruct (json_loads lib s); [apply process_payload_ok; assumption|exact Hok].
Qed.

(** X15: after any sequence of [process_data] and [clear_cache] calls on
    a new processor, whether they returned or raised, the keys of the
    cache are pairwise distinct and every timestamp in it is a reading
    of the clock made before. *)
Theorem cache_stays_in_order (calls : list call) :
  distinct (Dict.keys (cache (run_calls lib cfg calls init))) = true
  /\ stamped lib (run_calls lib cfg calls init).
Proof.
  assert (H : cache_ok lib (run_calls lib cfg calls init)).
  { assert (H0 : cache_ok lib init) by (split; constructor).
    revert H0. generalize init as st. unfold run_calls.
    induction calls as [|c calls IH]; intros st Hok; cbn [fold_left]; [exact Hok|].
    apply IH. destruct c; cbn [run_call].
    - now apply process_data_ok.
    - split; constructor. }
  destruct H as [Hnd Hst]. split; [now apply distinct_NoDup|exact Hst].
Qed.

End CacheProperties.

(** ** Hits and misses of [process_data] *)

Section MemoProperties.

Variable lib : library.
Variable cfg : config.

Lemma process_data_payload d processing_type st :
  truthy d = true -> is_str d = false ->
  process_data lib cfg d processing_type st
  = process_payload lib cfg d processing_type st.
Proof.
  intros Ht Hs. unfold process_data. rewrite Ht. cbn [negb].
  destruct d; try reflexivity. discriminate Hs.
Qed.

Lemma process_payload_hit d processing_type st e :
  Dict.get (generate_cache_key lib d processing_type) (cache st) = Some e ->
  timedelta_fits (cache_ttl cfg) = true ->
  clock lib (clock_reads st) - timestamp e < microseconds (cache_ttl cfg) ->
  process_payload lib cfg d processing_type st
  = (Ok (data e), {| cache := cache st; clock_reads := S (clock_reads st) |}).
Proof.
  intros Hg Hfit Hf. unfold process_payload, bind.
  now rewrite (lookup_fresh_hit lib cfg _ st e Hg Hfit Hf).
Qed.

Lemma process_payload_overflow d processing_type st e :
  Dict.get (generate_cache_key lib d processing_type) (cache st) = Some e ->
  timedelta_fits (cache_ttl cfg) = false ->
  process_payload lib cfg d processing_type st
  = (Raise OverflowError, {| cache := cache st; clock_reads := S (clock_reads st) |}).
Proof.
  intros Hg Hfit. unfold process_payload, bind.
  now rewrite (lookup_beyond_timedelta lib cfg _ st e Hg Hfit).
Qed.

Lemma cache_store_holds key v st st' :
  cache_store lib cfg key v st = (Ok tt, st') ->
  Dict.get key (cache st')
  = Some {| data := v; timestamp := clock lib (clock_reads st) |}.
Proof.
  intros Hs. destruct (cache_store_result lib cfg key v st) as [_ H].
  destruct (H st' Hs) as [_ [c [_ ->]]]. apply set_get_same.
Qed.

Lemma process_payload_stored d processing_type st v st1 :
  process_payload lib cfg d processing_type st = (Ok v, st1) ->
  exists e, Dict.get (generate_cache_key lib d processing_type) (cache st1) = Some e
            /\ data e = v.
Proof.
  unfold process_payload. set (key := generate_cache_key lib d processing_type).
  unfold bind at 1.
  destruct (cache_lookup lib cfg key st) as [[[cached|]|e] st0] eqn:Hl;
    [| |discriminate].
  - unfold ret. intros [= <- <-]. revert Hl.
    destruct (Dict.get key (cache st)) as [e|] eqn:Hg;
      [|rewrite (cache_lookup_absent lib cfg key st Hg); discriminate].
    rewrite (cache_lookup_present lib cfg key st e Hg).
    destruct (timedelta_fits _); [|discriminate].
    destruct (Z.ltb _ _); [|discriminate].
    intros [= <- <-]. cbn [cache]. now exists e.
  - unfold bind at 1.
    destruct (dispatch lib processing_type d st0) as [[v'|e] st2]; [|discriminate].
    unfold bind.
    destruct (cache_store lib cfg key v' st2) as [[[]|e] st3] eqn:Hs; [|discriminate].
    unfold ret. intros [= <- <-].
    eexists. split; [eapply cache_store_holds; eassumption|reflexivity].
Qed.

(** X16: a result [process_data] returns for a payload that is no
    string is in the cache afterwards, under the key of the payload and
    the operation.  With a time to live that a [timedelta] holds, a
    second call with the same payload and operation, made while that
    entry is younger than the time to live, returns the same result,
    reads the clock once and leaves the cache as it is (the routine is
    not run again). *)
Theorem second_call_is_served_from_cache (d : value) (processing_type : string)
        (st st1 : state) (v : value) :
  truthy d = true -> is_str d = false ->
  process_data lib cfg d processing_type st = (Ok v, st1) ->
  exists e,
    Dict.get (generate_cache_key lib d processing_type) (cache st1) = Some e
    /\ data e = v
    /\ (timedelta_fits (cache_ttl cfg) = true ->
        clock lib (clock_reads st1) - timestamp e < microseconds (cache_ttl cfg) ->
        process_data lib cfg d processing_type st1
        = (Ok v, {| cache := cache st1; clock_reads := S (clock_reads st1) |})).
Proof.
  intros Ht Hs. rewrite !(process_data_payload d processing_type) by assumption.
  intros Hp. destruct (process_payload_stored _ _ _ _ _ Hp) as [e [Hg Hd]].
  exists e. split; [exact Hg|]. split; [exact Hd|].
  intros Hfit Hf. rewrite (process_payload_hit _ _ _ e Hg Hfit Hf). now rewrite Hd.
Qed.

(** X23: with a time to live that no [timedelta] holds (1000000000 days
    or more, or as far below zero), a call of [process_data] that
    returned is not served from the cache when it is repeated: the
    second call raises [OverflowError], whatever the age of the entry,
    once it has read the clock, and leaves the cache as it is.  Line 34
    builds [timedelta(seconds=self.cache_ttl)] for every key the cache
    holds. *)
Theorem second_call_raises_beyond_timedelta (d : value) (processing_type : string)
        (st st1 : state) (v : value) :
  truthy d = true -> is_str d = false ->
  timedelta_fits (cache_ttl cfg) = false ->
  process_data lib cfg d processing_type st = (Ok v, st1) ->
  process_data lib cfg d processing_type st1
  = (Raise OverflowError,
     {| cache := cache st1; clock_reads := S (clock_reads st1) |}).
Proof.
  intros Ht Hs Hfit. rewrite !(process_data_payload d processing_type) by assumption.
  intros Hp. destruct (process_payload_stored _ _ _ _ _ Hp) as [e [Hg _]].
  apply (process_payload_overflow _ _ _ e Hg Hfit).
Qed.

Lemma cache_lookup_miss key st :
  Dict.get key (cache st) = None -> cache_lookup lib cfg key st = (Ok None, st).
Proof. apply cache_lookup_absent. Qed.

(** X17: when the key of the payload and the operation is not in the
    cache, the cache has room and the routine returns, [process_data]
    returns the routine's result and appends one entry holding it,
    stamped with the next clock reading; no entry is removed. *)
Theorem miss_with_room_appends (d : value) (processing_type : string)
        (st st2 : state) (v : value) :
  truthy d = true -> is_str d = false ->
  Dict.get (generate_cache_key lib d processing_type) (cache st) = None ->
  Z.of_nat (List.length (cache st)) < max_cache_size cfg ->
  dispatch lib processing_type d st = (Ok v, st2) ->
  process_data lib cfg d processing_type st
  = (Ok v,
     {| cache := (cache st
                  ++ [(generate_cache_key lib d processing_type,
                       {| data := v; timestamp := clock lib (clock_reads st2) |})])%list;
        clock_reads := S (clock_reads st2) |}).
Proof.
  intros Ht Hs Hg Hroom Hd. rewrite process_data_payload by assumption.
  unfold process_payload, bind at 1. rewrite (cache_lookup_miss _ st Hg).
  unfold bind at 1. rewrite Hd. unfold bind.
  pose proof (keeps_dispatch lib processing_type d st) as Hk.
  rewrite Hd in Hk. cbn [snd] in Hk.
  rewrite cache_store_room by (rewrite Hk; exact Hroom).
  unfold ret. rewrite Hk, set_fresh by exact Hg. reflexivity.
Qed.

(** X18: when the key is not in the cache and the routine raises,
    [process_data] raises the same exception and the cache is as it
    was: a failed call stores nothing. *)
Theorem failed_call_stores_nothing (d : value) (processing_type : string)
        (st st2 : state) (e : exn) :
  truthy d = true -> is_str d = false ->
  Dict.get (generate_cache_key lib d processing_type) (cache st) = None ->
  dispatch lib processing_type d st = (Raise e, st2) ->
  process_data lib cfg d processing_type st = (Raise e, st2)
  /\ cache st2 = cache st.
Proof.
  intros Ht Hs Hg Hd. rewrite process_data_payload by assumption.
  unfold process_payload, bind at 1. rewrite (cache_lookup_miss _ st Hg).
  unfold bind. rewrite Hd. split; [reflexivity|].
  pose proof (keeps_dispatch lib processing_type d st) as Hk.
  now rewrite Hd in Hk.
Qed.

(** X19: when the entry under the key has reached the time to live (one
    that a [timedelta] holds), the cache is within its bound and the
    routine returns, [process_data] runs the routine again and replaces
    that entry by one holding the new result, placed last; every other
    entry stays, none is evicted. *)
Theorem expired_entry_is_replaced (d : value) (processing_type : string)
        (st st2 : state) (e : entry) (v : value) :
  truthy d = true -> is_str d = false ->
  distinct (Dict.keys (cache st)) = true ->
  Z.of_nat (List.length (cache st)) <= max_cache_size cfg ->
  Dict.get (generate_cache_key lib d processing_type) (cache st) = Some e ->
  timedelta_fits (cache_ttl cfg) = true ->
  microseconds (cache_ttl cfg) <= clock lib (clock_reads st) - timestamp e ->
  dispatch lib processing_type d
    {| cache := Dict.del (generate_cache_key lib d processing_type) (cache st);
       clock_reads := S (clock_reads st) |} = (Ok v, st2) ->
  process_data lib cfg d processing_type st
  = (Ok v,
     {| cache := (Dict.del (generate_cache_key lib d processing_type) (cache st)
                  ++ [(generate_cache_key lib d processing_type,
                       {| data := v; timestamp := clock lib (clock_reads st2) |})])%list;
        clock_reads := S (clock_reads st2) |}).
Proof.
  intros Ht Hs Hdist Hb Hg Hfit Hexp Hd. apply distinct_NoDup in Hdist.
  rewrite process_data_payload by assumption.
  unfold process_payload. set (key := generate_cache_key lib d processing_type) in *.
  assert (Hl : cache_lookup lib cfg key st
               = (Ok None, {| cache := Dict.del key (cache st);
                              clock_reads := S (clock_reads st) |})).
  { rewrite (cache_lookup_present lib cfg key st e Hg), Hfit.
    destruct (Z.ltb_spec (clock lib (clock_reads st) - timestamp e)
                (microseconds (cache_ttl cfg))); [lia|reflexivity]. }
  unfold bind at 1. rewrite Hl. unfold bind at 1. rewrite Hd. unfold bind.
  pose proof (keeps_dispatch lib processing_type d
                {| cache := Dict.del key (cache st);
                   clock_reads := S (clock_reads st) |}) as Hk.
  rewrite Hd in Hk. cbn [snd cache] in Hk.
  assert (Hlen : S (List.length (Dict.del key (cache st))) = List.length (cache st)).
  { apply del_length. apply in_map_iff. exists (key, e).
    split; [reflexivity|now apply get_some_in]. }
  rewrite cache_store_room by (rewrite Hk; lia).
  unfold ret. rewrite Hk, set_fresh by (now apply del_get_same). reflexivity.
Qed.

(** X20: a string that parses to a payload that is neither falsy nor a
    string is processed exactly as that payload: same result, same
    cache entry, same state. *)
Theorem json_text_is_processed_as_its_payload (s : string) (parsed : value)
        (processing_type : string) (st : state) :
  s <> EmptyString ->
  json_loads lib s = Some parsed ->
  truthy parsed = true -> is_str parsed = false ->
  process_data lib cfg (VStr s) processing_type st
  = process_data lib cfg parsed processing_type st.
Proof.
  intros Hne Hj Ht Hs. rewrite (process_data_payload parsed) by assumption.
  unfold process_data. destruct s as [|c s]; [congruence|].
  cbn [truthy PyStr.nonempty negb]. now rewrite Hj.
Qed.

End MemoProperties.

(** ** [_filter_data]: when it raises *)

Lemma float_of_value_raises (x : value) (e : exn) :
  float_of_value x = Raise e ->
  e = OverflowError /\ exists z, x = VInt z /\ PyFloat.of_int z = Raise OverflowError.
Proof.
  destruct x as [| [] | z | f | s | l | d]; try discriminate.
  cbn [float_of_value].
  destruct (PyFloat.of_int z) as [f|e'] eqn:E; [discriminate|].
  intros [= <-]. pose proof (of_int_raises z e' E) as ->.
  split; [reflexivity|]. now exists z.
Qed.

Section FilterErrors.

Variable lib : library.

Lemma created_at_rule_returns item st :
  exists b st', created_at_rule lib item st = (Ok b, st').
Proof.
  unfold created_at_rule, created_recently.
  destruct (Dict.get "created_at" item) as [x|]; [|now eexists; eexists].
  destruct x; try (now eexists; eexists).
  destruct (fromisoformat lib s) as [created|]; [|now eexists; eexists].
  unfold bind, now, ret. cbn [fst snd].
  destruct (aware created); now eexists; eexists.
Qed.

Lemma should_include_dict_raises item st e st' :
  should_include_dict lib item st = (Raise e, st') ->
  e = OverflowError
  /\ exists z, Dict.get "score" item = Some (VInt z)
               /\ PyFloat.of_int z = Raise OverflowError.
Proof.
  assert (Hs : score_rule lib item st = (Raise e, st') ->
               e = OverflowError
               /\ exists z, Dict.get "score" item = Some (VInt z)
                            /\ PyFloat.of_int z = Raise OverflowError).
  { unfold score_rule.
    destruct (created_at_rule_returns item st) as [b [st1 Hc]].
    destruct (Dict.get "score" item) as [x|]; [|rewrite Hc; discriminate].
    unfold bind, lift.
    destruct (float_of_value x) as [[score|]|e'] eqn:Ef.
    - discriminate.
    - rewrite Hc. discriminate.
    - intros [= <- <-]. destruct (float_of_value_raises x e' Ef) as [-> [z [-> Hz]]].
      split; [reflexivity|]. now exists z. }
  unfold should_include_dict.
  destruct (Dict.get "status" item) as [x|]; [|exact Hs].
  destruct (value_in x _); [discriminate|].
  destruct (value_in x _); [discriminate|exact Hs].
Qed.

(** X21: filter raises only [OverflowError], and only when the sequence
    holds a mapping whose [score] is an integer too large for a float. *)
Theorem filter_raises_only_on_huge_score (l : list value) (st st' : state) (e : exn) :
  filter_data lib (VList l) st = (Raise e, st') ->
  e = OverflowError
  /\ exists d z, In (VDict d) l /\ Dict.get "score" d = Some (VInt z)
                 /\ PyFloat.of_int z = Raise OverflowError.
Proof.
  cbn [filter_data]. unfold bind at 1.
  destruct (filter_items lib l st) as [[filtered|e'] st1] eqn:Hf; [discriminate|].
  intros [= <- <-]. revert st Hf.
  induction l as [|item rest IH]; intros st; cbn [filter_items]; [discriminate|].
  unfold bind at 1.
  destruct (keep_item lib item st) as [[keep|e0] st2] eqn:Hk.
  - unfold bind at 1.
    destruct (filter_items lib rest st2) as [[filtered|e1] st3] eqn:Hr; [discriminate|].
    intros [= <- <-]. destruct (IH _ Hr) as [He [d [z [Hin H]]]].
    split; [exact He|]. exists d, z. split; [now right|exact H].
  - intros [= <- <-].
    destruct item as [| b | z | f | s | l' | d]; try discriminate Hk.
    cbn [keep_item] in Hk.
    destruct (should_include_dict_raises d st e0 st2 Hk) as [He [z Hz]].
    split; [exact He|]. exists d, z. split; [now left|exact Hz].
Qed.

End FilterErrors.

(** ** [_transform_data]: the keys of the result *)

Section TransformKeys.

Variable lib : library.

Lemma transform_str_keyed (s : string) :
  well_formed (transform_str lib s) = true /\ lower_keyed (transform_str lib s) = true.
Proof.
  unfold transform_str.
  destruct (is_date_string s).
  - destruct (fromisoformat lib s); split; reflexivity.
  - destruct (_ || _)%bool; split; reflexivity.
Qed.

Lemma transform_items_keys (items : list (string * value)) :
  Forall (fun kv => well_formed (transform_data lib (snd kv)) = true
                    /\ lower_keyed (transform_data lib (snd kv)) = true) items ->
  forall acc,
  NoDup (Dict.keys acc) -> Forall normalized_entry acc ->
  NoDup (Dict.keys (transform_items lib (transform_data lib) items acc))
  /\ Forall normalized_entry (transform_items lib (transform_data lib) items acc).
Proof.
  induction items as [|[k v] items IH]; intros HIH acc Hnd Hacc; cbn [transform_items].
  - auto.
  - inversion HIH as [|? ? Hv HIH']; subst. cbn [snd] in Hv.
    apply (IH HIH').
    + now apply set_keys_NoDup.
    + apply set_Forall; [|exact Hacc].
      split; [unfold transform_key; apply lower_idem|]. cbn [snd].
      destruct v as [| b | z | f | s | l | d]; cbn [transform_value];
        try (split; reflexivity); try exact Hv.
      apply transform_str_keyed.
Qed.

(** X22: whatever the keys of the input, a payload returned by
    transform has, in every mapping at every depth, pairwise distinct
    keys that are all lower-case. *)
Theorem transform_keys_distinct_lower (p : value) :
  well_formed (transform_data lib p) = true
  /\ lower_keyed (transform_data lib p) = true.
Proof.
  induction p as [| b | z | f | s | l IHl | d IHd] using value_ind';
    try (split; reflexivity).
  - cbn [transform_data well_formed lower_keyed].
    induction IHl as [|x l [H1 H2] _ IH]; [split; reflexivity|].
    destruct IH as [H3 H4]. cbn [map forallb]. now rewrite H1, H2, H3, H4.
  - cbn [transform_data].
    destruct (transform_items_keys d IHd []) as [Hnd Hall]; [constructor|constructor|].
    now apply normalized_entries_keyed.
Qed.

End TransformKeys.

(* ================================================================== *)
(** * The further properties at sample inputs *)

Lemma transform_key_keeps_lower_case_witness :
  PyStr.lower "user_id2" = "user_id2" /\ transform_key "user_id2" = "user_id2".
Proof.
  split; [reflexivity|].
  apply (transform_key_keeps_lower_case "user_id2"). reflexivity.
Defined.

Lemma normalize_list_of_scalars_witness :
  forallb (fun x => negb (is_container x)) [VStr "TRUE"; VInt 3; VNone] = true
  /\ normalize_data (VList [VStr "TRUE"; VInt 3; VNone])
     = Ok (VList [VStr "TRUE"; VInt 3; VNone]).
Proof.
  split; [reflexivity|].
  apply (normalize_list_of_scalars [VStr "TRUE"; VInt 3; VNone]). reflexivity.
Defined.

Lemma normalize_keys_distinct_lower_witness :
  normalize_data (VDict [("A", VInt 1); ("a", VDict [("B", VNone)])])
  = Ok (VDict [("a", VDict [("b", VNone)])])
  /\ well_formed (VDict [("a", VDict [("b", VNone)])]) = true
  /\ lower_keyed (VDict [("a", VDict [("b", VNone)])]) = true.
Proof.
  split; [vm_compute; reflexivity|].
  apply (normalize_keys_distinct_lower
           (VDict [("A", VInt 1); ("a", VDict [("B", VNone)])])).
  vm_compute. reflexivity.
Defined.

Lemma aggregate_raises_only_overflow_witness :
  aggregate_data Sample.huge = Raise OverflowError
  /\ OverflowError = OverflowError.
Proof.
  split; [vm_compute; reflexivity|].
  apply (aggregate_raises_only_overflow Sample.huge OverflowError).
  vm_compute. reflexivity.
Defined.

Lemma string_stats_counts_witness :
  string_stats [VStr "ab"; VStr "ab"; VInt 1]
  = Ok [("total_length", VInt 4);
        ("avg_length", VFloat (S754_finite false 4503599627370496 (-51)));
        ("unique_count", VInt 1)]
  /\ strings_of [VStr "ab"; VStr "ab"; VInt 1] <> []
  /\ Dict.get "unique_count"
       [("total_length", VInt 4);
        ("avg_length", VFloat (S754_finite false 4503599627370496 (-51)));
        ("unique_count", VInt 1)]
     = Some (VInt (Z.of_nat (List.length
                               (nodup string_dec
                                  (strings_of [VStr "ab"; VStr "ab"; VInt 1])))))
  /\ Dict.get "total_length"
       [("total_length", VInt 4);
        ("avg_length", VFloat (S754_finite false 4503599627370496 (-51)));
        ("unique_count", VInt 1)]
     = Some (VInt (Z.of_nat (list_sum
                               (map String.length
                                  (strings_of [VStr "ab"; VStr "ab"; VInt 1]))))).
Proof.
  split; [vm_compute; reflexivity|].
  split; [discriminate|].
  apply (string_stats_counts [VStr "ab"; VStr "ab"; VInt 1]);
    [vm_compute; reflexivity|discriminate].
Defined.

Lemma numeric_stats_of_integers_witness :
  forallb (fun v => negb (is_float v)) [VBool true; VInt (-2); VStr "x"; VInt 7] = true
  /\ numeric_stats [VBool true; VInt (-2); VStr "x"; VInt 7]
     = Ok [("min", VInt (-2)); ("max", VInt 7);
           ("avg", VFloat (S754_finite false 4503599627370496 (-51)));
           ("sum", VInt 6)]
  /\ ints [VBool true; VInt (-2); VStr "x"; VInt 7] <> []
  /\ (Dict.get "sum" [("min", VInt (-2)); ("max", VInt 7);
                      ("avg", VFloat (S754_finite false 4503599627370496 (-51)));
                      ("sum", VInt 6)]
      = Some (VInt (fold_right Z.add 0 (ints [VBool true; VInt (-2); VStr "x"; VInt 7])))
      /\ (exists mn zmin,
            Dict.get "min" [("min", VInt (-2)); ("max", VInt 7);
                            ("avg", VFloat (S754_finite false 4503599627370496 (-51)));
                            ("sum", VInt 6)] = Some mn
            /\ In mn [VBool true; VInt (-2); VStr "x"; VInt 7]
            /\ as_num mn = Some (NInt zmin)
            /\ forall z, In z (ints [VBool true; VInt (-2); VStr "x"; VInt 7]) -> zmin <= z)
      /\ (exists mx zmax,
            Dict.get "max" [("min", VInt (-2)); ("max", VInt 7);
                            ("avg", VFloat (S754_finite false 4503599627370496 (-51)));
                            ("sum", VInt 6)] = Some mx
            /\ In mx [VBool true; VInt (-2); VStr "x"; VInt 7]
            /\ as_num mx = Some (NInt zmax)
            /\ forall z, In z (ints [VBool true; VInt (-2); VStr "x"; VInt 7]) -> z <= zmax)).
Proof.
  split; [reflexivity|].
  split; [vm_compute; reflexivity|].
  split; [discriminate|].
  apply (numeric_stats_of_integers [VBool true; VInt (-2); VStr "x"; VInt 7]);
    [reflexivity|vm_compute; reflexivity|discriminate].
Defined.

Lemma filter_keeps_in_order_witness :
  filter_data Sample.lib (VList Sample.mixed) init
  = (Ok (VList [VInt 5; VNone; VStr "a"]), init)
  /\ (subseq [VInt 5; VNone; VStr "a"] Sample.mixed
      /\ (forall s, In (VStr s) [VInt 5; VNone; VStr "a"] -> PyStr.strip s <> EmptyString)
      /\ (forall z, In (VInt z) [VInt 5; VNone; VStr "a"] -> 0 < z)
      /\ (forall b, In (VBool b) [VInt 5; VNone; VStr "a"] -> b = true)
      /\ (forall f, In (VFloat f) [VInt 5; VNone; VStr "a"] -> positive_float f = true)
      /\ (forall x, In x Sample.mixed -> is_none_or_list x = true ->
                    In x [VInt 5; VNone; VStr "a"])
      /\ (forall z, In (VInt z) Sample.mixed -> 0 < z ->
                    In (VInt z) [VInt 5; VNone; VStr "a"])).
Proof.
  split; [vm_compute; reflexivity|].
  apply (filter_keeps_in_order Sample.lib Sample.mixed [VInt 5; VNone; VStr "a"] init init).
  vm_compute. reflexivity.
Defined.

Lemma filter_idempotent_without_created_at_witness :
  forallb timeless Sample.mixed = true
  /\ filter_data Sample.lib (VList Sample.mixed) init
     = (Ok (VList [VInt 5; VNone; VStr "a"]), init)
  /\ init = init
  /\ filter_data Sample.lib (VList [VInt 5; VNone; VStr "a"]) init
     = (Ok (VList [VInt 5; VNone; VStr "a"]), init).
Proof.
  split; [reflexivity|].
  split; [vm_compute; reflexivity|].
  apply (filter_idempotent_without_created_at Sample.lib Sample.mixed
           (VList [VInt 5; VNone; VStr "a"]) init init);
    [reflexivity|vm_compute; reflexivity].
Defined.

Lemma transform_list_of_scalars_witness :
  forallb (fun x => negb (is_container x)) [VStr "http://a/b"; VInt 1] = true
  /\ transform_data Sample.lib (VList [VStr "http://a/b"; VInt 1])
     = VList [VStr "http://a/b"; VInt 1].
Proof.
  split; [reflexivity|].
  apply (transform_list_of_scalars Sample.lib [VStr "http://a/b"; VInt 1]). reflexivity.
Defined.

Lemma transform_url_domain_witness :
  ("https://" = "http://" \/ "https://" = "https://")
  /\ PyStr.all_chars host_char "example.com:8080" = true
  /\ after_host "/x?y" = true
  /\ transform_str Sample.lib ("https://" ++ "example.com:8080" ++ "/x?y")
     = VDict [("url", VStr ("https://" ++ "example.com:8080" ++ "/x?y"));
              ("domain", VStr "example.com:8080")].
Proof.
  split; [right; reflexivity|].
  split; [reflexivity|]. split; [reflexivity|].
  apply (transform_url_domain Sample.lib "https://" "example.com:8080" "/x?y");
    [right; reflexivity|reflexivity|reflexivity].
Defined.

Lemma second_call_is_served_from_cache_witness :
  truthy Sample.numbers = true
  /\ is_str Sample.numbers = false
  /\ process_data Sample.lib Sample.cfg Sample.numbers "filter" init
     = (Ok (VList [VInt 5]), Sample.after_first)
  /\ exists e,
       Dict.get (generate_cache_key Sample.lib Sample.numbers "filter")
         (cache Sample.after_first) = Some e
       /\ data e = VList [VInt 5]
       /\ (timedelta_fits (cache_ttl Sample.cfg) = true ->
           clock Sample.lib (clock_reads Sample.after_first) - timestamp e
           < microseconds (cache_ttl Sample.cfg) ->
           process_data Sample.lib Sample.cfg Sample.numbers "filter" Sample.after_first
           = (Ok (VList [VInt 5]),
              {| cache := cache Sample.after_first;
                 clock_reads := S (clock_reads Sample.after_first) |})).
Proof.
  split; [reflexivity|]. split; [reflexivity|].
  split; [vm_compute; reflexivity|].
  apply (second_call_is_served_from_cache Sample.lib Sample.cfg Sample.numbers "filter"
           init Sample.after_first (VList [VInt 5]));
    [reflexivity|reflexivity|vm_compute; reflexivity].
Defined.

Lemma miss_with_room_appends_witness :
  truthy Sample.numbers = true
  /\ is_str Sample.numbers = false
  /\ Dict.get (generate_cache_key Sample.lib Sample.numbers "filter") (cache init) = None
  /\ Z.of_nat (List.length (cache init)) < max_cache_size Sample.cfg
  /\ dispatch Sample.lib "filter" Sample.numbers init = (Ok (VList [VInt 5]), init)
  /\ process_data Sample.lib Sample.cfg Sample.numbers "filter" init
     = (Ok (VList [VInt 5]),
        {| cache := (cache init
                     ++ [(generate_cache_key Sample.lib Sample.numbers "filter",
                          {| data := VList [VInt 5];
                             timestamp := clock Sample.lib (clock_reads init) |})])%list;
           clock_reads := S (clock_reads init) |}).
Proof.
  split; [reflexivity|]. split; [reflexivity|]. split; [reflexivity|].
  split; [reflexivity|]. split; [vm_compute; reflexivity|].
  apply (miss_with_room_appends Sample.lib Sample.cfg Sample.numbers "filter"
           init init (VList [VInt 5]));
    [reflexivity|reflexivity|reflexivity|reflexivity|vm_compute; reflexivity].
Defined.

Lemma failed_call_stores_nothing_witness :
  truthy Sample.huge = true
  /\ is_str Sample.huge = false
  /\ Dict.get (generate_cache_key Sample.lib Sample.huge "aggregate") (cache init) = None
  /\ dispatch Sample.lib "aggregate" Sample.huge init = (Raise OverflowError, init)
  /\ process_data Sample.lib Sample.cfg Sample.huge "aggregate" init
     = (Raise OverflowError, init)
  /\ cache init = cache init.
Proof.
  split; [reflexivity|]. split; [reflexivity|]. split; [reflexivity|].
  split; [vm_compute; reflexivity|].
  apply (failed_call_stores_nothing Sample.lib Sample.cfg Sample.huge "aggregate"
           init init OverflowError);
    [reflexivity|reflexivity|reflexivity|vm_compute; reflexivity].
Defined.

Lemma expired_entry_is_replaced_witness :
  truthy Sample.numbers = true
  /\ is_str Sample.numbers = false
  /\ distinct (Dict.keys (cache Sample.stale)) = true
  /\ Z.of_nat (List.length (cache Sample.stale)) <= max_cache_size Sample.cfg
  /\ Dict.get (generate_cache_key Sample.lib Sample.numbers "filter") (cache Sample.stale)
     = Some {| data := VNone; timestamp := 0 |}
  /\ timedelta_fits (cache_ttl Sample.cfg) = true
  /\ microseconds (cache_ttl Sample.cfg)
     <= clock Sample.lib (clock_reads Sample.stale) - 0
  /\ dispatch Sample.lib "filter" Sample.numbers
       {| cache := Dict.del (generate_cache_key Sample.lib Sample.numbers "filter")
                     (cache Sample.stale);
          clock_reads := S (clock_reads Sample.stale) |}
     = (Ok (VList [VInt 5]), {| cache := []; clock_reads := 5 |})
  /\ process_data Sample.lib Sample.cfg Sample.numbers "filter" Sample.stale
     = (Ok (VList [VInt 5]),
        {| cache := (Dict.del (generate_cache_key Sample.lib Sample.numbers "filter")
                       (cache Sample.stale)
                     ++ [(generate_cache_key Sample.lib Sample.numbers "filter",
                          {| data := VList [VInt 5];
                             timestamp := clock Sample.lib 5 |})])%list;
           clock_reads := 6 |}).
Proof.
  split; [reflexivity|]. split; [reflexivity|]. split; [reflexivity|].
  split; [vm_compute; discriminate|]. split; [vm_compute; reflexivity|].
  split; [reflexivity|].
  split; [vm_compute; discriminate|]. split; [vm_compute; reflexivity|].
  apply (expired_entry_is_replaced Sample.lib Sample.cfg Sample.numbers "filter"
           Sample.stale {| cache := []; clock_reads := 5 |}
           {| data := VNone; timestamp := 0 |} (VList [VInt 5]));
    [reflexivity|reflexivity|reflexivity|vm_compute; discriminate
    |vm_compute; reflexivity|reflexivity|vm_compute; discriminate
    |vm_compute; reflexivity].
Defined.

Lemma second_call_raises_beyond_timedelta_witness :
  truthy Sample.numbers = true
  /\ is_str Sample.numbers = false
  /\ timedelta_fits (cache_ttl Sample.cfg_long) = false
  /\ process_data Sample.lib Sample.cfg_long Sample.numbers "filter" init
     = (Ok (VList [VInt 5]), Sample.after_first)
  /\ process_data Sample.lib Sample.cfg_long Sample.numbers "filter" Sample.after_first
     = (Raise OverflowError,
        {| cache := cache Sample.after_first;
           clock_reads := S (clock_reads Sample.after_first) |}).
Proof.
  split; [reflexivity|]. split; [reflexivity|]. split; [reflexivity|].
  split; [vm_compute; reflexivity|].
  apply (second_call_raises_beyond_timedelta Sample.lib Sample.cfg_long Sample.numbers
           "filter" init Sample.after_first (VList [VInt 5]));
    [reflexivity|reflexivity|reflexivity|vm_compute; reflexivity].
Defined.

Lemma json_text_is_processed_as_its_payload_witness :
  "[1, 2]" <> EmptyString
  /\ json_loads Sample.lib_json "[1, 2]" = Some (VList [VInt 1; VInt 2])
  /\ truthy (VList [VInt 1; VInt 2]) = true
  /\ is_str (VList [VInt 1; VInt 2]) = false
  /\ process_data Sample.lib_json Sample.cfg (VStr "[1, 2]") "aggregate" init
     = process_data Sample.lib_json Sample.cfg (VList [VInt 1; VInt 2]) "aggregate" init.
Proof.
  split; [discriminate|]. split; [reflexivity|].
  split; [reflexivity|]. split; [reflexivity|].
  apply (json_text_is_processed_as_its_payload Sample.lib_json Sample.cfg "[1, 2]"
           (VList [VInt 1; VInt 2]) "aggregate" init);
    [discriminate|reflexivity|reflexivity|reflexivity].
Defined.

Lemma filter_raises_only_on_huge_score_witness :
  filter_data Sample.lib (VList [VDict [("score", VInt (10 ^ 400))]]) init
  = (Raise OverflowError, init)
  /\ OverflowError = OverflowError
  /\ exists d z, In (VDict d) [VDict [("score", VInt (10 ^ 400))]]
                 /\ Dict.get "score" d = Some (VInt z)
                 /\ PyFloat.of_int z = Raise OverflowError.
Proof.
  split; [vm_compute; reflexivity|].
  apply (filter_raises_only_on_huge_score Sample.lib
           [VDict [("score", VInt (10 ^ 400))]] init init OverflowError).
  vm_compute. reflexivity.
Defined.

(** A string of 4300 nines is read as the integer; one more digit and
    [int] raises [ValueError], which leaves normalize. *)
Example normalize_long_digits :
  normalize_data (VDict [("n", VStr (Sample.nines 4300))])
  = Ok (VDict [("n", VInt (10 ^ 4300 - 1))])
  /\ normalize_data (VDict [("n", VStr (Sample.nines 4301))]) = Raise ValueError
  /\ digits_int_safe (VDict [("n", VStr (Sample.nines 4301))]) = false.
Proof. split; [|split]; vm_compute; reflexivity. Qed.
